(** * mediasoup worker: SimpleConsumer, RtpStream and RtpEncodingParameters

  A shallow embedding of
    - worker/include/RTC/RtpStream.hpp (the inline accessors),
    - worker/src/RTC/SimpleConsumer.cpp,
    - worker/src/RTC/RtpDictionaries/RtpEncodingParameters.cpp,
  and the properties the specification states about them.

  Conventions.  A C++ unsigned integer of width w is a [Z] in
  [0, 2^w); every place where the C++ code computes in a fixed width is
  written with [wrap].  A method that mutates [this] is a function
  from the old object to the new one.  A subscript on an empty vector
  (undefined behaviour in C++) makes the function return [None].
  Classes whose code is not part of the sources (SeqManager,
  RtpStreamSend, the Consumer listener, the codec payload handlers)
  are interfaces: type classes whose operations thread the state of
  the collaborator. *)

From Stdlib Require Import ZArith Lia Bool List String.
From Stdlib Require Import Floats.SpecFloat.
From Stdlib Require QArith.
From stdpp Require Import base gmap strings list.

Local Open Scope string_scope.
Local Open Scope Z_scope.

Set Warnings "-register-all".

(** ** Fixed-width unsigned arithmetic *)

Module Uint.

Definition wrap (w : Z) (x : Z) : Z := x mod 2 ^ w.

Definition u8 := wrap 8.
Definition u16 := wrap 16.
Definition u32 := wrap 32.
Definition u64 := wrap 64.

Definition in_range (w : Z) (x : Z) : Prop := 0 <= x < 2 ^ w.

End Uint.

(** ** RtpStream.hpp *)

Module RtpStream.

(** [RtpStream::Params].  [cname] and [useInBandFec] are assigned by
    SimpleConsumer::CreateRtpStream. *)
Record Params := {
  ssrc : Z;            (* uint32_t *)
  payloadType : Z;     (* uint8_t *)
  mimeType : string;   (* RTC::RtpCodecMimeType *)
  clockRate : Z;       (* uint32_t *)
  rid : string;
  rtxSsrc : Z;         (* uint32_t *)
  rtxPayloadType : Z;  (* uint8_t *)
  useNack : bool;
  usePli : bool;
  useFir : bool;
  useInBandFec : bool;
  cname : string
}.

Definition Params_default : Params :=
  {| ssrc := 0; payloadType := 0; mimeType := ""; clockRate := 0;
     rid := ""; rtxSsrc := 0; rtxPayloadType := 0; useNack := false;
     usePli := false; useFir := false; useInBandFec := false;
     cname := "" |}.

Definition set_useNack (v : bool) (p : Params) : Params :=
  {| ssrc := ssrc p; payloadType := payloadType p; mimeType := mimeType p;
     clockRate := clockRate p; rid := rid p; rtxSsrc := rtxSsrc p;
     rtxPayloadType := rtxPayloadType p; useNack := v; usePli := usePli p;
     useFir := useFir p; useInBandFec := useInBandFec p; cname := cname p |}.

Definition set_usePli (v : bool) (p : Params) : Params :=
  {| ssrc := ssrc p; payloadType := payloadType p; mimeType := mimeType p;
     clockRate := clockRate p; rid := rid p; rtxSsrc := rtxSsrc p;
     rtxPayloadType := rtxPayloadType p; useNack := useNack p; usePli := v;
     useFir := useFir p; useInBandFec := useInBandFec p; cname := cname p |}.

Definition set_useFir (v : bool) (p : Params) : Params :=
  {| ssrc := ssrc p; payloadType := payloadType p; mimeType := mimeType p;
     clockRate := clockRate p; rid := rid p; rtxSsrc := rtxSsrc p;
     rtxPayloadType := rtxPayloadType p; useNack := useNack p;
     usePli := usePli p; useFir := v; useInBandFec := useInBandFec p;
     cname := cname p |}.

(** The data members of [class RtpStream] the inline methods read. *)
Record t := {
  params : Params;
  packetsLost : Z;      (* uint32_t *)
  fractionLost : Z;     (* uint8_t *)
  packetsDiscarded : Z;
  packetsRepaired : Z;
  nackCount : Z;
  nackRtpPacketCount : Z;
  pliCount : Z;
  firCount : Z;
  paused : bool;
  maxSeq : Z;           (* uint16_t: highest seq. number seen *)
  cycles : Z;           (* uint32_t: shifted count of seq. number cycles *)
  baseSeq : Z;          (* uint32_t: base seq number *)
  badSeq : Z;           (* uint32_t: last 'bad' seq number + 1 *)
  maxPacketTs : Z;      (* uint32_t: highest timestamp seen *)
  maxPacketMs : Z       (* uint64_t: when that packet was seen *)
}.

Definition GetSsrc (s : t) : Z := ssrc (params s).
Definition GetPayloadType (s : t) : Z := payloadType (params s).
Definition GetClockRate (s : t) : Z := clockRate (params s).
Definition HasRtx (s : t) : bool := negb (rtxSsrc (params s) =? 0).
Definition GetRtxSsrc (s : t) : Z := rtxSsrc (params s).
Definition GetRtxPayloadType (s : t) : Z := rtxPayloadType (params s).
Definition IsPaused (s : t) : bool := paused s.
Definition GetMaxPacketMs (s : t) : Z := maxPacketMs s.

(** [return (this->cycles + this->maxSeq) - this->baseSeq + 1;]
    [cycles] and [baseSeq] are uint32_t and [maxSeq] is promoted, so
    each operation is a uint32_t operation; the result is then widened
    to size_t, which does not change it. *)
Definition GetExpectedPackets (s : t) : Z :=
  Uint.u32 (Uint.u32 (Uint.u32 (cycles s + maxSeq s) - baseSeq s) + 1).

(** A stream whose counters are all zero, with the given A.1 state. *)
Definition with_seq (maxSeq cycles baseSeq : Z) : t :=
  {| params := Params_default; packetsLost := 0; fractionLost := 0;
     packetsDiscarded := 0; packetsRepaired := 0; nackCount := 0;
     nackRtpPacketCount := 0; pliCount := 0; firCount := 0;
     paused := false; maxSeq := maxSeq; cycles := cycles;
     baseSeq := baseSeq; badSeq := 0; maxPacketTs := 0;
     maxPacketMs := 0 |}.

End RtpStream.

(** ** Errors *)

(** MediaSoupErrors.hpp: [MS_THROW_TYPE_ERROR] throws a
  [MediaSoupTypeError] carrying the formatted reason. *)
Inductive Error : Type :=
| TypeError (reason : string).

Inductive Outcome (A : Type) : Type :=
| Ok (a : A)
| Throw (e : Error).
Arguments Ok {A} a.
Arguments Throw {A} e.

(** ** nlohmann::json values *)

Module Json.

(** The value kinds of [nlohmann::json].  An object is an ordered map
    with unique keys. *)
Inductive json : Type :=
  | null
  | boolean (b : bool)
  | number_unsigned (n : Z)          (* uint64_t *)
  | number_integer (z : Z)           (* int64_t *)
  | number_float (f : spec_float)    (* double *)
  | str (s : string)
  | array (l : list json)
  | object (m : gmap string json).

(** [data.find(key)] on an object; [None] is [data.end()]. *)
Definition find (key : string) (data : gmap string json) : option json :=
  data !! key.

(** [jsonObject[key] = value] on an object. *)
Definition set (key : string) (value : json) (m : gmap string json)
  : gmap string json := <[key := value]> m.

End Json.

(** ** IEEE 754 binary64 and binary32, as the C++ [double] and [float] *)

Module Ieee.

Definition double_of_Z (z : Z) : spec_float :=
  binary_normalize 53 1024 z 0 false.

Definition float_of_Z (z : Z) : spec_float :=
  binary_normalize 24 128 z 0 false.

(** [static_cast<float>(x)] for a double [x]: round to nearest even
    at 24 bits. *)
Definition float_of_double (x : spec_float) : spec_float :=
  match x with
  | S754_finite s m e => binary_round 24 128 s m e
  | _ => x
  end.

Definition dmul := SFmul 53 1024.

Definition zero : spec_float := S754_zero false.

(** The literal [1.15]: the double nearest to 115/100,
    0x3FF2666666666666. *)
Definition d1_15 : spec_float := S754_finite false 5179139571476070 (-52).

(** [static_cast<float>(d * 1.15)] for an unsigned integer [d]. *)
Definition scaled_1_15 (d : Z) : spec_float :=
  float_of_double (dmul (double_of_Z d) d1_15).

(** [P] holds of the [fuel] integers from [z] on. *)
Fixpoint forall_range (fuel : nat) (z : Z) (P : Z -> bool) : bool :=
  match fuel with
  | O => true
  | S k => P z && forall_range k (z + 1) P
  end.

(** The order of positive finite floats of one format, read off the
    exponent and then the mantissa. *)
Definition positive_le (a b : spec_float) : bool :=
  match a, b with
  | S754_finite false ma ea, S754_finite false mb eb =>
      (ea <? eb) || ((ea =? eb) && Pos.leb ma mb)
  | _, _ => false
  end.

(** The least integer [i] with [115 * d < 100 * i]. *)
Definition least_above_1_15 (d : Z) : Z := 115 * d / 100 + 1.

End Ieee.

(** ** RtpDictionaries *)

Module RtpRtxParameters.

Record t := { ssrc : Z (* uint32_t *) }.

Definition default : t := {| ssrc := 0 |}.

End RtpRtxParameters.

Module RtpEncodingParameters.

Record t := {
  ssrc : Z;                   (* uint32_t *)
  rid : string;
  codecPayloadType : Z;       (* uint8_t *)
  hasCodecPayloadType : bool;
  rtx : RtpRtxParameters.t;
  hasRtx : bool;
  maxBitrate : Z;             (* uint32_t *)
  maxFramerate : spec_float   (* double *)
}.

(** The members as their initialisers leave them: zero, empty and
    false, the values [FillJson] takes for "not set". *)
Definition default : t :=
  {| ssrc := 0; rid := ""; codecPayloadType := 0;
     hasCodecPayloadType := false; rtx := RtpRtxParameters.default;
     hasRtx := false; maxBitrate := 0; maxFramerate := Ieee.zero |}.

Definition well_typed (e : t) : Prop :=
  Uint.in_range 32 (ssrc e) /\ Uint.in_range 8 (codecPayloadType e) /\
  Uint.in_range 32 (maxBitrate e).

Section WithRtx.

  (** [RtpRtxParameters(json&)] and [RtpRtxParameters::FillJson] are
      defined in RtpRtxParameters.cpp, which is not among the
      sources. *)
Variable RtpRtxParameters_FromJson : Json.json -> Outcome RtpRtxParameters.t.
Variable RtpRtxParameters_FillJson : RtpRtxParameters.t -> Json.json.

  (** [get<double>()] on a value for which [is_number()] holds. *)
Definition get_double (j : Json.json) : option spec_float :=
    match j with
    | Json.number_unsigned n => Some (Ieee.double_of_Z n)
    | Json.number_integer z => Some (Ieee.double_of_Z z)
    | Json.number_float f => Some f
    | _ => None
    end.

  (** [RtpEncodingParameters::RtpEncodingParameters(json& data)] *)
Definition FromJson (data : Json.json) : Outcome t :=
    match data with
    | Json.object m =>
        let jsonSsrcIt := Json.find "ssrc" m in
        let jsonRidIt := Json.find "rid" m in
        let jsonCodecPayloadTypeIt := Json.find "codecPayloadType" m in
        let jsonRtxIt := Json.find "rtx" m in
        let jsonMaxBitrateIt := Json.find "maxBitrate" m in
        let jsonMaxFramerateIt := Json.find "maxFramerate" m in
        (* ssrc is optional. *)
        let ssrc :=
          match jsonSsrcIt with
          | Some (Json.number_unsigned n) => Uint.u32 n
          | _ => ssrc default
          end in
        (* rid is optional. *)
        let rid :=
          match jsonRidIt with
          | Some (Json.str s) => s
          | _ => rid default
          end in
        (* codecPayloadType is optional. *)
        let '(codecPayloadType, hasCodecPayloadType) :=
          match jsonCodecPayloadTypeIt with
          | Some (Json.number_unsigned n) => (Uint.u8 n, true)
          | _ => (codecPayloadType default, hasCodecPayloadType default)
          end in
        (* rtx is optional.  This may throw. *)
        let rtx_result :=
          match jsonRtxIt with
          | Some (Json.object r) =>
              match RtpRtxParameters_FromJson (Json.object r) with
              | Ok x => Ok (x, true)
              | Throw err => Throw err
              end
          | _ => Ok (rtx default, hasRtx default)
          end in
        match rtx_result with
        | Throw err => Throw err
        | Ok (rtx, hasRtx) =>
            (* maxBitrate is optional. *)
            let maxBitrate :=
              match jsonMaxBitrateIt with
              | Some (Json.number_unsigned n) => Uint.u32 n
              | _ => maxBitrate default
              end in
            (* maxFramerate is optional. *)
            let maxFramerate :=
              match jsonMaxFramerateIt with
              | Some j =>
                  match get_double j with
                  | Some f => f
                  | None => maxFramerate default
                  end
              | None => maxFramerate default
              end in
            Ok {| ssrc := ssrc; rid := rid;
                  codecPayloadType := codecPayloadType;
                  hasCodecPayloadType := hasCodecPayloadType;
                  rtx := rtx; hasRtx := hasRtx;
                  maxBitrate := maxBitrate;
                  maxFramerate := maxFramerate |}
        end
    | _ => Throw (TypeError "data is not an object")
    end.

  (** The members [FillJson] leaves in the object. *)
Definition FillJson_members (e : t) : gmap string Json.json :=
  (* Force it to be an object even if no key/values are added below. *)
  let o : gmap string Json.json := ∅ in
  (* Add ssrc. *)
  let o := if negb (ssrc e =? 0)
           then Json.set "ssrc" (Json.number_unsigned (ssrc e)) o else o in
  (* Add rid. *)
  let o := if negb (String.eqb (rid e) "")
           then Json.set "rid" (Json.str (rid e)) o else o in
  (* Add codecPayloadType. *)
  let o := if hasCodecPayloadType e
           then Json.set "codecPayloadType"
                  (Json.number_unsigned (codecPayloadType e)) o
           else o in
  (* Add rtx. *)
  let o := if hasRtx e
           then Json.set "rtx" (RtpRtxParameters_FillJson (rtx e)) o
           else o in
  (* Add maxBitrate. *)
  let o := if negb (maxBitrate e =? 0)
           then Json.set "maxBitrate" (Json.number_unsigned (maxBitrate e)) o
           else o in
  (* Add maxFramerate. *)
  let o := if SFltb Ieee.zero (maxFramerate e)
           then Json.set "maxFramerate" (Json.number_float (maxFramerate e)) o
           else o in
  o.

(** [RtpEncodingParameters::FillJson(json& jsonObject)]: the value
    left in [jsonObject]. *)
Definition FillJson (e : t) : Json.json :=
  Json.object (FillJson_members e).

(** What the round trip of an encoding needs of RtpRtxParameters: its
    [FillJson] leaves an object from which its constructor builds the
    same value. *)
Definition rtx_round_trip (r : RtpRtxParameters.t) : Prop :=
  exists m, RtpRtxParameters_FillJson r = Json.object m /\
            RtpRtxParameters_FromJson (Json.object m) = Ok r.

End WithRtx.

(** Member-wise equality, with [==] of doubles on [maxFramerate]. *)
Definition equal (a b : t) : Prop :=
  ssrc a = ssrc b /\ rid a = rid b /\
  codecPayloadType a = codecPayloadType b /\
  hasCodecPayloadType a = hasCodecPayloadType b /\
  rtx a = rtx b /\ hasRtx a = hasRtx b /\
  maxBitrate a = maxBitrate b /\
  SFeqb (maxFramerate a) (maxFramerate b) = true.

(** An RtpRtxParameters that follows the conventions of the encoding:
    an optional unsigned [ssrc], written when it is not zero.  Used to
    run the encoding's functions on concrete values. *)
Definition Rtx_FromJson (data : Json.json) : Outcome RtpRtxParameters.t :=
  match data with
  | Json.object m =>
      Ok {| RtpRtxParameters.ssrc :=
              match Json.find "ssrc" m with
              | Some (Json.number_unsigned n) => Uint.u32 n
              | _ => RtpRtxParameters.ssrc RtpRtxParameters.default
              end |}
  | _ => Throw (TypeError "data is not an object")
  end.

Definition Rtx_FillJson (r : RtpRtxParameters.t) : Json.json :=
  Json.object
    (if negb (RtpRtxParameters.ssrc r =? 0)
     then Json.set "ssrc" (Json.number_unsigned (RtpRtxParameters.ssrc r)) ∅
     else ∅).

(** Sample values.  [with_maxFramerate f] is what the constructor
    builds from an object whose only member is [maxFramerate]. *)
Definition with_maxFramerate (f : spec_float) : t :=
  {| ssrc := 0; rid := ""; codecPayloadType := 0;
     hasCodecPayloadType := false; rtx := RtpRtxParameters.default;
     hasRtx := false; maxBitrate := 0; maxFramerate := f |}.

Definition minus_one : spec_float := S754_finite true 4503599627370496 (-52).

Definition thirty : spec_float := S754_finite false 8444249301319680 (-48).

Definition stale_codecPayloadType : t :=
  {| ssrc := 0; rid := ""; codecPayloadType := 96;
     hasCodecPayloadType := false; rtx := RtpRtxParameters.default;
     hasRtx := false; maxBitrate := 0; maxFramerate := Ieee.zero |}.

Definition full_encoding : t :=
  {| ssrc := 1111; rid := "h"; codecPayloadType := 96;
     hasCodecPayloadType := true;
     rtx := {| RtpRtxParameters.ssrc := 1112 |};
     hasRtx := true; maxBitrate := 500000; maxFramerate := thirty |}.

(** The encoding with every member that is not set put back to its
    default: what [FillJson] keeps of a value. *)
Definition unset_cleared (e : t) : t :=
  {| ssrc := ssrc e;
     rid := rid e;
     codecPayloadType := if hasCodecPayloadType e then codecPayloadType e else 0;
     hasCodecPayloadType := hasCodecPayloadType e;
     rtx := if hasRtx e then rtx e else RtpRtxParameters.default;
     hasRtx := hasRtx e;
     maxBitrate := maxBitrate e;
     maxFramerate :=
       if SFltb Ieee.zero (maxFramerate e) then maxFramerate e else Ieee.zero |}.

(** The members [FillJson] may write. *)
Definition member_names : list string :=
  ["ssrc"; "rid"; "codecPayloadType"; "rtx"; "maxBitrate"; "maxFramerate"].


End RtpEncodingParameters.

(** ** RtpPacket *)

Module RtpPacket.

(** The header fields SimpleConsumer reads and writes, and the payload.
    RtpPacket.hpp is not among the sources; each accessor reads or
    writes the one field it names. *)
Record t := {
  ssrc : Z;             (* uint32_t *)
  sequenceNumber : Z;   (* uint16_t *)
  timestamp : Z;        (* uint32_t *)
  payloadType : Z;      (* uint8_t *)
  payload : list Z      (* bytes *)
}.

Definition GetSsrc (p : t) : Z := ssrc p.
Definition GetSequenceNumber (p : t) : Z := sequenceNumber p.
Definition GetTimestamp (p : t) : Z := timestamp p.
Definition GetPayloadType (p : t) : Z := payloadType p.

Definition SetSsrc (v : Z) (p : t) : t :=
  {| ssrc := v; sequenceNumber := sequenceNumber p;
     timestamp := timestamp p; payloadType := payloadType p;
     payload := payload p |}.

Definition SetSequenceNumber (v : Z) (p : t) : t :=
  {| ssrc := ssrc p; sequenceNumber := v;
     timestamp := timestamp p; payloadType := payloadType p;
     payload := payload p |}.

Definition SetTimestamp (v : Z) (p : t) : t :=
  {| ssrc := ssrc p; sequenceNumber := sequenceNumber p;
     timestamp := v; payloadType := payloadType p;
     payload := payload p |}.

End RtpPacket.

(** ** The collaborators of SimpleConsumer *)

(** [RTC::SeqManager<T>] (SeqManager.hpp, not among the sources): the
    remapper behind [rtpSeqManager] and [rtpTimestampManager].  Each
    operation maps the manager's state to its next state; [Input] also
    yields the value it stores through its output reference. *)
Class SeqManager (M : Type) : Type := {
  SeqManager_new : M;
  Sync : Z -> M -> M;
  Drop : Z -> M -> M;
  Offset : Z -> M -> M;
  Input : Z -> M -> M * Z
}.

(** [RTC::Media::Kind] *)
Inductive Kind : Type := ALL | AUDIO | VIDEO.

Definition Kind_eqb (a b : Kind) : bool :=
  match a, b with
  | ALL, ALL | AUDIO, AUDIO | VIDEO, VIDEO => true
  | _, _ => false
  end.

(** [RTC::RTCP::FeedbackPs::MessageType], the two key frame requests. *)
Inductive MessageType : Type := PLI | FIR.

(** [RTC::RtcpFeedback] *)
Record RtcpFeedback := {
  fb_type : string;
  fb_parameter : string
}.

(** A value of [RTC::Parameters]. *)
Inductive ParameterValue : Type :=
  | PBoolean (b : bool)
  | PInteger (z : Z)
  | PDouble (f : spec_float)
  | PString (s : string).

(** [RTC::RtpCodecParameters] *)
Record RtpCodecParameters := {
  codec_mimeType : string;
  codec_payloadType : Z;
  codec_clockRate : Z;
  codec_parameters : gmap string ParameterValue;
  codec_rtcpFeedback : list RtcpFeedback
}.

(** [parameters.HasInteger(key)] and [parameters.GetInteger(key)]. *)
Definition HasInteger (key : string) (ps : gmap string ParameterValue) : bool :=
  match ps !! key with Some (PInteger _) => true | _ => false end.

Definition GetInteger (key : string) (ps : gmap string ParameterValue) : Z :=
  match ps !! key with Some (PInteger z) => z | _ => 0 end.

(** [RTC::RtpParameters]: the members SimpleConsumer reads. *)
Record RtpParameters := {
  codecs : list RtpCodecParameters;
  encodings : list RtpEncodingParameters.t;
  rtcp_cname : string
}.

(** Everything SimpleConsumer.cpp calls whose code is not among the
    sources, as one signature.  Objects the consumer owns or points to
    are carried as values, and a call that may change one returns the
    new value.  A callee that receives the [RtpPacket*] returns the
    packet as it leaves it. *)
Class Collaborators : Type := {
  (* RTC::SeqManager<uint16_t> and RTC::SeqManager<uint32_t> *)
  SeqManagerU16 : Type;
  SeqManagerU16_ops :: SeqManager SeqManagerU16;
  SeqManagerU32 : Type;
  SeqManagerU32_ops :: SeqManager SeqManagerU32;
  (* RTC::Codecs *)
  EncodingContext : Type;
  EncodingContext_SyncRequired : EncodingContext -> EncodingContext;
  GetEncodingContext : string -> option EncodingContext;
  CanBeKeyFrame : string -> bool;
  (* RtpPacket: the methods that go through the payload descriptor *)
  IsKeyFrame : RtpPacket.t -> bool;
  EncodePayload :
    EncodingContext -> RtpPacket.t -> bool * EncodingContext * RtpPacket.t;
  RestorePayload : RtpPacket.t -> RtpPacket.t;
  (* RtpStreamSend, a subclass of RtpStream *)
  RtpStreamSend : Type;
  RtpStreamSend_new : RtpStream.Params -> Z -> RtpStreamSend;
  RtpStreamSend_base : RtpStreamSend -> RtpStream.t;
  RtpStreamSend_ReceivePacket : RtpStreamSend -> RtpPacket.t -> bool * RtpStreamSend * RtpPacket.t;
  RtpStreamSend_Pause : RtpStreamSend -> RtpStreamSend;
  RtpStreamSend_Resume : RtpStreamSend -> RtpStreamSend;
  RtpStreamSend_SetRtx : Z -> Z -> RtpStreamSend -> RtpStreamSend;
  RtpStreamSend_ReceiveKeyFrameRequest : MessageType -> RtpStreamSend -> RtpStreamSend;
  SenderReport : Type;
  SdesChunk : Type;
  RtpStreamSend_GetRtcpSenderReport : Z -> RtpStreamSend -> option SenderReport * RtpStreamSend;
  RtpStreamSend_GetRtcpSdesChunk : RtpStreamSend -> SdesChunk;
  (* RTC::Consumer::Listener *)
  Listener : Type;
  OnConsumerSendRtpPacket : Listener -> RtpPacket.t -> Listener * RtpPacket.t;
  OnConsumerKeyFrameRequested : Listener -> Z -> Listener;
  (* RTC::RtpParameters *)
  GetCodecForEncoding :
    RtpParameters -> RtpEncodingParameters.t -> RtpCodecParameters;
  GetRtxCodecForEncoding :
    RtpParameters -> RtpEncodingParameters.t -> option RtpCodecParameters;
  (* RTC::RTCP *)
  MaxAudioIntervalMs : Z;
  MaxVideoIntervalMs : Z
}.

(** ** RTC::Consumer and RTC::SimpleConsumer *)

Section SimpleConsumerModel.

Context {E : Collaborators}.

(** The members of the base class [RTC::Consumer] that SimpleConsumer.cpp
    reads or writes. *)
Record Consumer := {
  kind : Kind;
  rtpParameters : RtpParameters;
  consumableRtpEncodings : list RtpEncodingParameters.t;
  supportedCodecPayloadTypes : gset Z;      (* std::set<uint8_t> *)
  lastRtcpSentTime : Z;                     (* uint64_t *)
  maxRtcpInterval : Z;                      (* uint16_t *)
  transportConnected : bool;
  paused : bool;
  producerPaused : bool;
  listener : Listener
}.

(** The object: the base class subobject and the members
    SimpleConsumer adds. *)
Record SimpleConsumer := {
  consumer : Consumer;
  rtpStream : RtpStreamSend;
  producerRtpStream : option RtpStream.t;
  keyFrameSupported : bool;
  syncRequired : bool;
  rtpSeqManager : SeqManagerU16;
  rtpTimestampManager : SeqManagerU32;
  encodingContext : option EncodingContext
}.

(** [RTC::RTCP::CompoundPacket]: what [GetRtcp] adds to. *)
Record CompoundPacket := {
  senderReports : list SenderReport;
  sdesChunks : list SdesChunk
}.

Definition AddSenderReport (r : SenderReport) (p : CompoundPacket) : CompoundPacket :=
  {| senderReports := senderReports p ++ [r]; sdesChunks := sdesChunks p |}.

Definition AddSdesChunk (ch : SdesChunk) (p : CompoundPacket) : CompoundPacket :=
  {| senderReports := senderReports p; sdesChunks := sdesChunks p ++ [ch] |}.

(** [Channel::Request]: the method and whether it was accepted. *)
Inductive MethodId : Type :=
  | CONSUMER_REQUEST_KEY_FRAME
  | OTHER_METHOD (n : nat).

Record Request := {
  methodId : MethodId;
  accepted : bool
}.

Definition Accept (r : Request) : Request :=
  {| methodId := methodId r; accepted := true |}.

(** *** Field updates *)

Definition set_maxRtcpInterval (v : Z) (b : Consumer) : Consumer :=
  {| kind := kind b; rtpParameters := rtpParameters b;
     consumableRtpEncodings := consumableRtpEncodings b;
     supportedCodecPayloadTypes := supportedCodecPayloadTypes b;
     lastRtcpSentTime := lastRtcpSentTime b; maxRtcpInterval := v;
     transportConnected := transportConnected b; paused := paused b;
     producerPaused := producerPaused b; listener := listener b |}.

Definition set_lastRtcpSentTime (v : Z) (b : Consumer) : Consumer :=
  {| kind := kind b; rtpParameters := rtpParameters b;
     consumableRtpEncodings := consumableRtpEncodings b;
     supportedCodecPayloadTypes := supportedCodecPayloadTypes b;
     lastRtcpSentTime := v; maxRtcpInterval := maxRtcpInterval b;
     transportConnected := transportConnected b; paused := paused b;
     producerPaused := producerPaused b; listener := listener b |}.

Definition set_listener (v : Listener) (b : Consumer) : Consumer :=
  {| kind := kind b; rtpParameters := rtpParameters b;
     consumableRtpEncodings := consumableRtpEncodings b;
     supportedCodecPayloadTypes := supportedCodecPayloadTypes b;
     lastRtcpSentTime := lastRtcpSentTime b;
     maxRtcpInterval := maxRtcpInterval b;
     transportConnected := transportConnected b; paused := paused b;
     producerPaused := producerPaused b; listener := v |}.

Definition with_consumer (v : Consumer) (c : SimpleConsumer) : SimpleConsumer :=
  {| consumer := v; rtpStream := rtpStream c;
     producerRtpStream := producerRtpStream c;
     keyFrameSupported := keyFrameSupported c;
     syncRequired := syncRequired c; rtpSeqManager := rtpSeqManager c;
     rtpTimestampManager := rtpTimestampManager c;
     encodingContext := encodingContext c |}.

Definition with_rtpStream (v : RtpStreamSend) (c : SimpleConsumer) : SimpleConsumer :=
  {| consumer := consumer c; rtpStream := v;
     producerRtpStream := producerRtpStream c;
     keyFrameSupported := keyFrameSupported c;
     syncRequired := syncRequired c; rtpSeqManager := rtpSeqManager c;
     rtpTimestampManager := rtpTimestampManager c;
     encodingContext := encodingContext c |}.

Definition with_producerRtpStream (v : option RtpStream.t) (c : SimpleConsumer)
  : SimpleConsumer :=
  {| consumer := consumer c; rtpStream := rtpStream c;
     producerRtpStream := v;
     keyFrameSupported := keyFrameSupported c;
     syncRequired := syncRequired c; rtpSeqManager := rtpSeqManager c;
     rtpTimestampManager := rtpTimestampManager c;
     encodingContext := encodingContext c |}.

Definition with_syncRequired (v : bool) (c : SimpleConsumer) : SimpleConsumer :=
  {| consumer := consumer c; rtpStream := rtpStream c;
     producerRtpStream := producerRtpStream c;
     keyFrameSupported := keyFrameSupported c;
     syncRequired := v; rtpSeqManager := rtpSeqManager c;
     rtpTimestampManager := rtpTimestampManager c;
     encodingContext := encodingContext c |}.

Definition with_rtpSeqManager (v : SeqManagerU16) (c : SimpleConsumer) : SimpleConsumer :=
  {| consumer := consumer c; rtpStream := rtpStream c;
     producerRtpStream := producerRtpStream c;
     keyFrameSupported := keyFrameSupported c;
     syncRequired := syncRequired c; rtpSeqManager := v;
     rtpTimestampManager := rtpTimestampManager c;
     encodingContext := encodingContext c |}.

Definition with_rtpTimestampManager (v : SeqManagerU32) (c : SimpleConsumer)
  : SimpleConsumer :=
  {| consumer := consumer c; rtpStream := rtpStream c;
     producerRtpStream := producerRtpStream c;
     keyFrameSupported := keyFrameSupported c;
     syncRequired := syncRequired c; rtpSeqManager := rtpSeqManager c;
     rtpTimestampManager := v;
     encodingContext := encodingContext c |}.

Definition with_encodingContext (v : option EncodingContext) (c : SimpleConsumer)
  : SimpleConsumer :=
  {| consumer := consumer c; rtpStream := rtpStream c;
     producerRtpStream := producerRtpStream c;
     keyFrameSupported := keyFrameSupported c;
     syncRequired := syncRequired c; rtpSeqManager := rtpSeqManager c;
     rtpTimestampManager := rtpTimestampManager c;
     encodingContext := v |}.

Definition with_listener (v : Listener) (c : SimpleConsumer) : SimpleConsumer :=
  with_consumer (set_listener v (consumer c)) c.

(** *** Consumer.hpp *)

(** Modelled from the spec: [Consumer::IsActive] is declared in
    RTC/Consumer.hpp, which is not among the sources.  Section 4.3,
    step 1: a consumer is not active when its transport is
    disconnected, when it is paused, when its producer is paused, or
    when no producer stream is bound. *)
Definition IsActive (c : SimpleConsumer) : bool :=
  transportConnected (consumer c)
  && negb (paused (consumer c))
  && negb (producerPaused (consumer c))
  && match producerRtpStream c with Some _ => true | None => false end.

Definition IsPaused (b : Consumer) : bool := paused b.
Definition IsProducerPaused (b : Consumer) : bool := producerPaused b.

(** *** SimpleConsumer.cpp *)

(** [SimpleConsumer::RequestKeyFrame()] *)
Definition RequestKeyFrame (c : SimpleConsumer) : option SimpleConsumer :=
  if negb (IsActive c)
     || match producerRtpStream c with Some _ => false | None => true end
     || negb (Kind_eqb (kind (consumer c)) VIDEO)
  then Some c
  else
    match consumableRtpEncodings (consumer c) with
    | [] => None
    | encoding :: _ =>
        let mappedSsrc := RtpEncodingParameters.ssrc encoding in
        Some (with_listener
                (OnConsumerKeyFrameRequested (listener (consumer c)) mappedSsrc) c)
    end.

(** The default branch of [HandleRequest] passes the request to
    [RTC::Consumer::HandleRequest], defined in Consumer.cpp, which is
    not among the sources. *)
Variable Consumer_HandleRequest :
  Request -> SimpleConsumer -> option (SimpleConsumer * Request).

(** [SimpleConsumer::HandleRequest(Channel::Request* request)] *)
Definition HandleRequest (request : Request) (c : SimpleConsumer)
  : option (SimpleConsumer * Request) :=
  match methodId request with
  | CONSUMER_REQUEST_KEY_FRAME =>
      match RequestKeyFrame c with
      | Some c' => Some (c', Accept request)
      | None => None
      end
  | OTHER_METHOD _ => Consumer_HandleRequest request c
  end.

(** [SimpleConsumer::TransportConnected()] *)
Definition TransportConnected (c : SimpleConsumer) : option SimpleConsumer :=
  RequestKeyFrame c.

(** [SimpleConsumer::ProducerNewRtpStream(rtpStream, mappedSsrc)];
    [EmitScore] only notifies the channel. *)
Definition ProducerNewRtpStream (s : RtpStream.t) (c : SimpleConsumer) : SimpleConsumer :=
  with_producerRtpStream (Some s) c.

(** The timestamp offset of a resync (lines 166-168):
    [diffMs = now - GetMaxPacketMs()] and
    [diffTs = diffMs * GetClockRate() / 1000] in uint64_t, narrowed to
    the uint32_t parameter of [Offset]. *)
Definition SyncOffset (now : Z) (s : RtpStream.t) : Z :=
  let diffMs := Uint.u64 (now - RtpStream.GetMaxPacketMs s) in
  let diffTs := Uint.u64 (diffMs * RtpStream.GetClockRate s) / 1000 in
  Uint.u32 diffTs.

(** The body of [if (isSyncPacket)] in [SendRtpPacket] (lines 157-176). *)
Definition SyncStep (now : Z) (packet : RtpPacket.t) (c : SimpleConsumer)
  : SimpleConsumer :=
  let c := with_rtpSeqManager
             (Sync (RtpPacket.GetSequenceNumber packet) (rtpSeqManager c)) c in
  let c := with_rtpTimestampManager
             (Sync (RtpPacket.GetTimestamp packet) (rtpTimestampManager c)) c in
  (* Calculate RTP timestamp diff between now and last sent RTP packet. *)
  let c :=
    if negb (RtpStream.GetMaxPacketMs (RtpStreamSend_base (rtpStream c)) =? 0)
    then with_rtpTimestampManager
           (Offset (SyncOffset now (RtpStreamSend_base (rtpStream c)))
              (rtpTimestampManager c)) c
    else c in
  let c :=
    match encodingContext c with
    | Some ctx => with_encodingContext (Some (EncodingContext_SyncRequired ctx)) c
    | None => c
    end in
  with_syncRequired false c.

(** Lines 192-196 of [SendRtpPacket]: the two [Input] calls, with the
    values they leave in [uint16_t seq] and [uint32_t timestamp]. *)
Definition Remap (packet : RtpPacket.t) (c : SimpleConsumer)
  : SimpleConsumer * Z * Z :=
  let '(seqManager, seq) :=
    Input (RtpPacket.GetSequenceNumber packet) (rtpSeqManager c) in
  let '(timestampManager, timestamp) :=
    Input (RtpPacket.GetTimestamp packet) (rtpTimestampManager c) in
  (with_rtpTimestampManager timestampManager (with_rtpSeqManager seqManager c),
   Uint.u16 seq, Uint.u32 timestamp).

(** The rest of [SendRtpPacket], from the payload rewrite to the end
    (lines 183-247). *)
Definition Forward (packet : RtpPacket.t) (c : SimpleConsumer)
  : option (SimpleConsumer * RtpPacket.t) :=
  (* Rewrite payload if needed. Drop packet if necessary. *)
  let '(encoded, c, packet) :=
    match encodingContext c with
    | Some ctx =>
        let '(ok, ctx', packet') := EncodePayload ctx packet in
        (ok, with_encodingContext (Some ctx') c, packet')
    | None => (true, c, packet)
    end in
  if negb encoded then
    let c := with_rtpSeqManager
               (Drop (RtpPacket.GetSequenceNumber packet) (rtpSeqManager c)) c in
    let c := with_rtpTimestampManager
               (Drop (RtpPacket.GetTimestamp packet) (rtpTimestampManager c)) c in
    Some (c, packet)
  else
    (* Update RTP seq number and timestamp. *)
    let '(c, seq, timestamp) := Remap packet c in
    (* Save original packet fields. *)
    let origSsrc := RtpPacket.GetSsrc packet in
    let origSeq := RtpPacket.GetSequenceNumber packet in
    let origTimestamp := RtpPacket.GetTimestamp packet in
    (* Rewrite packet. *)
    match encodings (rtpParameters (consumer c)) with
    | [] => None
    | encoding :: _ =>
        let packet := RtpPacket.SetSsrc (RtpEncodingParameters.ssrc encoding) packet in
        let packet := RtpPacket.SetSequenceNumber seq packet in
        let packet := RtpPacket.SetTimestamp timestamp packet in
        (* Process the packet. *)
        let '(received, stream, packet) :=
          RtpStreamSend_ReceivePacket (rtpStream c) packet in
        let c := with_rtpStream stream c in
        let '(c, packet) :=
          if received then
            (* Send the packet. *)
            let '(l, packet) :=
              OnConsumerSendRtpPacket (listener (consumer c)) packet in
            (with_listener l c, packet)
          else (c, packet) in
        (* Restore packet fields. *)
        let packet := RtpPacket.SetSsrc origSsrc packet in
        let packet := RtpPacket.SetSequenceNumber origSeq packet in
        let packet := RtpPacket.SetTimestamp origTimestamp packet in
        (* Restore the original payload if needed. *)
        let packet :=
          match encodingContext c with
          | Some _ => RestorePayload packet
          | None => packet
          end in
        Some (c, packet)
    end.

(** [SimpleConsumer::SendRtpPacket(RTC::RtpPacket* packet)].  [now] is
    what [DepLibUV::GetTime()] returns during the call.  The result is
    the consumer and the packet as the call leaves them. *)
Definition SendRtpPacket (now : Z) (packet : RtpPacket.t) (c : SimpleConsumer)
  : option (SimpleConsumer * RtpPacket.t) :=
  if negb (IsActive c) then Some (c, packet)
  else
    (* Map the payload type. *)
    let payloadType := RtpPacket.GetPayloadType packet in
    if negb (bool_decide (payloadType ∈ supportedCodecPayloadTypes (consumer c)))
    then Some (c, packet)
    else
      (* If we need to sync, support key frames and this is not a key
         frame, ignore the packet. *)
      if syncRequired c && keyFrameSupported c && negb (IsKeyFrame packet)
      then Some (c, packet)
      else
        (* Whether this is the first packet after re-sync. *)
        let isSyncPacket := syncRequired c in
        (* Sync sequence number and timestamp if required. *)
        let c := if isSyncPacket then SyncStep now packet c else c in
        Forward packet c.

(** The test that opens [GetRtcp]:
    [static_cast<float>((now - this->lastRtcpSentTime) * 1.15) < this->maxRtcpInterval].
    The difference is a uint64_t, converted to double for the product;
    the product is rounded to float, and the interval is converted to
    float for the comparison. *)
Definition RtcpSuppressed (now : Z) (b : Consumer) : bool :=
  SFltb
    (Ieee.scaled_1_15 (Uint.u64 (now - lastRtcpSentTime b)))
    (Ieee.float_of_Z (maxRtcpInterval b)).

(** [SimpleConsumer::GetRtcp(RTC::RTCP::CompoundPacket* packet, uint64_t now)] *)
Definition GetRtcp (packet : CompoundPacket) (now : Z) (c : SimpleConsumer)
  : SimpleConsumer * CompoundPacket :=
  if RtcpSuppressed now (consumer c) then (c, packet)
  else
    let '(report, stream) := RtpStreamSend_GetRtcpSenderReport now (rtpStream c) in
    let c := with_rtpStream stream c in
    match report with
    | None => (c, packet)
    | Some report =>
        let packet := AddSenderReport report packet in
        (* Build SDES chunk for this sender. *)
        let sdesChunk := RtpStreamSend_GetRtcpSdesChunk (rtpStream c) in
        let packet := AddSdesChunk sdesChunk packet in
        (with_consumer (set_lastRtcpSentTime now (consumer c)) c, packet)
    end.

(** [SimpleConsumer::ReceiveKeyFrameRequest(messageType)] *)
Definition ReceiveKeyFrameRequest (messageType : MessageType) (c : SimpleConsumer)
  : option SimpleConsumer :=
  if negb (IsActive c) then Some c
  else
    let c := with_rtpStream (RtpStreamSend_ReceiveKeyFrameRequest messageType (rtpStream c)) c in
    RequestKeyFrame c.

(** [SimpleConsumer::Paused(bool wasProducer)] *)
Definition Paused (wasProducer : bool) (c : SimpleConsumer) : SimpleConsumer :=
  with_rtpStream (RtpStreamSend_Pause (rtpStream c)) c.

(** [SimpleConsumer::Resumed(bool wasProducer)] *)
Definition Resumed (wasProducer : bool) (c : SimpleConsumer) : option SimpleConsumer :=
  let c := with_rtpStream (RtpStreamSend_Resume (rtpStream c)) c in
  (* We need to sync and wait for a key frame (if supported). *)
  let c := with_syncRequired true c in
  (* If we have been resumed due to the Producer becoming resumed, we
     don't need to request a key frame since the Producer already
     requested it. *)
  if negb wasProducer then RequestKeyFrame c else Some c.

(** One iteration of [for (auto& fb : mediaCodec->rtcpFeedback)] in
    [CreateRtpStream]. *)
Definition feedback_step (params : RtpStream.Params) (fb : RtcpFeedback)
  : RtpStream.Params :=
  if negb (RtpStream.useNack params)
     && String.eqb (fb_type fb) "nack" && String.eqb (fb_parameter fb) ""
  then RtpStream.set_useNack true params
  else if negb (RtpStream.usePli params)
          && String.eqb (fb_type fb) "nack"
          && String.eqb (fb_parameter fb) "pli"
  then RtpStream.set_usePli true params
  else if negb (RtpStream.useFir params)
          && String.eqb (fb_type fb) "ccm"
          && String.eqb (fb_parameter fb) "fir"
  then RtpStream.set_useFir true params
  else params.

(** [SimpleConsumer::CreateRtpStream()], called by the constructor on
    the object whose base class is constructed: it fills [rtpStream],
    [keyFrameSupported] and [encodingContext]; the other members have
    the values of their initialisers. *)
Definition CreateRtpStream (b : Consumer) : option SimpleConsumer :=
  match encodings (rtpParameters b) with
  | [] => None
  | encoding :: _ =>
      let mediaCodec := GetCodecForEncoding (rtpParameters b) encoding in
      (* Set stream params. *)
      let params :=
        {| RtpStream.ssrc := RtpEncodingParameters.ssrc encoding;
           RtpStream.payloadType := codec_payloadType mediaCodec;
           RtpStream.mimeType := codec_mimeType mediaCodec;
           RtpStream.clockRate := codec_clockRate mediaCodec;
           RtpStream.rid := "";
           RtpStream.rtxSsrc := 0;
           RtpStream.rtxPayloadType := 0;
           RtpStream.useNack := false;
           RtpStream.usePli := false;
           RtpStream.useFir := false;
           RtpStream.useInBandFec :=
             HasInteger "useinbandfec" (codec_parameters mediaCodec)
             && (GetInteger "useinbandfec" (codec_parameters mediaCodec) =? 1);
           RtpStream.cname := rtcp_cname (rtpParameters b) |} in
      let params := fold_left feedback_step (codec_rtcpFeedback mediaCodec) params in
      (* Create a RtpStreamSend for sending a single media stream. *)
      let bufferSize := if RtpStream.useNack params then 1500 else 0 in
      let stream := RtpStreamSend_new params bufferSize in
      (* If the Consumer is paused, tell the RtpStreamSend. *)
      let stream :=
        if IsPaused b || IsProducerPaused b
        then RtpStreamSend_Pause stream else stream in
      let rtxCodec := GetRtxCodecForEncoding (rtpParameters b) encoding in
      let stream :=
        match rtxCodec with
        | Some rtxCodec =>
            if RtpEncodingParameters.hasRtx encoding
            then RtpStreamSend_SetRtx (codec_payloadType rtxCodec)
                   (RtpRtxParameters.ssrc (RtpEncodingParameters.rtx encoding))
                   stream
            else stream
        | None => stream
        end in
      Some {| consumer := b;
              rtpStream := stream;
              producerRtpStream := None;
              keyFrameSupported := CanBeKeyFrame (codec_mimeType mediaCodec);
              syncRequired := true;
              rtpSeqManager := SeqManager_new;
              rtpTimestampManager := SeqManager_new;
              encodingContext := GetEncodingContext (codec_mimeType mediaCodec) |}
  end.

(** [SimpleConsumer::SimpleConsumer(id, listener, data)], after the base
    class constructor has built [b] from [data].  [None] is the
    undefined behaviour of [encodings[0]] on an empty vector. *)
Definition SimpleConsumer_ctor (b : Consumer) : option (Outcome SimpleConsumer) :=
  (* Ensure there is a single encoding. *)
  if negb (Nat.eqb (length (consumableRtpEncodings b)) 1)
  then Some (Throw (TypeError "invalid consumableRtpEncodings with size != 1"))
  else
    (* Set the RTCP report generation interval. *)
    let b :=
      if Kind_eqb (kind b) AUDIO
      then set_maxRtcpInterval MaxAudioIntervalMs b
      else set_maxRtcpInterval MaxVideoIntervalMs b in
    (* Create RtpStreamSend instance for sending a single stream to the
       remote. *)
    match CreateRtpStream b with
    | Some c => Some (Ok c)
    | None => None
    end.

(** *** Construction, with what it allocates

    A constructor that throws leaves no object, but what it created
    with [new] before the throw stays.  Here construction is a
    computation that records each [new RTC::RtpStreamSend] when it
    happens, and that an exception cuts short. *)

(** The streams created so far, oldest first, and how the computation
    ended: with a value, with an exception, or ([None]) in undefined
    behaviour. *)
Definition Construction (A : Type) : Type :=
  (list RtpStreamSend * option (Outcome A))%type.

Definition construction_ret {A : Type} (a : A) : Construction A :=
  ([], Some (Ok a)).

(** [MS_THROW_TYPE_ERROR(...)] *)
Definition construction_throw {A : Type} (e : Error) : Construction A :=
  ([], Some (Throw e)).

Definition construction_undefined {A : Type} : Construction A :=
  ([], None).

(** One statement after another: the second runs only if the first
    ended with a value. *)
Definition construction_bind {A B : Type}
  (m : Construction A) (f : A -> Construction B) : Construction B :=
  match m with
  | (news, Some (Ok a)) => let '(news', r) := f a in ((news ++ news')%list, r)
  | (news, Some (Throw e)) => (news, Some (Throw e))
  | (news, None) => (news, None)
  end.

(** [new RTC::RtpStreamSend(this, params, bufferSize)] *)
Definition new_RtpStreamSend (params : RtpStream.Params) (bufferSize : Z)
  : Construction RtpStreamSend :=
  let stream := RtpStreamSend_new params bufferSize in
  ([stream], Some (Ok stream)).

(** [SimpleConsumer::CreateRtpStream()], statement by statement as
    above, with its [new]. *)
Definition CreateRtpStream_allocating (b : Consumer) : Construction SimpleConsumer :=
  match encodings (rtpParameters b) with
  | [] => construction_undefined
  | encoding :: _ =>
      let mediaCodec := GetCodecForEncoding (rtpParameters b) encoding in
      (* Set stream params. *)
      let params :=
        {| RtpStream.ssrc := RtpEncodingParameters.ssrc encoding;
           RtpStream.payloadType := codec_payloadType mediaCodec;
           RtpStream.mimeType := codec_mimeType mediaCodec;
           RtpStream.clockRate := codec_clockRate mediaCodec;
           RtpStream.rid := "";
           RtpStream.rtxSsrc := 0;
           RtpStream.rtxPayloadType := 0;
           RtpStream.useNack := false;
           RtpStream.usePli := false;
           RtpStream.useFir := false;
           RtpStream.useInBandFec :=
             HasInteger "useinbandfec" (codec_parameters mediaCodec)
             && (GetInteger "useinbandfec" (codec_parameters mediaCodec) =? 1);
           RtpStream.cname := rtcp_cname (rtpParameters b) |} in
      let params := fold_left feedback_step (codec_rtcpFeedback mediaCodec) params in
      (* Create a RtpStreamSend for sending a single media stream. *)
      let bufferSize := if RtpStream.useNack params then 1500 else 0 in
      construction_bind (new_RtpStreamSend params bufferSize) (fun stream =>
        (* If the Consumer is paused, tell the RtpStreamSend. *)
        let stream :=
          if IsPaused b || IsProducerPaused b
          then RtpStreamSend_Pause stream else stream in
        let rtxCodec := GetRtxCodecForEncoding (rtpParameters b) encoding in
        let stream :=
          match rtxCodec with
          | Some rtxCodec =>
              if RtpEncodingParameters.hasRtx encoding
              then RtpStreamSend_SetRtx (codec_payloadType rtxCodec)
                     (RtpRtxParameters.ssrc (RtpEncodingParameters.rtx encoding))
                     stream
              else stream
          | None => stream
          end in
        construction_ret
          {| consumer := b;
             rtpStream := stream;
             producerRtpStream := None;
             keyFrameSupported := CanBeKeyFrame (codec_mimeType mediaCodec);
             syncRequired := true;
             rtpSeqManager := SeqManager_new;
             rtpTimestampManager := SeqManager_new;
             encodingContext := GetEncodingContext (codec_mimeType mediaCodec) |})
  end.

(** [SimpleConsumer::SimpleConsumer(id, listener, data)] (lines 14-31),
    statement by statement: the size test and its throw, the RTCP
    interval, [CreateRtpStream()]. *)
Definition SimpleConsumer_ctor_allocating (b : Consumer) : Construction SimpleConsumer :=
  construction_bind
    (* Ensure there is a single encoding. *)
    (if negb (Nat.eqb (length (consumableRtpEncodings b)) 1)
     then construction_throw
            (TypeError "invalid consumableRtpEncodings with size != 1")
     else construction_ret tt)
    (fun _ =>
       (* Set the RTCP report generation interval. *)
       let b :=
         if Kind_eqb (kind b) AUDIO
         then set_maxRtcpInterval MaxAudioIntervalMs b
         else set_maxRtcpInterval MaxVideoIntervalMs b in
       (* Create RtpStreamSend instance for sending a single stream to
          the remote. *)
       CreateRtpStream_allocating b).

(** *** What SimpleConsumer expects of the callees that receive the packet

    [SendRtpPacket] hands its [RtpPacket*] to four callees whose code
    is not among the sources.  These are the properties of them that
    the buffer reuse invariant of the fan-out relies on. *)

(** [EncodePayload] changes nothing but the payload. *)
Definition EncodePayload_keeps_header : Prop :=
  forall ctx p,
    let p' := snd (EncodePayload ctx p) in
    RtpPacket.ssrc p' = RtpPacket.ssrc p /\
    RtpPacket.sequenceNumber p' = RtpPacket.sequenceNumber p /\
    RtpPacket.timestamp p' = RtpPacket.timestamp p /\
    RtpPacket.payloadType p' = RtpPacket.payloadType p.

(** A failed [EncodePayload] leaves the packet as it was, and
    [RestorePayload] undoes a successful one. *)
Definition EncodePayload_restorable : Prop :=
  forall ctx p,
    let '(ok, _, p') := EncodePayload ctx p in
    if ok then RestorePayload p' = p else p' = p.

(** [RtpStreamSend::ReceivePacket] and the listener only read the
    packet. *)
Definition ReceivePacket_reads_only : Prop :=
  forall s p, snd (RtpStreamSend_ReceivePacket s p) = p.

Definition Listener_reads_only : Prop :=
  forall l p, snd (OnConsumerSendRtpPacket l p) = p.

(** The consumer as the sync step finds it: [SendRtpPacket] runs
    [SyncStep] first when [syncRequired] is set. *)
Definition AfterSync (now : Z) (packet : RtpPacket.t) (c : SimpleConsumer)
  : SimpleConsumer :=
  if syncRequired c then SyncStep now packet c else c.

End SimpleConsumerModel.

(** ** Reference collaborators

    One implementation of the [Collaborators] signature, used to run
    the model on concrete consumers and packets. *)

Module Reference.

(** The calls a remapper has received, oldest first. *)
Inductive SeqCall : Type :=
  | CallSync (input : Z)
  | CallDrop (input : Z)
  | CallOffset (offset : Z)
  | CallInput (input : Z).

(** Modelled from the spec: the remapper of section 4.3 ([rtpSeqManager]
    and [rtpTimestampManager]; SeqManager.hpp is not among the
    sources).  It keeps [base_in], [base_out], [max_in] and the dropped
    inputs; an input [x] maps to
    [base_out + ((x - base_in) mod M) - dropped_within_window(x)];
    [Sync] sets [base_in] to the new input and [base_out] to
    [last_out + 1] for sequence numbers and to [last_out] for
    timestamps (which then take an offset); [Drop] remembers the input;
    [Offset] adds to [base_out].  The calls are recorded as well. *)
Record Remapper := {
  modulus : Z;
  sync_gap : Z;
  base_in : Z;
  base_out : Z;
  max_in : Z;
  last_out : Z;
  dropped : list Z;
  calls : list SeqCall
}.

Definition Remapper_new (modulus sync_gap : Z) : Remapper :=
  {| modulus := modulus; sync_gap := sync_gap; base_in := 0; base_out := 0;
     max_in := 0; last_out := 0; dropped := []; calls := [] |}.

Definition Remapper_Sync (input : Z) (m : Remapper) : Remapper :=
  {| modulus := modulus m; sync_gap := sync_gap m; base_in := input;
     base_out := (last_out m + sync_gap m) mod modulus m;
     max_in := input; last_out := last_out m; dropped := [];
     calls := calls m ++ [CallSync input] |}.

Definition Remapper_Drop (input : Z) (m : Remapper) : Remapper :=
  {| modulus := modulus m; sync_gap := sync_gap m; base_in := base_in m;
     base_out := base_out m; max_in := max_in m; last_out := last_out m;
     dropped := input :: dropped m;
     calls := calls m ++ [CallDrop input] |}.

Definition Remapper_Offset (offset : Z) (m : Remapper) : Remapper :=
  {| modulus := modulus m; sync_gap := sync_gap m; base_in := base_in m;
     base_out := (base_out m + offset) mod modulus m;
     max_in := max_in m; last_out := last_out m; dropped := dropped m;
     calls := calls m ++ [CallOffset offset] |}.

Definition dropped_within_window (input : Z) (m : Remapper) : Z :=
  Z.of_nat
    (length
       (filter (fun d => (d - base_in m) mod modulus m
                         <? (input - base_in m) mod modulus m)
          (dropped m))).

Definition Remapper_Input (input : Z) (m : Remapper) : Remapper * Z :=
  let output :=
    (base_out m + (input - base_in m) mod modulus m
     - dropped_within_window input m) mod modulus m in
  ({| modulus := modulus m; sync_gap := sync_gap m; base_in := base_in m;
      base_out := base_out m; max_in := input; last_out := output;
      dropped := dropped m; calls := calls m ++ [CallInput input] |},
   output).

(** A send stream: the RtpStream state, whether a packet was ever
    taken, and the packets taken so far. *)
Record SendStream := {
  stream : RtpStream.t;
  bufferSize : Z;
  buffer : list RtpPacket.t
}.

Definition stream_update
  (paused : bool) (pliCount firCount maxSeq maxPacketTs : Z)
  (params : RtpStream.Params) (s : RtpStream.t) : RtpStream.t :=
  {| RtpStream.params := params;
     RtpStream.packetsLost := RtpStream.packetsLost s;
     RtpStream.fractionLost := RtpStream.fractionLost s;
     RtpStream.packetsDiscarded := RtpStream.packetsDiscarded s;
     RtpStream.packetsRepaired := RtpStream.packetsRepaired s;
     RtpStream.nackCount := RtpStream.nackCount s;
     RtpStream.nackRtpPacketCount := RtpStream.nackRtpPacketCount s;
     RtpStream.pliCount := pliCount;
     RtpStream.firCount := firCount;
     RtpStream.paused := paused;
     RtpStream.maxSeq := maxSeq;
     RtpStream.cycles := RtpStream.cycles s;
     RtpStream.baseSeq := RtpStream.baseSeq s;
     RtpStream.badSeq := RtpStream.badSeq s;
     RtpStream.maxPacketTs := maxPacketTs;
     RtpStream.maxPacketMs := RtpStream.maxPacketMs s |}.

Definition on_stream (f : RtpStream.t -> RtpStream.t) (s : SendStream) : SendStream :=
  {| stream := f (stream s); bufferSize := bufferSize s; buffer := buffer s |}.

Definition SendStream_new (params : RtpStream.Params) (bufferSize : Z) : SendStream :=
  {| stream := stream_update false 0 0 0 0 params (RtpStream.with_seq 0 0 0);
     bufferSize := bufferSize; buffer := [] |}.

Definition SendStream_Pause : SendStream -> SendStream :=
  on_stream (fun s =>
    stream_update true (RtpStream.pliCount s) (RtpStream.firCount s)
      (RtpStream.maxSeq s) (RtpStream.maxPacketTs s) (RtpStream.params s) s).

Definition SendStream_Resume : SendStream -> SendStream :=
  on_stream (fun s =>
    stream_update false (RtpStream.pliCount s) (RtpStream.firCount s)
      (RtpStream.maxSeq s) (RtpStream.maxPacketTs s) (RtpStream.params s) s).

Definition SendStream_SetRtx (payloadType ssrc : Z) : SendStream -> SendStream :=
  on_stream (fun s =>
    let p := RtpStream.params s in
    stream_update (RtpStream.paused s) (RtpStream.pliCount s)
      (RtpStream.firCount s) (RtpStream.maxSeq s) (RtpStream.maxPacketTs s)
      {| RtpStream.ssrc := RtpStream.ssrc p;
         RtpStream.payloadType := RtpStream.payloadType p;
         RtpStream.mimeType := RtpStream.mimeType p;
         RtpStream.clockRate := RtpStream.clockRate p;
         RtpStream.rid := RtpStream.rid p;
         RtpStream.rtxSsrc := ssrc;
         RtpStream.rtxPayloadType := payloadType;
         RtpStream.useNack := RtpStream.useNack p;
         RtpStream.usePli := RtpStream.usePli p;
         RtpStream.useFir := RtpStream.useFir p;
         RtpStream.useInBandFec := RtpStream.useInBandFec p;
         RtpStream.cname := RtpStream.cname p |} s).

Definition SendStream_ReceiveKeyFrameRequest (messageType : MessageType)
  : SendStream -> SendStream :=
  on_stream (fun s =>
    match messageType with
    | PLI => stream_update (RtpStream.paused s) (RtpStream.pliCount s + 1)
               (RtpStream.firCount s) (RtpStream.maxSeq s)
               (RtpStream.maxPacketTs s) (RtpStream.params s) s
    | FIR => stream_update (RtpStream.paused s) (RtpStream.pliCount s)
               (RtpStream.firCount s + 1) (RtpStream.maxSeq s)
               (RtpStream.maxPacketTs s) (RtpStream.params s) s
    end).

(** A paused stream refuses the packet; otherwise the packet is stored
    and becomes the highest seen.  The packet is only read. *)
Definition SendStream_ReceivePacket (s : SendStream) (packet : RtpPacket.t)
  : bool * SendStream * RtpPacket.t :=
  if RtpStream.paused (stream s) then (false, s, packet)
  else
    (true,
     {| stream :=
          stream_update false (RtpStream.pliCount (stream s))
            (RtpStream.firCount (stream s))
            (RtpPacket.sequenceNumber packet) (RtpPacket.timestamp packet)
            (RtpStream.params (stream s)) (stream s);
        bufferSize := bufferSize s;
        buffer := buffer s ++ [packet] |},
     packet).

(** A sender report: the ssrc and the time of the report.  None before
    the stream has taken a packet. *)
Definition SendStream_GetRtcpSenderReport (now : Z) (s : SendStream)
  : option (Z * Z) * SendStream :=
  match buffer s with
  | [] => (None, s)
  | _ :: _ => (Some (RtpStream.GetSsrc (stream s), now), s)
  end.

Definition SendStream_GetRtcpSdesChunk (s : SendStream) : Z * string :=
  (RtpStream.GetSsrc (stream s), RtpStream.cname (RtpStream.params (stream s))).

(** What the listener was told, oldest first. *)
Inductive ListenerEvent : Type :=
  | ConsumerSendRtpPacket (packet : RtpPacket.t)
  | ConsumerKeyFrameRequested (mappedSsrc : Z).

(** A payload handler in the style of VP8: the frame is a key frame
    when the low bit of the first payload byte is clear; encoding
    fails for a payload whose first byte is above the context's limit
    and leaves the packet alone, and otherwise reverses the payload;
    restoring reverses it back. *)
Definition payload_IsKeyFrame (p : RtpPacket.t) : bool :=
  match RtpPacket.payload p with
  | b :: _ => Z.even b
  | [] => false
  end.

Definition set_payload (v : list Z) (p : RtpPacket.t) : RtpPacket.t :=
  {| RtpPacket.ssrc := RtpPacket.ssrc p;
     RtpPacket.sequenceNumber := RtpPacket.sequenceNumber p;
     RtpPacket.timestamp := RtpPacket.timestamp p;
     RtpPacket.payloadType := RtpPacket.payloadType p;
     RtpPacket.payload := v |}.

Definition payload_Encode (limit : Z) (p : RtpPacket.t) : bool * Z * RtpPacket.t :=
  match RtpPacket.payload p with
  | b :: _ =>
      if limit <? b then (false, limit, p)
      else (true, limit, set_payload (rev (RtpPacket.payload p)) p)
  | [] => (true, limit, set_payload (rev (RtpPacket.payload p)) p)
  end.

Definition payload_Restore (p : RtpPacket.t) : RtpPacket.t :=
  set_payload (rev (RtpPacket.payload p)) p.

Definition default_codec : RtpCodecParameters :=
  {| codec_mimeType := ""; codec_payloadType := 0; codec_clockRate := 0;
     codec_parameters := ∅; codec_rtcpFeedback := [] |}.

(** The first codec of the parameters. *)
Definition first_codec (ps : RtpParameters) (e : RtpEncodingParameters.t)
  : RtpCodecParameters :=
  match codecs ps with
  | c :: _ => c
  | [] => default_codec
  end.

(** The second codec of the parameters, if any, is the RTX codec. *)
Definition second_codec (ps : RtpParameters) (e : RtpEncodingParameters.t)
  : option RtpCodecParameters :=
  match codecs ps with
  | _ :: c :: _ => Some c
  | _ => None
  end.

Definition Remapper16 : SeqManager Remapper :=
  {| SeqManager_new := Remapper_new (2 ^ 16) 1;
     Sync := Remapper_Sync; Drop := Remapper_Drop;
     Offset := Remapper_Offset; Input := Remapper_Input |}.

Definition Remapper32 : SeqManager Remapper :=
  {| SeqManager_new := Remapper_new (2 ^ 32) 0;
     Sync := Remapper_Sync; Drop := Remapper_Drop;
     Offset := Remapper_Offset; Input := Remapper_Input |}.

Definition collaborators : Collaborators :=
  {| SeqManagerU16 := Remapper;
     SeqManagerU16_ops := Remapper16;
     SeqManagerU32 := Remapper;
     SeqManagerU32_ops := Remapper32;
     EncodingContext := Z;
     EncodingContext_SyncRequired := fun limit => limit;
     GetEncodingContext :=
       fun mime => if String.eqb mime "video/VP8" then Some 127 else None;
     CanBeKeyFrame := fun mime => String.eqb mime "video/VP8";
     IsKeyFrame := payload_IsKeyFrame;
     EncodePayload := payload_Encode;
     RestorePayload := payload_Restore;
     RtpStreamSend := SendStream;
     RtpStreamSend_new := SendStream_new;
     RtpStreamSend_base := stream;
     RtpStreamSend_ReceivePacket := SendStream_ReceivePacket;
     RtpStreamSend_Pause := SendStream_Pause;
     RtpStreamSend_Resume := SendStream_Resume;
     RtpStreamSend_SetRtx := SendStream_SetRtx;
     RtpStreamSend_ReceiveKeyFrameRequest := SendStream_ReceiveKeyFrameRequest;
     SenderReport := Z * Z;
     SdesChunk := Z * string;
     RtpStreamSend_GetRtcpSenderReport := SendStream_GetRtcpSenderReport;
     RtpStreamSend_GetRtcpSdesChunk := SendStream_GetRtcpSdesChunk;
     Listener := list ListenerEvent;
     OnConsumerSendRtpPacket :=
       fun l packet => ((l ++ [ConsumerSendRtpPacket packet])%list, packet);
     OnConsumerKeyFrameRequested :=
       fun l mappedSsrc => (l ++ [ConsumerKeyFrameRequested mappedSsrc])%list;
     GetCodecForEncoding := first_codec;
     GetRtxCodecForEncoding := second_codec;
     MaxAudioIntervalMs := 5000;
     MaxVideoIntervalMs := 1000 |}.

(** *** Sample consumers and packets *)

Definition vp8 : RtpCodecParameters :=
  {| codec_mimeType := "video/VP8"; codec_payloadType := 101;
     codec_clockRate := 90000; codec_parameters := ∅;
     codec_rtcpFeedback :=
       [ {| fb_type := "nack"; fb_parameter := "" |};
         {| fb_type := "nack"; fb_parameter := "pli" |};
         {| fb_type := "ccm"; fb_parameter := "fir" |} ] |}.

Definition opus : RtpCodecParameters :=
  {| codec_mimeType := "audio/opus"; codec_payloadType := 100;
     codec_clockRate := 48000;
     codec_parameters := {[ "useinbandfec" := PInteger 1 ]};
     codec_rtcpFeedback := [] |}.

Definition encoding_with_ssrc (ssrc : Z) : RtpEncodingParameters.t :=
  {| RtpEncodingParameters.ssrc := ssrc;
     RtpEncodingParameters.rid := "";
     RtpEncodingParameters.codecPayloadType := 0;
     RtpEncodingParameters.hasCodecPayloadType := false;
     RtpEncodingParameters.rtx := RtpRtxParameters.default;
     RtpEncodingParameters.hasRtx := false;
     RtpEncodingParameters.maxBitrate := 0;
     RtpEncodingParameters.maxFramerate := Ieee.zero |}.

(** What the base class constructor leaves: a connected, unpaused
    consumer of one codec, sending with ssrc 2222 what the producer
    sends with the mapped ssrc 1111. *)
Definition base_consumer (k : Kind) (codec : RtpCodecParameters)
  (consumable : list RtpEncodingParameters.t) : Consumer (E := collaborators) :=
  @Build_Consumer collaborators
    k
    {| codecs := [codec]; encodings := [encoding_with_ssrc 2222];
       rtcp_cname := "cname" |}
    consumable
    {[ codec_payloadType codec ]}
    0 0 true false false
    ([] : list ListenerEvent).

(** A consumer as the constructor builds it, bound to a producer
    stream. *)
Definition constructed (b : Consumer (E := collaborators))
  (fallback : SimpleConsumer (E := collaborators)) : SimpleConsumer :=
  match SimpleConsumer_ctor b with
  | Some (Ok c) => ProducerNewRtpStream (RtpStream.with_seq 0 0 0) c
  | _ => fallback
  end.

Definition blank_consumer (k : Kind) (codec : RtpCodecParameters)
  : SimpleConsumer (E := collaborators) :=
  @Build_SimpleConsumer collaborators
    (base_consumer k codec [encoding_with_ssrc 1111])
    (SendStream_new RtpStream.Params_default 0)
    None false true
    (Remapper_new (2 ^ 16) 1)
    (Remapper_new (2 ^ 32) 0)
    None.

Definition video_consumer : SimpleConsumer (E := collaborators) :=
  constructed (base_consumer VIDEO vp8 [encoding_with_ssrc 1111])
    (blank_consumer VIDEO vp8).

Definition audio_consumer : SimpleConsumer (E := collaborators) :=
  constructed (base_consumer AUDIO opus [encoding_with_ssrc 1111])
    (blank_consumer AUDIO opus).

(** A VP8 key frame and a VP8 delta frame from the producer. *)
Definition key_frame (seq ts : Z) : RtpPacket.t :=
  {| RtpPacket.ssrc := 1111; RtpPacket.sequenceNumber := seq;
     RtpPacket.timestamp := ts; RtpPacket.payloadType := 101;
     RtpPacket.payload := [16; 2; 0; 157; 1; 42] |}.

Definition delta_frame (seq ts : Z) : RtpPacket.t :=
  {| RtpPacket.ssrc := 1111; RtpPacket.sequenceNumber := seq;
     RtpPacket.timestamp := ts; RtpPacket.payloadType := 101;
     RtpPacket.payload := [17; 3; 4; 5] |}.

(** A delta frame the payload handler refuses to encode. *)
Definition refused_frame (seq ts : Z) : RtpPacket.t :=
  {| RtpPacket.ssrc := 1111; RtpPacket.sequenceNumber := seq;
     RtpPacket.timestamp := ts; RtpPacket.payloadType := 101;
     RtpPacket.payload := [255; 3; 4; 5] |}.

Definition audio_packet (seq ts : Z) : RtpPacket.t :=
  {| RtpPacket.ssrc := 1111; RtpPacket.sequenceNumber := seq;
     RtpPacket.timestamp := ts; RtpPacket.payloadType := 100;
     RtpPacket.payload := [120; 1; 2; 3] |}.

(** The parent class handler, for requests SimpleConsumer does not
    handle: it accepts nothing and changes nothing. *)
Definition ignore_request (r : Request) (c : SimpleConsumer (E := collaborators))
  : option (SimpleConsumer (E := collaborators) * Request) :=
  Some (c, r).

(** The video consumer after it has forwarded its first key frame
    (sequence number 10, timestamp 5000) at time 1000. *)
Definition synced_video_consumer : SimpleConsumer (E := collaborators) :=
  match SendRtpPacket 1000 (key_frame 10 5000) video_consumer with
  | Some (c, _) => c
  | None => video_consumer
  end.

(** An empty compound packet. *)
Definition empty_compound : CompoundPacket (E := collaborators) :=
  @Build_CompoundPacket collaborators [] [].

(** Two calls of [GetRtcp] on the video consumer, at 10000 ms and at
    10900 ms. *)
Definition first_report
  : SimpleConsumer (E := collaborators) * CompoundPacket (E := collaborators) :=
  GetRtcp empty_compound 10000 synced_video_consumer.

Definition second_report
  : SimpleConsumer (E := collaborators) * CompoundPacket (E := collaborators) :=
  GetRtcp (snd first_report) 10900 (fst first_report).


(** The stream with [maxPacketMs] set, as after a packet sent at that
    time. *)
Definition with_maxPacketMs (ms : Z) (s : SendStream) : SendStream :=
  on_stream (fun s =>
    {| RtpStream.params := RtpStream.params s;
       RtpStream.packetsLost := RtpStream.packetsLost s;
       RtpStream.fractionLost := RtpStream.fractionLost s;
       RtpStream.packetsDiscarded := RtpStream.packetsDiscarded s;
       RtpStream.packetsRepaired := RtpStream.packetsRepaired s;
       RtpStream.nackCount := RtpStream.nackCount s;
       RtpStream.nackRtpPacketCount := RtpStream.nackRtpPacketCount s;
       RtpStream.pliCount := RtpStream.pliCount s;
       RtpStream.firCount := RtpStream.firCount s;
       RtpStream.paused := RtpStream.paused s;
       RtpStream.maxSeq := RtpStream.maxSeq s;
       RtpStream.cycles := RtpStream.cycles s;
       RtpStream.baseSeq := RtpStream.baseSeq s;
       RtpStream.badSeq := RtpStream.badSeq s;
       RtpStream.maxPacketTs := RtpStream.maxPacketTs s;
       RtpStream.maxPacketMs := ms |}) s.

(** The synced video consumer, whose last packet left at 1000 ms,
    resumed after a pause of its producer. *)
Definition resumed_video_consumer : SimpleConsumer (E := collaborators) :=
  match
    Resumed (E := collaborators) true
      (with_rtpStream (E := collaborators)
         (with_maxPacketMs 1000 (rtpStream synced_video_consumer))
         synced_video_consumer)
  with
  | Some c => c
  | None => synced_video_consumer
  end.

(** What the listener was last told to send, and the calls the two
    managers have received. *)
Definition last_sent (r : option (SimpleConsumer (E := collaborators) * RtpPacket.t))
  : option ListenerEvent :=
  match r with
  | Some (c, _) => last (listener (consumer c))
  | None => None
  end.

Definition manager_calls (c : SimpleConsumer (E := collaborators))
  : list SeqCall * list SeqCall :=
  (calls (rtpSeqManager c), calls (rtpTimestampManager c)).


End Reference.

(** ** More of RtpStream.hpp and SimpleConsumer.cpp *)

Module Ieee32.

(** Arithmetic of the C++ [float] (binary32). *)
Definition mul := SFmul 24 128.
Definition div := SFdiv 24 128.
Definition sub := SFsub 24 128.

(** The number a finite float stands for; 0 for anything else. *)
Definition to_Q (x : spec_float) : QArith_base.Q :=
  match x with
  | S754_finite s m e =>
      let n := if s then Z.neg m else Z.pos m in
      match e with
      | Z0 => QArith_base.Qmake n 1
      | Z.pos p => QArith_base.Qmake (n * 2 ^ Z.pos p) 1
      | Z.neg p => QArith_base.Qmake n (2 ^ p)
      end
  | _ => QArith_base.Qmake 0 1
  end.

Definition is_finite (x : spec_float) : bool :=
  match x with
  | S754_finite _ _ _ | S754_zero _ => true
  | _ => false
  end.

(** The greatest interval of uint16_t that [115 * d] reaches: the
    greatest [i <= 65535] with [100 * i <= 115 * d]. *)
Definition greatest_reached (d : Z) : Z := Z.min 65535 (115 * d / 100).

(** [d * 1.15] as a float is below neither the greatest interval it
    reaches nor zero. *)
Definition check_scaled_reaches (d : Z) : bool :=
  let scaled := Ieee.scaled_1_15 d in
  negb (SFltb scaled (Ieee.float_of_Z (greatest_reached d)))
  && negb (SFltb scaled (Ieee.float_of_Z 0)).


End Ieee32.

Module RtpStreamInline.

(** [RtpStream::SetRtx(uint8_t payloadType, uint32_t ssrc)] *)
Definition SetRtx (payloadType ssrc : Z) (s : RtpStream.t) : RtpStream.t :=
  let p := RtpStream.params s in
  {| RtpStream.params :=
       {| RtpStream.ssrc := RtpStream.ssrc p;
          RtpStream.payloadType := RtpStream.payloadType p;
          RtpStream.mimeType := RtpStream.mimeType p;
          RtpStream.clockRate := RtpStream.clockRate p;
          RtpStream.rid := RtpStream.rid p;
          RtpStream.rtxSsrc := ssrc;
          RtpStream.rtxPayloadType := payloadType;
          RtpStream.useNack := RtpStream.useNack p;
          RtpStream.usePli := RtpStream.usePli p;
          RtpStream.useFir := RtpStream.useFir p;
          RtpStream.useInBandFec := RtpStream.useInBandFec p;
          RtpStream.cname := RtpStream.cname p |};
     RtpStream.packetsLost := RtpStream.packetsLost s;
     RtpStream.fractionLost := RtpStream.fractionLost s;
     RtpStream.packetsDiscarded := RtpStream.packetsDiscarded s;
     RtpStream.packetsRepaired := RtpStream.packetsRepaired s;
     RtpStream.nackCount := RtpStream.nackCount s;
     RtpStream.nackRtpPacketCount := RtpStream.nackRtpPacketCount s;
     RtpStream.pliCount := RtpStream.pliCount s;
     RtpStream.firCount := RtpStream.firCount s;
     RtpStream.paused := RtpStream.paused s;
     RtpStream.maxSeq := RtpStream.maxSeq s;
     RtpStream.cycles := RtpStream.cycles s;
     RtpStream.baseSeq := RtpStream.baseSeq s;
     RtpStream.badSeq := RtpStream.badSeq s;
     RtpStream.maxPacketTs := RtpStream.maxPacketTs s;
     RtpStream.maxPacketMs := RtpStream.maxPacketMs s |}.

(** [RtpStream::GetLossPercentage()]:
    [static_cast<float>(this->fractionLost) * 100 / 256], each
    operation in float. *)
Definition loss_percentage (fractionLost : Z) : spec_float :=
  Ieee32.div
    (Ieee32.mul (Ieee.float_of_Z fractionLost) (Ieee.float_of_Z 100))
    (Ieee.float_of_Z 256).

Definition GetLossPercentage (s : RtpStream.t) : spec_float :=
  loss_percentage (RtpStream.fractionLost s).

End RtpStreamInline.

(** The checks by which the loss percentages are compared with exact
    arithmetic, one [fractionLost] (or one pair) at a time. *)
Module LossCheck.

Definition exact (fractionLost : Z) : bool :=
  Ieee32.is_finite (RtpStreamInline.loss_percentage fractionLost)
  && QArith_base.Qeq_bool
       (Ieee32.to_Q (RtpStreamInline.loss_percentage fractionLost))
       (QArith_base.Qmake (fractionLost * 100) 256).

(** The 256 loss percentages with their [fractionLost], evaluated
    once. *)
Definition percentages : list (Z * spec_float) :=
  Eval vm_compute in
    map (fun n => (Z.of_nat n, RtpStreamInline.loss_percentage (Z.of_nat n)))
      (seq 0 256).

(** The value [SimpleConsumer::GetLossPercentage] returns for an active
    consumer with a producer stream, from the two percentages. *)
Definition difference (own theirs : spec_float) : spec_float :=
  if SFleb own theirs then Ieee.zero else Ieee32.sub own theirs.

Definition difference_exact (own theirs : Z * spec_float) : bool :=
  let d := difference (snd own) (snd theirs) in
  Ieee32.is_finite d
  && QArith_base.Qeq_bool
       (Ieee32.to_Q d)
       (QArith_base.Qmake (Z.max 0 (fst own - fst theirs) * 100) 256).

End LossCheck.


(** The callees of the remaining methods, whose code is not among the
    sources either: [ReceiveNack], [ReceiveRtcpReceiverReport] and
    [GetRate] of the send stream (RtpStreamSend.cpp, RtpStream.cpp and
    the rate counters behind RtpStream.hpp line 169), and the
    [HandleRequest] of the base class (Consumer.cpp).  As with
    [Collaborators], a call that may change an object returns its new
    value. *)
Class Callees {E : Collaborators} : Type := {
  (* RTC::RTCP::FeedbackRtpNackPacket and RTC::RTCP::ReceiverReport *)
  NackPacket : Type;
  ReceiverReport : Type;
  (* The stream as the call leaves it, and the packets for which it
     has called its listener's OnRtpStreamRetransmitRtpPacket, in
     order. *)
  RtpStreamSend_ReceiveNack :
    NackPacket -> RtpStreamSend -> RtpStreamSend * list RtpPacket.t;
  RtpStreamSend_ReceiveRtcpReceiverReport :
    ReceiverReport -> RtpStreamSend -> RtpStreamSend;
  (* RtpStream::GetRate(now) is not const: the counters move on. *)
  RtpStreamSend_GetRate : Z -> RtpStreamSend -> RtpStreamSend * Z;
  (* RTC::Consumer::HandleRequest(request) *)
  Consumer_HandleRequest :
    Request -> SimpleConsumer -> option (SimpleConsumer * Request)
}.

Section SimpleConsumerMore.

Context {E : Collaborators} {F : Callees}.

(** [RtpStreamSend::GetFractionLost()] (uint8_t) is not declared in the
    RtpStream.hpp of the sources. *)
Variable RtpStreamSend_GetFractionLost : RtpStreamSend -> Z.

(** [SimpleConsumer::NeedWorstRemoteFractionLost(mappedSsrc,
    worstRemoteFractionLost)]: the value left in the reference. *)
Definition NeedWorstRemoteFractionLost
  (mappedSsrc : Z) (worstRemoteFractionLost : Z) (c : SimpleConsumer) : Z :=
  if negb (IsActive c) then worstRemoteFractionLost
  else
    let fractionLost := RtpStreamSend_GetFractionLost (rtpStream c) in
    (* If our fraction lost is worse than the given one, update it. *)
    if fractionLost >? worstRemoteFractionLost
    then fractionLost
    else worstRemoteFractionLost.

(** [SimpleConsumer::GetLossPercentage()] *)
Definition GetLossPercentage (c : SimpleConsumer) : spec_float :=
  if negb (IsActive c) then Ieee.zero
  else
    match producerRtpStream c with
    | None => Ieee.zero
    | Some producer =>
        let own :=
          RtpStreamInline.GetLossPercentage (RtpStreamSend_base (rtpStream c)) in
        let theirs := RtpStreamInline.GetLossPercentage producer in
        if SFleb own theirs then Ieee.zero else Ieee32.sub own theirs
    end.

(** [SimpleConsumer::OnRtpStreamRetransmitRtpPacket(rtpStream, packet)] *)
Definition OnRtpStreamRetransmitRtpPacket (packet : RtpPacket.t) (c : SimpleConsumer)
  : SimpleConsumer * RtpPacket.t :=
  let '(l, packet) := OnConsumerSendRtpPacket (listener (consumer c)) packet in
  (with_listener l c, packet).

(** The connection and pause flags of the base class, which its own
    methods (Consumer.cpp) change. *)
Definition set_flags (connected isPaused isProducerPaused : bool) (b : Consumer)
  : Consumer :=
  {| kind := kind b; rtpParameters := rtpParameters b;
     consumableRtpEncodings := consumableRtpEncodings b;
     supportedCodecPayloadTypes := supportedCodecPayloadTypes b;
     lastRtcpSentTime := lastRtcpSentTime b;
     maxRtcpInterval := maxRtcpInterval b;
     transportConnected := connected; paused := isPaused;
     producerPaused := isProducerPaused; listener := listener b |}.

(** What the constructor fixes for the life of the consumer. *)
Definition same_configuration (a b : Consumer) : Prop :=
  kind a = kind b /\
  rtpParameters a = rtpParameters b /\
  consumableRtpEncodings a = consumableRtpEncodings b /\
  supportedCodecPayloadTypes a = supportedCodecPayloadTypes b /\
  maxRtcpInterval a = maxRtcpInterval b.

(** The members no method of SimpleConsumer.cpp assigns after
    construction. *)
Definition unchanged_by_method (c' c : SimpleConsumer) : Prop :=
  same_configuration (consumer c') (consumer c) /\
  keyFrameSupported c' = keyFrameSupported c.

(** [SimpleConsumer::ReceiveNack(nackPacket)].  The send stream calls
    back [OnRtpStreamRetransmitRtpPacket] for each packet it
    retransmits. *)
Definition ReceiveNack (nackPacket : NackPacket) (c : SimpleConsumer)
  : SimpleConsumer :=
  if negb (IsActive c) then c
  else
    let '(stream, retransmitted) :=
      RtpStreamSend_ReceiveNack nackPacket (rtpStream c) in
    fold_left (fun c packet => fst (OnRtpStreamRetransmitRtpPacket packet c))
      retransmitted (with_rtpStream stream c).

(** [SimpleConsumer::ReceiveRtcpReceiverReport(report)] *)
Definition ReceiveRtcpReceiverReport (report : ReceiverReport) (c : SimpleConsumer)
  : SimpleConsumer :=
  with_rtpStream
    (RtpStreamSend_ReceiveRtcpReceiverReport report (rtpStream c)) c.

(** [SimpleConsumer::GetTransmissionRate(now)]: the consumer as the
    call leaves it, and the rate returned. *)
Definition GetTransmissionRate (now : Z) (c : SimpleConsumer)
  : SimpleConsumer * Z :=
  if negb (IsActive c) then (c, 0)
  else
    let '(stream, rate) := RtpStreamSend_GetRate now (rtpStream c) in
    (with_rtpStream stream c, rate).

(** What the invariants below need of the base class's [HandleRequest]:
    it assigns none of the members that the constructor fixes. *)
Definition Consumer_HandleRequest_keeps_configuration : Prop :=
  forall request c c' request',
    Consumer_HandleRequest request c = Some (c', request') ->
    unchanged_by_method c' c.

(** Whether the payload step of [SendRtpPacket] lets the packet
    through: there is no encoding context, or [EncodePayload]
    succeeds. *)
Definition PayloadEncoded (packet : RtpPacket.t) (c : SimpleConsumer) : bool :=
  match encodingContext c with
  | Some ctx => fst (fst (EncodePayload ctx packet))
  | None => true
  end.

(** One call of a method of SimpleConsumer.cpp on a constructed
    consumer, or a change of the base class flags.  Every method of
    the file but the constructor and the destructor (after which
    there is no call) has its case.  The last but one stands for the
    methods that assign no member of the consumer ([FillJson],
    [FillJsonStats], [FillJsonScore], [ProducerRtpStreamScore],
    [NeedWorstRemoteFractionLost], [GetLossPercentage], [EmitScore],
    [OnRtpStreamScore]): what they call on the send stream, whose
    code is absent, can at most leave another stream. *)
Inductive method_step : SimpleConsumer -> SimpleConsumer -> Prop :=
  | step_HandleRequest (request request' : Request) c c' :
      HandleRequest Consumer_HandleRequest request c = Some (c', request') ->
      method_step c c'
  | step_TransportConnected c c' :
      TransportConnected c = Some c' -> method_step c c'
  | step_ProducerNewRtpStream (s : RtpStream.t) c :
      method_step c (ProducerNewRtpStream s c)
  | step_SendRtpPacket (now : Z) (packet packet' : RtpPacket.t) c c' :
      SendRtpPacket now packet c = Some (c', packet') -> method_step c c'
  | step_GetRtcp (packet : CompoundPacket) (now : Z) c :
      method_step c (fst (GetRtcp packet now c))
  | step_ReceiveNack (nackPacket : NackPacket) c :
      method_step c (ReceiveNack nackPacket c)
  | step_ReceiveKeyFrameRequest (messageType : MessageType) c c' :
      ReceiveKeyFrameRequest messageType c = Some c' -> method_step c c'
  | step_ReceiveRtcpReceiverReport (report : ReceiverReport) c :
      method_step c (ReceiveRtcpReceiverReport report c)
  | step_GetTransmissionRate (now : Z) c :
      method_step c (fst (GetTransmissionRate now c))
  | step_Paused (wasProducer : bool) c :
      method_step c (Paused wasProducer c)
  | step_Resumed (wasProducer : bool) c c' :
      Resumed wasProducer c = Some c' -> method_step c c'
  | step_RequestKeyFrame c c' :
      RequestKeyFrame c = Some c' -> method_step c c'
  | step_OnRtpStreamRetransmitRtpPacket (packet : RtpPacket.t) c :
      method_step c (fst (OnRtpStreamRetransmitRtpPacket packet c))
  | step_assigns_no_member (stream : RtpStreamSend) c :
      method_step c (with_rtpStream stream c)
  | step_flags (connected isPaused isProducerPaused : bool) c :
      method_step c
        (with_consumer
           (set_flags connected isPaused isProducerPaused (consumer c)) c).

(** The consumers a constructor call on [b] can lead to. *)
Inductive reachable (b : Consumer) : SimpleConsumer -> Prop :=
  | reachable_ctor c :
      SimpleConsumer_ctor b = Some (Ok c) -> reachable b c
  | reachable_step c c' :
      reachable b c -> method_step c c' -> reachable b c'.

(** The three kinds of RTCP feedback [CreateRtpStream] looks for. *)
Definition is_nack (fb : RtcpFeedback) : bool :=
  String.eqb (fb_type fb) "nack" && String.eqb (fb_parameter fb) "".

Definition is_pli (fb : RtcpFeedback) : bool :=
  String.eqb (fb_type fb) "nack" && String.eqb (fb_parameter fb) "pli".

Definition is_fir (fb : RtcpFeedback) : bool :=
  String.eqb (fb_type fb) "ccm" && String.eqb (fb_parameter fb) "fir".

End SimpleConsumerMore.


(** ** More sample values *)

Module ReferenceMore.

(** A VP8 key frame the payload handler refuses to encode. *)
Definition refused_key_frame (seq ts : Z) : RtpPacket.t :=
  {| RtpPacket.ssrc := 1111; RtpPacket.sequenceNumber := seq;
     RtpPacket.timestamp := ts; RtpPacket.payloadType := 101;
     RtpPacket.payload := [254; 3; 4; 5] |}.

(** The base class object the video consumer is constructed on. *)
Definition video_base : Consumer (E := Reference.collaborators) :=
  Reference.base_consumer VIDEO Reference.vp8 [Reference.encoding_with_ssrc 1111].



(** A stream whose last receiver report had the given fraction lost. *)
Definition with_fractionLost (f : Z) (s : RtpStream.t) : RtpStream.t :=
  {| RtpStream.params := RtpStream.params s;
     RtpStream.packetsLost := RtpStream.packetsLost s;
     RtpStream.fractionLost := f;
     RtpStream.packetsDiscarded := RtpStream.packetsDiscarded s;
     RtpStream.packetsRepaired := RtpStream.packetsRepaired s;
     RtpStream.nackCount := RtpStream.nackCount s;
     RtpStream.nackRtpPacketCount := RtpStream.nackRtpPacketCount s;
     RtpStream.pliCount := RtpStream.pliCount s;
     RtpStream.firCount := RtpStream.firCount s;
     RtpStream.paused := RtpStream.paused s;
     RtpStream.maxSeq := RtpStream.maxSeq s;
     RtpStream.cycles := RtpStream.cycles s;
     RtpStream.baseSeq := RtpStream.baseSeq s;
     RtpStream.badSeq := RtpStream.badSeq s;
     RtpStream.maxPacketTs := RtpStream.maxPacketTs s;
     RtpStream.maxPacketMs := RtpStream.maxPacketMs s |}.

(** The producer stream of the lossy consumer: a fraction lost of 16
    (6.25%). *)
Definition lossy_producer : RtpStream.t :=
  with_fractionLost 16 (RtpStream.with_seq 0 0 0).

(** The video consumer losing a fraction of 64 (25%) to its remote
    endpoint. *)
Definition lossy_video_consumer : SimpleConsumer (E := Reference.collaborators) :=
  with_rtpStream (E := Reference.collaborators)
    (Reference.on_stream (with_fractionLost 64)
       (rtpStream Reference.video_consumer))
    (with_producerRtpStream (E := Reference.collaborators)
       (Some lossy_producer) Reference.video_consumer).

(** Callees in the style of the recording send stream: a NACK names
    sequence numbers, and the stream retransmits the packets of its
    buffer that have one of them; a receiver report carries a fraction
    lost, which the stream records; the rate is the number of packets
    in the buffer; the base class accepts no request and changes
    nothing. *)
Definition SendStream_ReceiveNack (seqs : list Z) (s : Reference.SendStream)
  : Reference.SendStream * list RtpPacket.t :=
  (s,
   filter (fun p => bool_decide (RtpPacket.sequenceNumber p ∈ seqs))
     (Reference.buffer s)).

Definition SendStream_ReceiveRtcpReceiverReport
  (fractionLost : Z) (s : Reference.SendStream) : Reference.SendStream :=
  Reference.on_stream (with_fractionLost fractionLost) s.

Definition SendStream_GetRate (now : Z) (s : Reference.SendStream)
  : Reference.SendStream * Z :=
  (s, Z.of_nat (length (Reference.buffer s))).

Definition callees : Callees (E := Reference.collaborators) :=
  @Build_Callees Reference.collaborators
    (list Z) Z
    SendStream_ReceiveNack
    SendStream_ReceiveRtcpReceiverReport
    SendStream_GetRate
    Reference.ignore_request.

(** A stream of a 90 kHz clock whose last packet left at 1000 ms. *)
Definition video_stream_sent_at_1000 : RtpStream.t :=
  Reference.stream
    (Reference.with_maxPacketMs 1000
       (Reference.SendStream_new
          {| RtpStream.ssrc := 2222; RtpStream.payloadType := 101;
             RtpStream.mimeType := "video/VP8"; RtpStream.clockRate := 90000;
             RtpStream.rid := ""; RtpStream.rtxSsrc := 0;
             RtpStream.rtxPayloadType := 0; RtpStream.useNack := true;
             RtpStream.usePli := true; RtpStream.useFir := true;
             RtpStream.useInBandFec := false; RtpStream.cname := "cname" |}
          1500)).

(** An object whose only member is a frame rate of 30. *)
Definition object_with_framerate : Json.json :=
  Json.object
    {[ "maxFramerate" := Json.number_float RtpEncodingParameters.thirty ]}.

End ReferenceMore.


(** * Properties *)

(** ** Fixed-width arithmetic *)

Lemma wrap_range w x : 0 <= w -> Uint.in_range w (Uint.wrap w x).
Proof.
  intros Hw. unfold Uint.in_range, Uint.wrap.
  apply Z.mod_pos_bound. apply Z.pow_pos_nonneg; lia.
Qed.

Lemma wrap_small w x : Uint.in_range w x -> Uint.wrap w x = x.
Proof. intros H. unfold Uint.wrap. apply Z.mod_small. exact H. Qed.

(** ** RtpStream *)

Lemma GetExpectedPackets_mod (s : RtpStream.t) :
  RtpStream.GetExpectedPackets s =
  (RtpStream.cycles s + RtpStream.maxSeq s - RtpStream.baseSeq s + 1) mod 2 ^ 32.
Proof.
  unfold RtpStream.GetExpectedPackets, Uint.u32, Uint.wrap.
  rewrite Zplus_mod_idemp_l.
  replace ((RtpStream.cycles s + RtpStream.maxSeq s) mod 2 ^ 32
           - RtpStream.baseSeq s + 1)
    with ((RtpStream.cycles s + RtpStream.maxSeq s) mod 2 ^ 32
          + (1 - RtpStream.baseSeq s)) by lia.
  rewrite Zplus_mod_idemp_l.
  f_equal. lia.
Qed.

(** C6.  [GetExpectedPackets] returns [(cycles + maxSeq) - baseSeq + 1],
    computed as the C++ expression is, in uint32_t; whenever the stream
    has seen no more than 2^32 - 1 packets past its base (the base is
    not above [cycles + maxSeq]) this is the integer
    [cycles + maxSeq - baseSeq + 1] itself; and the stream with
    maxSeq = 5, cycles = 65536 and baseSeq = 65530 expects 12 packets. *)
Theorem GetExpectedPackets_spec :
  (forall s : RtpStream.t,
      RtpStream.GetExpectedPackets s =
      (RtpStream.cycles s + RtpStream.maxSeq s - RtpStream.baseSeq s + 1)
        mod 2 ^ 32) /\
  (forall s : RtpStream.t,
      RtpStream.baseSeq s <= RtpStream.cycles s + RtpStream.maxSeq s ->
      RtpStream.cycles s + RtpStream.maxSeq s - RtpStream.baseSeq s + 1 < 2 ^ 32 ->
      RtpStream.GetExpectedPackets s =
      RtpStream.cycles s + RtpStream.maxSeq s - RtpStream.baseSeq s + 1) /\
  RtpStream.GetExpectedPackets (RtpStream.with_seq 5 65536 65530) = 12.
Proof.
  split; [| split].
  - exact GetExpectedPackets_mod.
  - intros s Hbase Hmax. rewrite GetExpectedPackets_mod.
    apply Z.mod_small. lia.
  - rewrite GetExpectedPackets_mod. reflexivity.
Qed.

(** The second part of C6 at the wrapped stream of the scenario. *)
Lemma GetExpectedPackets_spec_witness :
  RtpStream.GetExpectedPackets (RtpStream.with_seq 5 65536 65530) =
  65536 + 5 - 65530 + 1.
Proof.
  apply (proj1 (proj2 GetExpectedPackets_spec) (RtpStream.with_seq 5 65536 65530));
    simpl; lia.
Defined.

(** C6 as stated fails where the uint32_t expression wraps.  A stream
    whose base is above [cycles + maxSeq] (maxSeq = 0, cycles = 0,
    baseSeq = 5) expects 4294967292 packets, not -4; and a stream that
    is 2^32 - 1 sequence numbers past its base (maxSeq = 65535,
    cycles = 65535 * 65536, baseSeq = 0) expects 0 packets, not 2^32. *)
Lemma GetExpectedPackets_wraps :
  RtpStream.GetExpectedPackets (RtpStream.with_seq 0 0 5) = 4294967292 /\
  RtpStream.GetExpectedPackets (RtpStream.with_seq 0 0 5)
  <> RtpStream.cycles (RtpStream.with_seq 0 0 5)
     + RtpStream.maxSeq (RtpStream.with_seq 0 0 5)
     - RtpStream.baseSeq (RtpStream.with_seq 0 0 5) + 1 /\
  RtpStream.GetExpectedPackets (RtpStream.with_seq 65535 4294901760 0) = 0 /\
  RtpStream.GetExpectedPackets (RtpStream.with_seq 65535 4294901760 0)
  <> RtpStream.cycles (RtpStream.with_seq 65535 4294901760 0)
     + RtpStream.maxSeq (RtpStream.with_seq 65535 4294901760 0)
     - RtpStream.baseSeq (RtpStream.with_seq 65535 4294901760 0) + 1.
Proof.
  repeat split; try (vm_compute; reflexivity); vm_compute; discriminate.
Qed.

(** ** The RTCP interval test in IEEE arithmetic *)

Lemma forall_range_spec (P : Z -> bool) (fuel : nat) (z : Z) :
  Ieee.forall_range fuel z P = true ->
  forall x, z <= x < z + Z.of_nat fuel -> P x = true.
Proof.
  revert z. induction fuel as [| k IH]; intros z Hall x Hx.
  - simpl in Hx. lia.
  - simpl in Hall. apply andb_prop in Hall. destruct Hall as [Hz Hrest].
    destruct (Z.eq_dec x z) as [-> | Hne]; [exact Hz |].
    apply (IH (z + 1) Hrest). lia.
Qed.

Lemma positive_le_trans (a b c : spec_float) :
  Ieee.positive_le a b = true -> Ieee.positive_le b c = true ->
  Ieee.positive_le a c = true.
Proof.
  unfold Ieee.positive_le.
  destruct a as [| | | [|] ma ea]; try discriminate.
  destruct b as [| | | [|] mb eb]; try discriminate.
  destruct c as [| | | [|] mc ec]; try discriminate.
  intros Hab Hbc.
  apply orb_prop in Hab. apply orb_prop in Hbc. apply orb_true_iff.
  destruct Hab as [Hab | Hab]; destruct Hbc as [Hbc | Hbc];
    rewrite ?andb_true_iff in *;
    rewrite ?Z.ltb_lt, ?Z.eqb_eq, ?Pos.leb_le in *.
  - left. lia.
  - left. lia.
  - left. lia.
  - right. split; [lia |]. destruct Hab as [_ Hab]. destruct Hbc as [_ Hbc].
    revert Hab Hbc. apply Pos.le_trans.
Qed.

Lemma positive_le_refl_l (a b : spec_float) :
  Ieee.positive_le a b = true -> Ieee.positive_le a a = true.
Proof.
  unfold Ieee.positive_le.
  destruct a as [| | | [|] ma ea]; try discriminate.
  intros _. rewrite Z.eqb_refl, Pos.leb_refl. apply orb_true_r.
Qed.

Lemma positive_le_refl_r (a b : spec_float) :
  Ieee.positive_le a b = true -> Ieee.positive_le b b = true.
Proof.
  unfold Ieee.positive_le.
  destruct a as [| | | [|] ma ea]; try discriminate.
  destruct b as [| | | [|] mb eb]; try discriminate.
  intros _. rewrite Z.eqb_refl, Pos.leb_refl. apply orb_true_r.
Qed.

(** [<] of floats against a larger positive finite float. *)
Lemma SFltb_positive_le (x y z : spec_float) :
  SFltb x y = true -> Ieee.positive_le y z = true -> SFltb x z = true.
Proof.
  unfold SFltb, SFcompare, Ieee.positive_le.
  destruct y as [| | | [|] my ey]; try discriminate.
  destruct z as [| | | [|] mz ez]; try discriminate.
  intros Hxy Hyz.
  destruct x as [sx | sx | | sx mx ex]; try exact Hxy.
  destruct sx; [reflexivity |].
  apply orb_prop in Hyz.
  destruct (Z.compare_spec ex ey) as [Heq | Hlt | Hgt]; try discriminate.
  - (* same exponent as y: the mantissa is below that of y *)
    change (Pos.compare_cont Eq mx my) with (Pos.compare mx my) in Hxy.
    destruct (Pos.compare_spec mx my) as [| Hm |]; try discriminate.
    destruct Hyz as [Hyz | Hyz].
    + apply Z.ltb_lt in Hyz.
      destruct (Z.compare_spec ex ez); try lia; reflexivity.
    + apply andb_prop in Hyz. destruct Hyz as [He Hmz].
      apply Z.eqb_eq in He. apply Pos.leb_le in Hmz.
      destruct (Z.compare_spec ex ez); try lia.
      change (Pos.compare_cont Eq mx mz) with (Pos.compare mx mz).
      destruct (Pos.compare_spec mx mz); try lia; reflexivity.
  - destruct Hyz as [Hyz | Hyz].
    + apply Z.ltb_lt in Hyz.
      destruct (Z.compare_spec ex ez); try lia; reflexivity.
    + apply andb_prop in Hyz. destruct Hyz as [He _].
      apply Z.eqb_eq in He.
      destruct (Z.compare_spec ex ez); try lia; reflexivity.
Qed.

(** Conversion of the integers of uint16_t to float is monotone; one
    step at a time, by evaluation. *)
Lemma float_of_Z_step :
  Ieee.forall_range (Z.to_nat 65534) 1
    (fun i => Ieee.positive_le (Ieee.float_of_Z i) (Ieee.float_of_Z (i + 1)))
  = true.
Proof. vm_compute. reflexivity. Qed.

Lemma float_of_Z_monotone (i j : Z) :
  1 <= i -> i <= j -> j <= 65535 ->
  Ieee.positive_le (Ieee.float_of_Z i) (Ieee.float_of_Z j) = true.
Proof.
  intros Hi Hij Hj.
  pose proof (forall_range_spec _ _ _ float_of_Z_step) as Hstep.
  cbv beta in Hstep.
  assert (Hk : forall k : nat,
             i + Z.of_nat k <= 65535 ->
             Ieee.positive_le (Ieee.float_of_Z i)
               (Ieee.float_of_Z (i + Z.of_nat k)) = true).
  { induction k as [| k IH]; intros Hb.
    - rewrite Z.add_0_r.
      destruct (Z.eq_dec i 65535) as [-> | Hne].
      + apply (positive_le_refl_r (Ieee.float_of_Z 65534)).
        apply (Hstep 65534). lia.
      + apply (positive_le_refl_l _ (Ieee.float_of_Z (i + 1))).
        apply Hstep. lia.
    - apply (positive_le_trans _ (Ieee.float_of_Z (i + Z.of_nat k))).
      + apply IH. lia.
      + replace (i + Z.of_nat (S k)) with (i + Z.of_nat k + 1) by lia.
        apply Hstep. lia. }
  replace j with (i + Z.of_nat (Z.to_nat (j - i))) by lia.
  apply Hk. lia.
Qed.

(** Every [d] that can fall short of an interval of uint16_t, against
    the least interval it falls short of; by evaluation. *)
Lemma scaled_below_least :
  Ieee.forall_range (Z.to_nat 56987) 0
    (fun d => SFltb (Ieee.scaled_1_15 d)
                (Ieee.float_of_Z (Ieee.least_above_1_15 d)))
  = true.
Proof. vm_compute. reflexivity. Qed.

(** The test of [GetRtcp] holds whenever 1.15 times the elapsed time
    is below the interval, in exact arithmetic. *)
Lemma scaled_1_15_below (d interval : Z) :
  0 <= d -> 0 <= interval < 2 ^ 16 -> 115 * d < 100 * interval ->
  SFltb (Ieee.scaled_1_15 d) (Ieee.float_of_Z interval) = true.
Proof.
  intros Hd Hi Hlt.
  assert (Hd' : d < 56987) by lia.
  assert (Hleast : 1 <= Ieee.least_above_1_15 d <= interval).
  { unfold Ieee.least_above_1_15. split.
    - assert (0 <= 115 * d / 100) by (apply Z.div_pos; lia). lia.
    - assert (115 * d / 100 < interval)
        by (apply Z.div_lt_upper_bound; lia).
      lia. }
  apply (SFltb_positive_le _ (Ieee.float_of_Z (Ieee.least_above_1_15 d))).
  - apply (forall_range_spec _ _ _ scaled_below_least d). lia.
  - apply float_of_Z_monotone; lia.
Qed.

(** ** SimpleConsumer *)

Section SimpleConsumerProperties.

Context {E : Collaborators}.

Implicit Types (c : SimpleConsumer) (b : Consumer) (packet : RtpPacket.t).

(** *** Key frame requests *)

Lemma Kind_eqb_eq (a k : Kind) : Kind_eqb a k = true <-> a = k.
Proof. destruct a, k; simpl; split; intros H; congruence. Qed.

Lemma RequestKeyFrame_noop c :
  IsActive c = false \/ producerRtpStream c = None \/ kind (consumer c) <> VIDEO ->
  RequestKeyFrame c = Some c.
Proof.
  intros H. unfold RequestKeyFrame.
  destruct H as [H | [H | H]].
  - rewrite H. reflexivity.
  - rewrite H. rewrite orb_true_r. reflexivity.
  - destruct (Kind_eqb (kind (consumer c)) VIDEO) eqn:Hk.
    + apply Kind_eqb_eq in Hk. contradiction.
    + simpl. rewrite orb_true_r. reflexivity.
Qed.

Lemma RequestKeyFrame_forwards c :
  IsActive c = true -> producerRtpStream c <> None -> kind (consumer c) = VIDEO ->
  RequestKeyFrame c =
  match consumableRtpEncodings (consumer c) with
  | [] => None
  | encoding :: _ =>
      Some (with_listener
              (OnConsumerKeyFrameRequested (listener (consumer c))
                 (RtpEncodingParameters.ssrc encoding)) c)
  end.
Proof.
  intros Ha Hp Hk. unfold RequestKeyFrame.
  rewrite Ha, Hk. simpl.
  destruct (producerRtpStream c); [reflexivity | contradiction].
Qed.

(** [RequestKeyFrame] touches nothing but the listener. *)
Lemma RequestKeyFrame_frame c c' :
  RequestKeyFrame c = Some c' ->
  syncRequired c' = syncRequired c /\ rtpStream c' = rtpStream c /\
  rtpSeqManager c' = rtpSeqManager c /\
  rtpTimestampManager c' = rtpTimestampManager c /\
  kind (consumer c') = kind (consumer c).
Proof.
  unfold RequestKeyFrame.
  destruct (negb (IsActive c) || _ || _).
  - intros [= <-]. repeat split.
  - destruct (consumableRtpEncodings (consumer c)); [discriminate |].
    intros [= <-]. repeat split.
Qed.

(** A consumer whose kind is not video always comes back unchanged. *)
Lemma RequestKeyFrame_not_video c :
  kind (consumer c) <> VIDEO -> RequestKeyFrame c = Some c.
Proof. intros H. apply RequestKeyFrame_noop. right. right. exact H. Qed.

(** C10.  [RequestKeyFrame] calls [listener->OnConsumerKeyFrameRequested]
    with the ssrc of the first consumable encoding when the consumer
    is active, a producer stream is bound and the kind is video; in
    every other state it changes nothing.  An audio consumer therefore
    never reaches the listener, whichever way [RequestKeyFrame] is
    triggered: [TransportConnected], [ReceiveKeyFrameRequest],
    [Resumed], or the CONSUMER_REQUEST_KEY_FRAME request (which is
    still accepted). *)
Theorem RequestKeyFrame_only_active_video
  (parent : Request -> SimpleConsumer -> option (SimpleConsumer * Request)) c :
  (IsActive c = true -> producerRtpStream c <> None ->
   kind (consumer c) = VIDEO ->
   RequestKeyFrame c =
   match consumableRtpEncodings (consumer c) with
   | [] => None
   | encoding :: _ =>
       Some (with_listener
               (OnConsumerKeyFrameRequested (listener (consumer c))
                  (RtpEncodingParameters.ssrc encoding)) c)
   end) /\
  (IsActive c = false \/ producerRtpStream c = None \/
   kind (consumer c) <> VIDEO ->
   RequestKeyFrame c = Some c) /\
  (kind (consumer c) = AUDIO ->
   TransportConnected c = Some c /\
   (forall messageType, exists c',
       ReceiveKeyFrameRequest messageType c = Some c' /\
       listener (consumer c') = listener (consumer c)) /\
   (forall wasProducer, exists c',
       Resumed wasProducer c = Some c' /\
       listener (consumer c') = listener (consumer c)) /\
   (forall request,
       methodId request = CONSUMER_REQUEST_KEY_FRAME ->
       HandleRequest parent request c = Some (c, Accept request))).
Proof.
  split; [| split].
  - apply RequestKeyFrame_forwards.
  - apply RequestKeyFrame_noop.
  - intros Haudio.
    assert (Hnv : forall c0, kind (consumer c0) = kind (consumer c) ->
                             RequestKeyFrame c0 = Some c0).
    { intros c0 Hk. apply RequestKeyFrame_not_video. rewrite Hk, Haudio.
      discriminate. }
    repeat split.
    + unfold TransportConnected. apply Hnv. reflexivity.
    + intros messageType. unfold ReceiveKeyFrameRequest.
      destruct (negb (IsActive c)).
      * exists c. split; reflexivity.
      * eexists. split; [apply Hnv; reflexivity | reflexivity].
    + intros wasProducer. unfold Resumed.
      destruct (negb wasProducer).
      * eexists. split; [apply Hnv; reflexivity | reflexivity].
      * eexists. split; reflexivity.
    + intros request Hm. unfold HandleRequest. rewrite Hm.
      rewrite Hnv by reflexivity. reflexivity.
Qed.

(** *** Resume *)

(** C5.  [Resumed(wasProducer)] leaves [syncRequired] set, and it never
    stops short of a result while the consumer has a consumable
    encoding.  When [wasProducer] is false the call ends in
    [RequestKeyFrame()] on the resumed consumer: for an active video
    consumer the listener's [OnConsumerKeyFrameRequested] is called,
    once, with the ssrc of the first consumable encoding, and the
    stream has been resumed; for a consumer that is inactive or not
    video the request stops at its first test and the listener hears
    nothing.  When [wasProducer] is true [RequestKeyFrame] is not
    called: the result is the resumed consumer with [syncRequired]
    set, and the listener has heard nothing, whatever the consumer. *)
Theorem Resumed_sync_and_key_frame (wasProducer : bool) c :
  (forall c', Resumed wasProducer c = Some c' -> syncRequired c' = true) /\
  (consumableRtpEncodings (consumer c) <> [] ->
   exists c', Resumed wasProducer c = Some c') /\
  (wasProducer = false ->
   Resumed wasProducer c =
   RequestKeyFrame
     (with_syncRequired true
        (with_rtpStream (RtpStreamSend_Resume (rtpStream c)) c))) /\
  (wasProducer = false ->
   IsActive c = true -> kind (consumer c) = VIDEO ->
   forall encoding rest,
     consumableRtpEncodings (consumer c) = encoding :: rest ->
     exists c',
       Resumed wasProducer c = Some c' /\
       listener (consumer c') =
         OnConsumerKeyFrameRequested (listener (consumer c))
           (RtpEncodingParameters.ssrc encoding) /\
       rtpStream c' = RtpStreamSend_Resume (rtpStream c) /\
       syncRequired c' = true) /\
  (wasProducer = false ->
   IsActive c = false \/ kind (consumer c) <> VIDEO ->
   Resumed wasProducer c =
   Some (with_syncRequired true
           (with_rtpStream (RtpStreamSend_Resume (rtpStream c)) c))) /\
  (wasProducer = true ->
   Resumed wasProducer c =
   Some (with_syncRequired true
           (with_rtpStream (RtpStreamSend_Resume (rtpStream c)) c)) /\
   forall c', Resumed wasProducer c = Some c' ->
              listener (consumer c') = listener (consumer c)).
Proof.
  split; [| split; [| split; [| split; [| split]]]].
  - intros c'. unfold Resumed. destruct (negb wasProducer).
    + intros H. apply RequestKeyFrame_frame in H. destruct H as [H _].
      rewrite H. reflexivity.
    + intros [= <-]. reflexivity.
  - intros Hne. unfold Resumed. destruct (negb wasProducer).
    + unfold RequestKeyFrame.
      destruct (negb (IsActive _) || _ || _); [eexists; reflexivity |].
      simpl. destruct (consumableRtpEncodings (consumer c)).
      * contradiction.
      * eexists. reflexivity.
    + eexists. reflexivity.
  - intros ->. reflexivity.
  - intros -> Ha Hk encoding rest Henc. unfold Resumed. cbn [negb].
    rewrite RequestKeyFrame_forwards.
    + cbn. rewrite Henc. eexists. split; [reflexivity |]. repeat split.
    + exact Ha.
    + cbn. unfold IsActive in Ha.
      destruct (producerRtpStream c); [discriminate |].
      rewrite andb_false_r in Ha. discriminate Ha.
    + exact Hk.
  - intros -> Hoff. unfold Resumed. cbn [negb].
    apply RequestKeyFrame_noop.
    destruct Hoff as [Ha | Hk]; [left; exact Ha | right; right; exact Hk].
  - intros ->. split; [reflexivity |].
    unfold Resumed. simpl. intros c' [= <-]. reflexivity.
Qed.

(** *** Construction *)

(** The computation with its allocations ends as [SimpleConsumer_ctor]
    does. *)
Lemma CreateRtpStream_allocating_result b :
  snd (CreateRtpStream_allocating b) =
  match CreateRtpStream b with
  | Some c => Some (Ok c)
  | None => None
  end.
Proof.
  unfold CreateRtpStream_allocating, CreateRtpStream.
  destruct (encodings (rtpParameters b)); reflexivity.
Qed.

Lemma SimpleConsumer_ctor_allocating_result b :
  snd (SimpleConsumer_ctor_allocating b) = SimpleConsumer_ctor b.
Proof.
  unfold SimpleConsumer_ctor_allocating, SimpleConsumer_ctor.
  destruct (negb (Nat.eqb (length (consumableRtpEncodings b)) 1));
    [reflexivity |].
  cbn [construction_bind construction_ret].
  match goal with
  | |- snd (let '(_, _) := CreateRtpStream_allocating ?b' in _) = _ =>
      rewrite <- (CreateRtpStream_allocating_result b');
      destruct (CreateRtpStream_allocating b')
  end.
  reflexivity.
Qed.

(** What [CreateRtpStream] has allocated when it returns: one stream. *)
Lemma CreateRtpStream_allocating_one b :
  encodings (rtpParameters b) <> [] ->
  exists stream c, CreateRtpStream_allocating b = ([stream], Some (Ok c)).
Proof.
  intros Hne. unfold CreateRtpStream_allocating.
  destruct (encodings (rtpParameters b)); [contradiction |].
  eexists _, _. reflexivity.
Qed.

(** C7.  The constructor yields an object only when
    [consumableRtpEncodings] has exactly one element.  For every other
    size the construction ends in the TypeError of line 21 and has
    created no RtpStreamSend by then: the list of the streams that
    [new] has created is empty, [CreateRtpStream] not having run.
    With one consumable encoding and an encoding in the RTP
    parameters, the construction yields an object and has created
    exactly one stream. *)
Theorem SimpleConsumer_ctor_single_encoding b :
  snd (SimpleConsumer_ctor_allocating b) = SimpleConsumer_ctor b /\
  (forall c, SimpleConsumer_ctor b = Some (Ok c) ->
             length (consumableRtpEncodings b) = 1%nat) /\
  (length (consumableRtpEncodings b) <> 1%nat ->
   SimpleConsumer_ctor b =
   Some (Throw (TypeError "invalid consumableRtpEncodings with size != 1")) /\
   SimpleConsumer_ctor_allocating b =
   ([], Some (Throw (TypeError "invalid consumableRtpEncodings with size != 1")))) /\
  (length (consumableRtpEncodings b) = 1%nat ->
   encodings (rtpParameters b) <> [] ->
   exists stream c,
     SimpleConsumer_ctor b = Some (Ok c) /\
     SimpleConsumer_ctor_allocating b = ([stream], Some (Ok c))).
Proof.
  split; [apply SimpleConsumer_ctor_allocating_result |].
  pose proof (SimpleConsumer_ctor_allocating_result b) as Hresult.
  revert Hresult.
  unfold SimpleConsumer_ctor_allocating, SimpleConsumer_ctor.
  destruct (Nat.eqb (length (consumableRtpEncodings b)) 1) eqn:Hlen.
  - apply Nat.eqb_eq in Hlen. cbn [negb construction_bind construction_ret].
    intros Hresult. split; [| split].
    + intros _ _. exact Hlen.
    + intros Hne. contradiction.
    + intros _ Henc.
      match type of Hresult with
      | context [CreateRtpStream_allocating ?b'] =>
          destruct (CreateRtpStream_allocating_one b') as (stream & c & Hone)
      end.
      { destruct (Kind_eqb (kind b) AUDIO); exact Henc. }
      rewrite Hone in Hresult. cbn in Hresult.
      exists stream, c. rewrite Hone. split; [symmetry; exact Hresult | reflexivity].
  - apply Nat.eqb_neq in Hlen. cbn [negb construction_bind construction_throw].
    intros _. split; [| split].
    + intros c Hc. discriminate.
    + intros _. split; reflexivity.
    + intros H1. contradiction.
Qed.

(** *** The sync step *)

Lemma SyncStep_fields (now : Z) packet c :
  consumer (SyncStep now packet c) = consumer c /\
  rtpStream (SyncStep now packet c) = rtpStream c /\
  producerRtpStream (SyncStep now packet c) = producerRtpStream c /\
  keyFrameSupported (SyncStep now packet c) = keyFrameSupported c /\
  syncRequired (SyncStep now packet c) = false /\
  rtpSeqManager (SyncStep now packet c) =
    Sync (RtpPacket.GetSequenceNumber packet) (rtpSeqManager c) /\
  rtpTimestampManager (SyncStep now packet c) =
    (if RtpStream.GetMaxPacketMs (RtpStreamSend_base (rtpStream c)) =? 0
     then Sync (RtpPacket.GetTimestamp packet) (rtpTimestampManager c)
     else Offset (SyncOffset now (RtpStreamSend_base (rtpStream c)))
            (Sync (RtpPacket.GetTimestamp packet) (rtpTimestampManager c))) /\
  encodingContext (SyncStep now packet c) =
    option_map EncodingContext_SyncRequired (encodingContext c).
Proof.
  unfold SyncStep.
  destruct (RtpStream.GetMaxPacketMs (RtpStreamSend_base (rtpStream c)) =? 0)
    eqn:Hms;
    destruct (encodingContext c) eqn:Hctx;
    cbn; rewrite ?Hms; cbn; rewrite ?Hctx; cbn; repeat split;
    try reflexivity; exact Hctx.
Qed.

(** With no wrap-around in uint64_t, the offset is the elapsed time in
    clock ticks, modulo 2^32. *)
Lemma SyncOffset_exact (now : Z) (s : RtpStream.t) :
  RtpStream.GetMaxPacketMs s <= now < 2 ^ 64 ->
  0 <= RtpStream.GetMaxPacketMs s ->
  0 <= RtpStream.GetClockRate s ->
  (now - RtpStream.GetMaxPacketMs s) * RtpStream.GetClockRate s < 2 ^ 64 ->
  SyncOffset now s =
  ((now - RtpStream.GetMaxPacketMs s) * RtpStream.GetClockRate s / 1000) mod 2 ^ 32.
Proof.
  intros Hnow Hms Hrate Hmul. unfold SyncOffset, Uint.u64, Uint.u32, Uint.wrap.
  rewrite (Z.mod_small (now - RtpStream.GetMaxPacketMs s)) by lia.
  rewrite (Z.mod_small ((now - RtpStream.GetMaxPacketMs s) * RtpStream.GetClockRate s)).
  - reflexivity.
  - split; [apply Z.mul_nonneg_nonneg; lia | exact Hmul].
Qed.

(** What [SendRtpPacket] does once the packet has passed the three
    early returns. *)
Lemma SendRtpPacket_passes (now : Z) packet c :
  IsActive c = true ->
  RtpPacket.GetPayloadType packet ∈ supportedCodecPayloadTypes (consumer c) ->
  syncRequired c && keyFrameSupported c && negb (IsKeyFrame packet) = false ->
  SendRtpPacket now packet c = Forward packet (AfterSync now packet c).
Proof.
  intros Ha Hpt Hgate. unfold SendRtpPacket, AfterSync.
  rewrite Ha. simpl.
  rewrite (bool_decide_eq_true_2 _ Hpt). simpl.
  rewrite Hgate. reflexivity.
Qed.

(** C2, as the code has it.  While [syncRequired] is set, for a packet
    of a supported payload type at an active consumer: if key frames
    are supported and the packet is not one, the packet is dropped and
    nothing changes ([syncRequired] stays set); otherwise the consumer
    calls [rtpSeqManager.Sync(seq)] and [rtpTimestampManager.Sync(ts)],
    then, only if the send stream's [maxPacketMs] is not zero, adds
    [diffMs * clockRate / 1000] as an offset to the timestamp manager,
    calls [encodingContext->SyncRequired()] if there is an encoding
    context, clears [syncRequired], and goes on to forward the
    packet. *)
Theorem SendRtpPacket_sync (now : Z) packet c :
  IsActive c = true ->
  RtpPacket.GetPayloadType packet ∈ supportedCodecPayloadTypes (consumer c) ->
  syncRequired c = true ->
  (keyFrameSupported c = true -> IsKeyFrame packet = false ->
   SendRtpPacket now packet c = Some (c, packet)) /\
  (keyFrameSupported c = false \/ IsKeyFrame packet = true ->
   SendRtpPacket now packet c = Forward packet (SyncStep now packet c) /\
   rtpSeqManager (SyncStep now packet c) =
     Sync (RtpPacket.GetSequenceNumber packet) (rtpSeqManager c) /\
   rtpTimestampManager (SyncStep now packet c) =
     (if RtpStream.GetMaxPacketMs (RtpStreamSend_base (rtpStream c)) =? 0
      then Sync (RtpPacket.GetTimestamp packet) (rtpTimestampManager c)
      else Offset (SyncOffset now (RtpStreamSend_base (rtpStream c)))
             (Sync (RtpPacket.GetTimestamp packet) (rtpTimestampManager c))) /\
   encodingContext (SyncStep now packet c) =
     option_map EncodingContext_SyncRequired (encodingContext c) /\
   syncRequired (SyncStep now packet c) = false /\
   consumer (SyncStep now packet c) = consumer c /\
   rtpStream (SyncStep now packet c) = rtpStream c).
Proof.
  intros Ha Hpt Hsync. split.
  - intros Hk Hnk. unfold SendRtpPacket.
    rewrite Ha. simpl. rewrite (bool_decide_eq_true_2 _ Hpt). simpl.
    rewrite Hsync, Hk, Hnk. reflexivity.
  - intros Hgate.
    destruct (SyncStep_fields now packet c)
      as (Hc & Hs & _ & _ & Hsr & Hseq & Hts & Hctx).
    split; [| tauto].
    rewrite SendRtpPacket_passes; try assumption.
    + unfold AfterSync. rewrite Hsync. reflexivity.
    + rewrite Hsync. destruct Hgate as [-> | ->]; simpl;
        [reflexivity | apply andb_false_r].
Qed.

(** A packet whose payload is encoded (or needs no encoding) and
    which the send stream accepts reaches the listener, with the ssrc
    of the first encoding and the numbers the two managers give for
    it. *)
Lemma Forward_emits packet q c encoding rest :
  encodings (rtpParameters (consumer c)) = encoding :: rest ->
  match encodingContext c with
  | Some ctx => exists ctx', EncodePayload ctx packet = (true, ctx', q)
  | None => q = packet
  end ->
  let sent :=
    RtpPacket.SetTimestamp
      (Uint.u32 (snd (Input (RtpPacket.GetTimestamp q) (rtpTimestampManager c))))
      (RtpPacket.SetSequenceNumber
         (Uint.u16 (snd (Input (RtpPacket.GetSequenceNumber q) (rtpSeqManager c))))
         (RtpPacket.SetSsrc (RtpEncodingParameters.ssrc encoding) q)) in
  fst (fst (RtpStreamSend_ReceivePacket (rtpStream c) sent)) = true ->
  exists c' packet',
    Forward packet c = Some (c', packet') /\
    listener (consumer c') =
      fst (OnConsumerSendRtpPacket (listener (consumer c))
             (snd (RtpStreamSend_ReceivePacket (rtpStream c) sent))).
Proof.
  intros Henc Hpayload sent Hrecv. subst sent.
  assert (Hstep :
    (let '(encoded, c1, packet1) :=
       match encodingContext c with
       | Some ctx =>
           let '(ok, ctx', packet') := EncodePayload ctx packet in
           (ok, with_encodingContext (Some ctx') c, packet')
       | None => (true, c, packet)
       end in (encoded, consumer c1, rtpStream c1, rtpSeqManager c1,
               rtpTimestampManager c1, packet1))
    = (true, consumer c, rtpStream c, rtpSeqManager c,
       rtpTimestampManager c, q)).
  { destruct (encodingContext c) as [ctx |].
    - destruct Hpayload as [ctx' Hpayload]. rewrite Hpayload. reflexivity.
    - subst q. reflexivity. }
  unfold Forward, Remap.
  destruct (match encodingContext c with
            | Some ctx =>
                let '(ok, ctx', packet') := EncodePayload ctx packet in
                (ok, with_encodingContext (Some ctx') c, packet')
            | None => (true, c, packet)
            end) as [[encoded c1] packet1].
  injection Hstep as -> Hc Hs Hseq Hts ->. cbn [negb].
  rewrite Hseq, Hts.
  destruct (Input (RtpPacket.GetSequenceNumber q) (rtpSeqManager c))
    as [sm seq].
  destruct (Input (RtpPacket.GetTimestamp q) (rtpTimestampManager c))
    as [tm ts].
  cbn in Hrecv |- *. rewrite Hc, Henc, Hs.
  destruct (RtpStreamSend_ReceivePacket (rtpStream c) _)
    as [[received stream] sent'].
  cbn in Hrecv. subst received. cbn.
  destruct (OnConsumerSendRtpPacket (listener (consumer c)) sent') as [l p4].
  cbn. eexists _, _. split; reflexivity.
Qed.

(** C9.  In the sync step the timestamp offset is applied only when the
    send stream's [maxPacketMs] is not zero.  On a sync before any
    packet was sent ([maxPacketMs] is zero) the timestamp manager is
    left as [Sync(ts)] latched it, and the timestamp written into the
    packet is what [Input(ts)] makes of that state; with a non-zero
    [maxPacketMs] the manager has taken [Offset(diffTs)] after
    [Sync(ts)], with [diffTs = (now - maxPacketMs) * clockRate / 1000]
    in uint64_t, narrowed to uint32_t.  And that timestamp is the one
    that leaves: when the payload is encoded and the send stream
    accepts the packet, [SendRtpPacket] hands the listener the packet
    with the timestamp [Input(ts)] gives on the manager so latched
    (given that [EncodePayload] keeps the header and the send stream
    only reads the packet). *)
Theorem SendRtpPacket_sync_offset_guard (now : Z) packet c :
  IsActive c = true ->
  RtpPacket.GetPayloadType packet ∈ supportedCodecPayloadTypes (consumer c) ->
  syncRequired c = true ->
  keyFrameSupported c = false \/ IsKeyFrame packet = true ->
  SendRtpPacket now packet c = Forward packet (SyncStep now packet c) /\
  (RtpStream.GetMaxPacketMs (RtpStreamSend_base (rtpStream c)) = 0 ->
   rtpTimestampManager (SyncStep now packet c) =
     Sync (RtpPacket.GetTimestamp packet) (rtpTimestampManager c) /\
   forall ctx,
     snd (Remap packet (with_encodingContext ctx (SyncStep now packet c))) =
     Uint.u32
       (snd (Input (RtpPacket.GetTimestamp packet)
               (Sync (RtpPacket.GetTimestamp packet) (rtpTimestampManager c))))) /\
  (RtpStream.GetMaxPacketMs (RtpStreamSend_base (rtpStream c)) <> 0 ->
   rtpTimestampManager (SyncStep now packet c) =
     Offset
       (Uint.u32
          (Uint.u64
             (Uint.u64
                (now - RtpStream.GetMaxPacketMs (RtpStreamSend_base (rtpStream c)))
              * RtpStream.GetClockRate (RtpStreamSend_base (rtpStream c)))
           / 1000))
       (Sync (RtpPacket.GetTimestamp packet) (rtpTimestampManager c))) /\
  (EncodePayload_keeps_header -> ReceivePacket_reads_only ->
   forall encoding rest q,
     encodings (rtpParameters (consumer c)) = encoding :: rest ->
     match encodingContext c with
     | Some ctx =>
         exists ctx',
           EncodePayload (EncodingContext_SyncRequired ctx) packet = (true, ctx', q)
     | None => q = packet
     end ->
     let latched :=
       if RtpStream.GetMaxPacketMs (RtpStreamSend_base (rtpStream c)) =? 0
       then Sync (RtpPacket.GetTimestamp packet) (rtpTimestampManager c)
       else
         Offset
           (Uint.u32
              (Uint.u64
                 (Uint.u64
                    (now - RtpStream.GetMaxPacketMs (RtpStreamSend_base (rtpStream c)))
                  * RtpStream.GetClockRate (RtpStreamSend_base (rtpStream c)))
               / 1000))
           (Sync (RtpPacket.GetTimestamp packet) (rtpTimestampManager c)) in
     let sent :=
       RtpPacket.SetTimestamp
         (Uint.u32 (snd (Input (RtpPacket.GetTimestamp packet) latched)))
         (RtpPacket.SetSequenceNumber
            (Uint.u16
               (snd (Input (RtpPacket.GetSequenceNumber packet)
                       (Sync (RtpPacket.GetSequenceNumber packet)
                          (rtpSeqManager c)))))
            (RtpPacket.SetSsrc (RtpEncodingParameters.ssrc encoding) q)) in
     fst (fst (RtpStreamSend_ReceivePacket (rtpStream c) sent)) = true ->
     exists c' packet',
       SendRtpPacket now packet c = Some (c', packet') /\
       listener (consumer c') =
         fst (OnConsumerSendRtpPacket (listener (consumer c)) sent)).
Proof.
  intros Ha Hpt Hsync Hgate.
  destruct (SyncStep_fields now packet c)
    as (Hc & Hs & _ & _ & _ & Hseq & Hts & Hctx).
  assert (Hpass : SendRtpPacket now packet c
                  = Forward packet (SyncStep now packet c)).
  { rewrite SendRtpPacket_passes; try assumption.
    + unfold AfterSync. rewrite Hsync. reflexivity.
    + rewrite Hsync. destruct Hgate as [-> | ->]; simpl;
        [reflexivity | apply andb_false_r]. }
  split; [exact Hpass |]. split; [| split].
  - intros Hzero. rewrite Hzero in Hts. simpl in Hts. split; [exact Hts |].
    intros ctx. unfold Remap. simpl. rewrite Hts.
    destruct (Input (RtpPacket.GetSequenceNumber packet) _).
    destruct (Input (RtpPacket.GetTimestamp packet) _). reflexivity.
  - intros Hnz. apply Z.eqb_neq in Hnz. rewrite Hnz in Hts. exact Hts.
  - intros Hhdr Hro encoding rest q Henc Hpayload latched sent Hrecv.
    assert (Hq : RtpPacket.GetSequenceNumber q = RtpPacket.GetSequenceNumber packet /\
                 RtpPacket.GetTimestamp q = RtpPacket.GetTimestamp packet).
    { destruct (encodingContext c) as [ctx |].
      - destruct Hpayload as [ctx' Hpayload].
        specialize (Hhdr (EncodingContext_SyncRequired ctx) packet).
        rewrite Hpayload in Hhdr. cbn in Hhdr.
        destruct Hhdr as (_ & H1 & H2 & _). split; assumption.
      - subst q. split; reflexivity. }
    destruct Hq as [Hqs Hqt].
    pose proof (Forward_emits packet q (SyncStep now packet c) encoding rest)
      as Hemit.
    cbv zeta in Hemit.
    rewrite Hc, Hs, Hseq, Hts, Hctx, Hqs, Hqt in Hemit.
    rewrite Hpass.
    destruct Hemit as (c' & packet' & Hforward & Hlistener).
    + exact Henc.
    + destruct (encodingContext c); exact Hpayload.
    + exact Hrecv.
    + exists c', packet'. split; [exact Hforward |].
      rewrite Hlistener. rewrite Hro. reflexivity.
Qed.

(** *** Forwarding *)

Lemma setters_restore (p : RtpPacket.t) (a b d : Z) :
  RtpPacket.SetTimestamp (RtpPacket.GetTimestamp p)
    (RtpPacket.SetSequenceNumber (RtpPacket.GetSequenceNumber p)
       (RtpPacket.SetSsrc (RtpPacket.GetSsrc p)
          (RtpPacket.SetTimestamp a
             (RtpPacket.SetSequenceNumber b (RtpPacket.SetSsrc d p))))) = p.
Proof. destruct p. reflexivity. Qed.

(** From the payload rewrite on, the packet comes back as it went in. *)
Lemma Forward_restores packet c :
  EncodePayload_restorable -> ReceivePacket_reads_only -> Listener_reads_only ->
  encodings (rtpParameters (consumer c)) <> [] ->
  exists c', Forward packet c = Some (c', packet).
Proof.
  intros Henc Hrecv Hlis Hne. unfold Forward.
  destruct (encodingContext c) as [ctx |] eqn:Hctx.
  - specialize (Henc ctx packet).
    destruct (EncodePayload ctx packet) as [[ok ctx'] packet'].
    destruct ok; cbn.
    + unfold Remap.
      destruct (Input (RtpPacket.GetSequenceNumber packet') _) as [sm seq].
      destruct (Input (RtpPacket.GetTimestamp packet') _) as [tm ts]. cbn.
      destruct (encodings (rtpParameters (consumer c))) as [| encoding rest];
        [contradiction |].
      match goal with
      | |- context [RtpStreamSend_ReceivePacket ?s ?p] =>
          pose proof (Hrecv s p) as Hr;
          destruct (RtpStreamSend_ReceivePacket s p) as [[received stream] p3]
      end.
      cbn in Hr. subst p3.
      destruct received; cbn.
      * match goal with
        | |- context [OnConsumerSendRtpPacket ?l ?p] =>
            pose proof (Hlis l p) as Hl;
            destruct (OnConsumerSendRtpPacket l p) as [l' p4]
        end.
        cbn in Hl. subst p4. cbn.
        rewrite setters_restore, Henc. eexists. reflexivity.
      * rewrite setters_restore, Henc. eexists. reflexivity.
    + subst packet'. eexists. reflexivity.
  - cbn. unfold Remap.
    destruct (Input (RtpPacket.GetSequenceNumber packet) _) as [sm seq].
    destruct (Input (RtpPacket.GetTimestamp packet) _) as [tm ts]. cbn.
    destruct (encodings (rtpParameters (consumer c))) as [| encoding rest];
      [contradiction |].
    match goal with
    | |- context [RtpStreamSend_ReceivePacket ?s ?p] =>
        pose proof (Hrecv s p) as Hr;
        destruct (RtpStreamSend_ReceivePacket s p) as [[received stream] p3]
    end.
    cbn in Hr. subst p3.
    destruct received; cbn.
    + match goal with
      | |- context [OnConsumerSendRtpPacket ?l ?p] =>
          pose proof (Hlis l p) as Hl;
          destruct (OnConsumerSendRtpPacket l p) as [l' p4]
      end.
      cbn in Hl. subst p4. cbn. rewrite Hctx.
      rewrite setters_restore. eexists. reflexivity.
    + rewrite Hctx. rewrite setters_restore. eexists. reflexivity.
Qed.

(** C1.  Whatever path [SendRtpPacket] takes (inactive consumer,
    unsupported payload type, waiting for a key frame, a sync packet,
    a payload the encoding context rewrites or refuses, a send stream
    that refuses the packet), the packet it returns equals the packet
    it received: ssrc, sequence number, timestamp and payload.  The
    callees that receive the packet are taken at their contracts:
    a refused [EncodePayload] leaves the packet alone and
    [RestorePayload] undoes an accepted one, and
    [RtpStreamSend::ReceivePacket] and the listener only read it. *)
Theorem SendRtpPacket_leaves_packet_intact (now : Z) packet c :
  EncodePayload_restorable -> ReceivePacket_reads_only -> Listener_reads_only ->
  encodings (rtpParameters (consumer c)) <> [] ->
  exists c', SendRtpPacket now packet c = Some (c', packet).
Proof.
  intros Henc Hrecv Hlis Hne. unfold SendRtpPacket.
  destruct (negb (IsActive c)); [exists c; reflexivity |].
  destruct (negb (bool_decide _)); [exists c; reflexivity |].
  destruct (syncRequired c && keyFrameSupported c && negb (IsKeyFrame packet));
    [exists c; reflexivity |].
  cbn. apply Forward_restores; try assumption.
  destruct (syncRequired c); [| exact Hne].
  destruct (SyncStep_fields now packet c) as (Hc & _). rewrite Hc. exact Hne.
Qed.

(** C4.  When the packet has passed the early returns and
    [EncodePayload] fails on it, [SendRtpPacket] records the packet's
    sequence number and timestamp as dropped ([rtpSeqManager.Drop(seq)],
    [rtpTimestampManager.Drop(ts)]) and returns: the listener is not
    called and neither is the send stream.  [EncodePayload] rewrites
    the payload only, so the recorded numbers are those of the packet
    as it came in. *)
Theorem SendRtpPacket_encode_failure (now : Z) packet c ctx ctx' packet' :
  EncodePayload_keeps_header ->
  IsActive c = true ->
  RtpPacket.GetPayloadType packet ∈ supportedCodecPayloadTypes (consumer c) ->
  syncRequired c && keyFrameSupported c && negb (IsKeyFrame packet) = false ->
  encodingContext (AfterSync now packet c) = Some ctx ->
  EncodePayload ctx packet = (false, ctx', packet') ->
  exists c',
    SendRtpPacket now packet c = Some (c', packet') /\
    rtpSeqManager c' =
      Drop (RtpPacket.GetSequenceNumber packet)
        (rtpSeqManager (AfterSync now packet c)) /\
    rtpTimestampManager c' =
      Drop (RtpPacket.GetTimestamp packet)
        (rtpTimestampManager (AfterSync now packet c)) /\
    listener (consumer c') = listener (consumer c) /\
    rtpStream c' = rtpStream c.
Proof.
  intros Hhdr Ha Hpt Hgate Hctx Hfail.
  rewrite SendRtpPacket_passes by assumption.
  assert (Hframe : consumer (AfterSync now packet c) = consumer c /\
                   rtpStream (AfterSync now packet c) = rtpStream c).
  { unfold AfterSync. destruct (syncRequired c); [| split; reflexivity].
    destruct (SyncStep_fields now packet c) as (Hc & Hs & _).
    split; assumption. }
  destruct Hframe as [Hc Hs].
  specialize (Hhdr ctx packet). rewrite Hfail in Hhdr. cbn in Hhdr.
  destruct Hhdr as (_ & Hseq & Hts & _).
  unfold Forward. rewrite Hctx, Hfail. cbn.
  eexists. split; [reflexivity |]. cbn.
  unfold RtpPacket.GetSequenceNumber, RtpPacket.GetTimestamp.
  rewrite Hseq, Hts, Hc, Hs. repeat split; reflexivity.
Qed.

(** *** RTCP *)

Lemma GetRtcp_suppressed (packet : CompoundPacket) (now : Z) c :
  RtcpSuppressed now (consumer c) = true ->
  GetRtcp packet now c = (c, packet).
Proof. intros H. unfold GetRtcp. rewrite H. reflexivity. Qed.

(** C3, as the code has it.  Whenever [GetRtcp(packet, now)] adds a
    sender report, 1.15 times the time since [lastRtcpSentTime] is at
    least [maxRtcpInterval]: the reports of a consumer are at least
    [maxRtcpInterval / 1.15] apart (about 87% of the interval), not
    [maxRtcpInterval].  The call then records [now] as
    [lastRtcpSentTime]. *)
Theorem GetRtcp_interval (packet : CompoundPacket) (now : Z) c :
  Uint.in_range 16 (maxRtcpInterval (consumer c)) ->
  senderReports (snd (GetRtcp packet now c)) <> senderReports packet ->
  100 * maxRtcpInterval (consumer c)
    <= 115 * Uint.u64 (now - lastRtcpSentTime (consumer c)) /\
  lastRtcpSentTime (consumer (fst (GetRtcp packet now c))) = now.
Proof.
  intros Hrange Hadded.
  destruct (RtcpSuppressed now (consumer c)) eqn:Hsup.
  - rewrite (GetRtcp_suppressed _ _ _ Hsup) in Hadded. contradiction.
  - split.
    + destruct (Z_lt_le_dec
                  (115 * Uint.u64 (now - lastRtcpSentTime (consumer c)))
                  (100 * maxRtcpInterval (consumer c))) as [Hlt | Hle];
        [| exact Hle].
      unfold RtcpSuppressed in Hsup.
      rewrite scaled_1_15_below in Hsup; [discriminate | | exact Hrange | exact Hlt].
      apply (wrap_range 64). lia.
    + revert Hadded. unfold GetRtcp. rewrite Hsup.
      destruct (RtpStreamSend_GetRtcpSenderReport now (rtpStream c))
        as [[report |] stream]; cbn.
      * intros _. reflexivity.
      * intros Hadded. contradiction.
Qed.

End SimpleConsumerProperties.

(** ** RtpEncodingParameters *)

Section RtpEncodingParametersProperties.

Variable RtpRtxParameters_FromJson : Json.json -> Outcome RtpRtxParameters.t.
Variable RtpRtxParameters_FillJson : RtpRtxParameters.t -> Json.json.

Abbreviation FromJson := (RtpEncodingParameters.FromJson RtpRtxParameters_FromJson).
Abbreviation FillJson := (RtpEncodingParameters.FillJson RtpRtxParameters_FillJson).
Abbreviation FillJson_members :=
  (RtpEncodingParameters.FillJson_members RtpRtxParameters_FillJson).

Lemma find_set_if (b : bool) (k k' : string) (v : Json.json)
  (m : gmap string Json.json) :
  Json.find k' (if b then Json.set k v m else m) =
  if b && String.eqb k k' then Some v else Json.find k' m.
Proof.
  unfold Json.find, Json.set. destruct b; simpl; [| reflexivity].
  destruct (String.eqb_spec k k') as [-> | Hne].
  - apply lookup_insert_eq.
  - apply lookup_insert_ne. exact Hne.
Qed.

Lemma find_empty (k : string) : Json.find k (∅ : gmap string Json.json) = None.
Proof. apply lookup_empty. Qed.

Ltac find_member :=
  unfold RtpEncodingParameters.FillJson_members; cbv zeta;
  rewrite !find_set_if, find_empty; cbn [String.eqb Ascii.eqb Bool.eqb];
  rewrite ?andb_false_r, ?andb_true_r; reflexivity.

Lemma find_ssrc (e : RtpEncodingParameters.t) :
  Json.find "ssrc" (FillJson_members e) =
  if negb (RtpEncodingParameters.ssrc e =? 0)
  then Some (Json.number_unsigned (RtpEncodingParameters.ssrc e)) else None.
Proof. find_member. Qed.

Lemma find_rid (e : RtpEncodingParameters.t) :
  Json.find "rid" (FillJson_members e) =
  if negb (String.eqb (RtpEncodingParameters.rid e) "")
  then Some (Json.str (RtpEncodingParameters.rid e)) else None.
Proof. find_member. Qed.

Lemma find_codecPayloadType (e : RtpEncodingParameters.t) :
  Json.find "codecPayloadType" (FillJson_members e) =
  if RtpEncodingParameters.hasCodecPayloadType e
  then Some (Json.number_unsigned (RtpEncodingParameters.codecPayloadType e))
  else None.
Proof. find_member. Qed.

Lemma find_rtx (e : RtpEncodingParameters.t) :
  Json.find "rtx" (FillJson_members e) =
  if RtpEncodingParameters.hasRtx e
  then Some (RtpRtxParameters_FillJson (RtpEncodingParameters.rtx e))
  else None.
Proof. find_member. Qed.

Lemma find_maxBitrate (e : RtpEncodingParameters.t) :
  Json.find "maxBitrate" (FillJson_members e) =
  if negb (RtpEncodingParameters.maxBitrate e =? 0)
  then Some (Json.number_unsigned (RtpEncodingParameters.maxBitrate e))
  else None.
Proof. find_member. Qed.

Lemma find_maxFramerate (e : RtpEncodingParameters.t) :
  Json.find "maxFramerate" (FillJson_members e) =
  if SFltb Ieee.zero (RtpEncodingParameters.maxFramerate e)
  then Some (Json.number_float (RtpEncodingParameters.maxFramerate e))
  else None.
Proof. find_member. Qed.

(** [==] of a double that is not below zero with what comes back for
    it: itself when it is above zero, and [0] otherwise. *)
Lemma framerate_back (f : spec_float) :
  SFleb Ieee.zero f = true ->
  SFeqb f (if SFltb Ieee.zero f then f else Ieee.zero) = true.
Proof.
  destruct f as [s | s | | s m e]; try destruct s; try discriminate;
    intros _; try reflexivity.
  unfold SFltb, SFeqb, SFcompare, Ieee.zero.
  rewrite Z.compare_refl.
  change (Pos.compare_cont Eq m m) with (Pos.compare m m).
  rewrite Pos.compare_refl. reflexivity.
Qed.

(** C8, as the code has it.  [FillJson] followed by the constructor
    gives back an equal value for every encoding whose
    [codecPayloadType] is zero unless [hasCodecPayloadType], whose
    [rtx] is the default unless [hasRtx], and whose [maxFramerate] is
    not below zero (so not a NaN either), provided [rtx], when
    present, makes its own round trip.  Equality is member by member,
    [==] on the double [maxFramerate]. *)
Theorem RtpEncodingParameters_round_trip (e : RtpEncodingParameters.t) :
  RtpEncodingParameters.well_typed e ->
  (RtpEncodingParameters.hasCodecPayloadType e = false ->
   RtpEncodingParameters.codecPayloadType e = 0) ->
  (RtpEncodingParameters.hasRtx e = false ->
   RtpEncodingParameters.rtx e = RtpRtxParameters.default) ->
  (RtpEncodingParameters.hasRtx e = true ->
   RtpEncodingParameters.rtx_round_trip
     RtpRtxParameters_FromJson RtpRtxParameters_FillJson
     (RtpEncodingParameters.rtx e)) ->
  SFleb Ieee.zero (RtpEncodingParameters.maxFramerate e) = true ->
  exists e', FromJson (FillJson e) = Ok e' /\ RtpEncodingParameters.equal e e'.
Proof.
  intros (Hssrc & Hpt & Hbitrate) Hcpt Hnortx Hrtx Hframerate.
  unfold RtpEncodingParameters.FillJson, RtpEncodingParameters.FromJson.
  rewrite find_ssrc, find_rid, find_codecPayloadType, find_rtx,
    find_maxBitrate, find_maxFramerate.
  (* rtx first: it decides whether the constructor throws *)
  assert (Hrtx' :
    exists r h,
      match
        (if RtpEncodingParameters.hasRtx e
         then Some (RtpRtxParameters_FillJson (RtpEncodingParameters.rtx e))
         else None)
      with
      | Some (Json.object r0) =>
          match RtpRtxParameters_FromJson (Json.object r0) with
          | Ok x => Ok (x, true)
          | Throw err => Throw err
          end
      | _ => Ok (RtpEncodingParameters.rtx RtpEncodingParameters.default,
                 RtpEncodingParameters.hasRtx RtpEncodingParameters.default)
      end = Ok (r, h) /\
      r = RtpEncodingParameters.rtx e /\ h = RtpEncodingParameters.hasRtx e).
  { destruct (RtpEncodingParameters.hasRtx e) eqn:Hhas.
    - destruct (Hrtx eq_refl) as (m & Hfill & Hparse).
      rewrite Hfill, Hparse. eexists _, _. repeat split.
    - rewrite (Hnortx eq_refl). eexists _, _. repeat split. }
  destruct Hrtx' as (r & h & -> & -> & ->).
  destruct (RtpEncodingParameters.hasCodecPayloadType e) eqn:Hhas.
  - eexists. split; [reflexivity |].
    unfold RtpEncodingParameters.equal; cbn.
    repeat split; try exact Hhas.
    + destruct (Z.eqb_spec (RtpEncodingParameters.ssrc e) 0) as [-> | _];
        cbn; [reflexivity | symmetry; apply wrap_small; exact Hssrc].
    + destruct (String.eqb_spec (RtpEncodingParameters.rid e) "") as [-> | _];
        reflexivity.
    + symmetry. apply wrap_small. exact Hpt.
    + destruct (Z.eqb_spec (RtpEncodingParameters.maxBitrate e) 0) as [-> | _];
        cbn; [reflexivity | symmetry; apply wrap_small; exact Hbitrate].
    + pose proof (framerate_back _ Hframerate) as Hback.
      destruct (SFltb Ieee.zero (RtpEncodingParameters.maxFramerate e));
        cbn; exact Hback.
  - eexists. split; [reflexivity |].
    unfold RtpEncodingParameters.equal; cbn.
    repeat split; try exact Hhas.
    + destruct (Z.eqb_spec (RtpEncodingParameters.ssrc e) 0) as [-> | _];
        cbn; [reflexivity | symmetry; apply wrap_small; exact Hssrc].
    + destruct (String.eqb_spec (RtpEncodingParameters.rid e) "") as [-> | _];
        reflexivity.
    + apply Hcpt. reflexivity.
    + destruct (Z.eqb_spec (RtpEncodingParameters.maxBitrate e) 0) as [-> | _];
        cbn; [reflexivity | symmetry; apply wrap_small; exact Hbitrate].
    + pose proof (framerate_back _ Hframerate) as Hback.
      destruct (SFltb Ieee.zero (RtpEncodingParameters.maxFramerate e));
        cbn; exact Hback.
Qed.

End RtpEncodingParametersProperties.

(** ** The properties on the reference collaborators *)

(** A decidable proposition, settled by evaluating its decision. *)
Ltac decide_by_evaluation :=
  refine (bool_decide_eq_true_1 _ _); vm_compute; reflexivity.

Lemma Reference_EncodePayload_restorable :
  EncodePayload_restorable (E := Reference.collaborators).
Proof.
  intros limit p. cbn. unfold Reference.payload_Encode.
  assert (Hback : Reference.payload_Restore
                    (Reference.set_payload (rev (RtpPacket.payload p)) p) = p).
  { unfold Reference.payload_Restore, Reference.set_payload. cbn.
    rewrite rev_involutive. destruct p. reflexivity. }
  revert Hback.
  destruct (RtpPacket.payload p) as [| b rest].
  - intros Hback. exact Hback.
  - intros Hback. destruct (limit <? b); [reflexivity | exact Hback].
Qed.

Lemma Reference_EncodePayload_keeps_header :
  EncodePayload_keeps_header (E := Reference.collaborators).
Proof.
  intros limit p. cbn. unfold Reference.payload_Encode.
  destruct (RtpPacket.payload p) as [| b rest].
  - cbn. repeat split.
  - destruct (limit <? b); cbn; repeat split.
Qed.

Lemma Reference_ReceivePacket_reads_only :
  ReceivePacket_reads_only (E := Reference.collaborators).
Proof.
  intros s p. cbn. unfold Reference.SendStream_ReceivePacket.
  destruct (RtpStream.paused (Reference.stream s)); reflexivity.
Qed.

Lemma Reference_Listener_reads_only :
  Listener_reads_only (E := Reference.collaborators).
Proof. intros l p. reflexivity. Qed.

(** C1 at the video consumer and its first key frame. *)
Lemma SendRtpPacket_leaves_packet_intact_witness :
  exists c',
    SendRtpPacket (E := Reference.collaborators) 1000
      (Reference.key_frame 10 5000) Reference.video_consumer
    = Some (c', Reference.key_frame 10 5000).
Proof.
  apply (SendRtpPacket_leaves_packet_intact (E := Reference.collaborators)).
  - exact Reference_EncodePayload_restorable.
  - exact Reference_ReceivePacket_reads_only.
  - exact Reference_Listener_reads_only.
  - vm_compute. discriminate.
Defined.

(** C2 at the video consumer and its first key frame: the sync step
    runs and the packet goes on to be forwarded. *)
Lemma SendRtpPacket_sync_witness :
  SendRtpPacket (E := Reference.collaborators) 1000
    (Reference.key_frame 10 5000) Reference.video_consumer
  = Forward (Reference.key_frame 10 5000)
      (SyncStep 1000 (Reference.key_frame 10 5000) Reference.video_consumer).
Proof.
  apply (SendRtpPacket_sync (E := Reference.collaborators) 1000
           (Reference.key_frame 10 5000) Reference.video_consumer).
  - reflexivity.
  - decide_by_evaluation.
  - reflexivity.
  - right. reflexivity.
Defined.

(** C2 as stated fails at the video consumer and its first key frame:
    the consumer is active, the payload type is supported,
    [syncRequired] is set and the packet is a key frame; the send
    stream has sent nothing yet, so [maxPacketMs] is zero and, with
    [now] = 1000 and a clock rate of 90000, [diffMs * clockRate / 1000]
    is 90000.  The sync step does not add it: the timestamp manager
    has heard [Sync(5000)] and no [Offset]. *)
Lemma SendRtpPacket_sync_without_offset :
  IsActive (E := Reference.collaborators) Reference.video_consumer = true /\
  RtpPacket.GetPayloadType (Reference.key_frame 10 5000)
    ∈ supportedCodecPayloadTypes (consumer Reference.video_consumer) /\
  syncRequired Reference.video_consumer = true /\
  IsKeyFrame (Collaborators := Reference.collaborators)
    (Reference.key_frame 10 5000) = true /\
  SendRtpPacket (E := Reference.collaborators) 1000
    (Reference.key_frame 10 5000) Reference.video_consumer
  = Forward (Reference.key_frame 10 5000)
      (SyncStep 1000 (Reference.key_frame 10 5000) Reference.video_consumer) /\
  (1000 - RtpStream.GetMaxPacketMs
            (Reference.stream (rtpStream Reference.video_consumer)))
  * RtpStream.GetClockRate
      (Reference.stream (rtpStream Reference.video_consumer)) / 1000 = 90000 /\
  rtpTimestampManager
    (SyncStep 1000 (Reference.key_frame 10 5000) Reference.video_consumer)
  <> Reference.Remapper_Offset 90000
       (Reference.Remapper_Sync 5000
          (rtpTimestampManager Reference.video_consumer)) /\
  Reference.calls
    (rtpTimestampManager
       (SyncStep 1000 (Reference.key_frame 10 5000) Reference.video_consumer))
  = [Reference.CallSync 5000].
Proof.
  split; [reflexivity |].
  split; [decide_by_evaluation |].
  split; [reflexivity |].
  split; [reflexivity |].
  split.
  { rewrite SendRtpPacket_passes.
    - reflexivity.
    - reflexivity.
    - decide_by_evaluation.
    - reflexivity. }
  split; [vm_compute; reflexivity |].
  split; [| vm_compute; reflexivity].
  intros H. apply (f_equal Reference.calls) in H. vm_compute in H.
  discriminate.
Qed.

(** C3 at the first report of the video consumer. *)
Lemma GetRtcp_interval_witness :
  100 * maxRtcpInterval (consumer Reference.synced_video_consumer)
    <= 115 * Uint.u64
               (10000 - lastRtcpSentTime (consumer Reference.synced_video_consumer)) /\
  lastRtcpSentTime
    (consumer (fst (GetRtcp (E := Reference.collaborators)
                      Reference.empty_compound 10000
                      Reference.synced_video_consumer))) = 10000.
Proof.
  apply (GetRtcp_interval (E := Reference.collaborators)
           Reference.empty_compound 10000 Reference.synced_video_consumer).
  - vm_compute. split; [discriminate | reflexivity].
  - vm_compute. discriminate.
Defined.

(** C3 as stated fails for the video consumer, whose
    [maxRtcpInterval] is 1000 ms: [GetRtcp] at 10000 ms adds a sender
    report and records 10000 as [lastRtcpSentTime]; [GetRtcp] at
    10900 ms adds another one, 900 ms after the first. *)
Lemma GetRtcp_reports_closer_than_interval :
  maxRtcpInterval (consumer (fst Reference.first_report)) = 1000 /\
  lastRtcpSentTime (consumer (fst Reference.first_report)) = 10000 /\
  senderReports (snd Reference.first_report) = [(2222, 10000)] /\
  senderReports (snd Reference.second_report)
    = [(2222, 10000); (2222, 10900)] /\
  ~ (10900 - lastRtcpSentTime (consumer (fst Reference.first_report))
     >= maxRtcpInterval (consumer (fst Reference.first_report))).
Proof.
  split; [vm_compute; reflexivity |].
  split; [vm_compute; reflexivity |].
  split; [vm_compute; reflexivity |].
  split; [vm_compute; reflexivity |].
  vm_compute. intros H. apply H. reflexivity.
Qed.

(** C4 at the synced video consumer and a frame its encoding context
    refuses. *)
Lemma SendRtpPacket_encode_failure_witness :
  exists c',
    SendRtpPacket (E := Reference.collaborators) 1020
      (Reference.refused_frame 11 8000) Reference.synced_video_consumer
    = Some (c', Reference.refused_frame 11 8000) /\
    rtpSeqManager c' =
      Reference.Remapper_Drop 11
        (rtpSeqManager
           (AfterSync 1020 (Reference.refused_frame 11 8000)
              Reference.synced_video_consumer)) /\
    rtpTimestampManager c' =
      Reference.Remapper_Drop 8000
        (rtpTimestampManager
           (AfterSync 1020 (Reference.refused_frame 11 8000)
              Reference.synced_video_consumer)) /\
    listener (consumer c') = listener (consumer Reference.synced_video_consumer) /\
    rtpStream c' = rtpStream Reference.synced_video_consumer.
Proof.
  apply (SendRtpPacket_encode_failure (E := Reference.collaborators) 1020
           (Reference.refused_frame 11 8000) Reference.synced_video_consumer
           127 127 (Reference.refused_frame 11 8000)).
  - exact Reference_EncodePayload_keeps_header.
  - vm_compute. reflexivity.
  - decide_by_evaluation.
  - vm_compute. reflexivity.
  - vm_compute. reflexivity.
  - vm_compute. reflexivity.
Defined.

(** C5 at the synced video consumer, resumed by its own transport: the
    listener is asked for a key frame of the mapped ssrc 1111. *)
Lemma Resumed_sync_and_key_frame_witness :
  exists c',
    Resumed (E := Reference.collaborators) false Reference.synced_video_consumer
    = Some c' /\
    listener (consumer c') =
      (listener (consumer Reference.synced_video_consumer)
       ++ [Reference.ConsumerKeyFrameRequested 1111])%list /\
    rtpStream c' =
      Reference.SendStream_Resume (rtpStream Reference.synced_video_consumer) /\
    syncRequired c' = true.
Proof.
  apply (proj1 (proj2 (proj2 (proj2
           (Resumed_sync_and_key_frame (E := Reference.collaborators) false
              Reference.synced_video_consumer))))
           eq_refl eq_refl eq_refl
           (Reference.encoding_with_ssrc 1111) []).
  vm_compute. reflexivity.
Defined.

(** C7 at a consumer with two consumable encodings: the TypeError, and
    no stream created. *)
Lemma SimpleConsumer_ctor_single_encoding_witness :
  SimpleConsumer_ctor (E := Reference.collaborators)
    (Reference.base_consumer VIDEO Reference.vp8
       [Reference.encoding_with_ssrc 1111; Reference.encoding_with_ssrc 1112])
  = Some (Throw (TypeError "invalid consumableRtpEncodings with size != 1")) /\
  SimpleConsumer_ctor_allocating (E := Reference.collaborators)
    (Reference.base_consumer VIDEO Reference.vp8
       [Reference.encoding_with_ssrc 1111; Reference.encoding_with_ssrc 1112])
  = ([], Some (Throw (TypeError "invalid consumableRtpEncodings with size != 1"))).
Proof.
  apply (proj1 (proj2 (proj2
           (SimpleConsumer_ctor_single_encoding (E := Reference.collaborators)
              (Reference.base_consumer VIDEO Reference.vp8
                 [Reference.encoding_with_ssrc 1111;
                  Reference.encoding_with_ssrc 1112]))))).
  simpl. discriminate.
Defined.

(** C9 at the video consumer and its first key frame: nothing was sent
    before, no offset is added, and the listener is handed the frame
    with the timestamp [Input(5000)] gives right after [Sync(5000)]. *)
Lemma SendRtpPacket_sync_offset_guard_witness :
  exists c' packet',
    SendRtpPacket (E := Reference.collaborators) 1000
      (Reference.key_frame 10 5000) Reference.video_consumer
    = Some (c', packet') /\
    listener (consumer c') =
      (listener (consumer Reference.video_consumer)
       ++ [Reference.ConsumerSendRtpPacket
             {| RtpPacket.ssrc := 2222; RtpPacket.sequenceNumber := 1;
                RtpPacket.timestamp :=
                  Uint.u32
                    (snd (Reference.Remapper_Input 5000
                            (Reference.Remapper_Sync 5000
                               (rtpTimestampManager Reference.video_consumer))));
                RtpPacket.payloadType := 101;
                RtpPacket.payload := [42; 1; 157; 0; 2; 16] |}])%list.
Proof.
  destruct (proj2 (proj2 (proj2
              (SendRtpPacket_sync_offset_guard (E := Reference.collaborators) 1000
                 (Reference.key_frame 10 5000) Reference.video_consumer
                 eq_refl
                 ltac:(decide_by_evaluation)
                 eq_refl
                 (or_intror eq_refl))))
              Reference_EncodePayload_keeps_header
              Reference_ReceivePacket_reads_only
              (Reference.encoding_with_ssrc 2222) []
              (Reference.payload_Restore (Reference.key_frame 10 5000)))
    as (c' & packet' & Hsend & Hlistener).
  - reflexivity.
  - exists 127. reflexivity.
  - vm_compute. reflexivity.
  - exists c', packet'. split; [exact Hsend | exact Hlistener].
Defined.

(** C10 at the audio consumer: a connected transport asks for no key
    frame. *)
Lemma RequestKeyFrame_only_active_video_witness :
  TransportConnected (E := Reference.collaborators) Reference.audio_consumer
  = Some Reference.audio_consumer.
Proof.
  apply (proj2 (proj2
           (RequestKeyFrame_only_active_video (E := Reference.collaborators)
              Reference.ignore_request Reference.audio_consumer))).
  reflexivity.
Defined.

(** The sample RtpRtxParameters makes its round trip. *)
Lemma Rtx_round_trip (r : RtpRtxParameters.t) :
  Uint.in_range 32 (RtpRtxParameters.ssrc r) ->
  RtpEncodingParameters.rtx_round_trip
    RtpEncodingParameters.Rtx_FromJson RtpEncodingParameters.Rtx_FillJson r.
Proof.
  intros Hrange. destruct r as [ssrc]. simpl in Hrange.
  unfold RtpEncodingParameters.rtx_round_trip,
    RtpEncodingParameters.Rtx_FillJson, RtpEncodingParameters.Rtx_FromJson.
  simpl RtpRtxParameters.ssrc.
  destruct (Z.eqb_spec ssrc 0) as [-> | Hne]; simpl negb; cbv iota.
  - exists ∅. split; [reflexivity |].
    unfold Json.find. rewrite lookup_empty. reflexivity.
  - eexists. split; [reflexivity |].
    unfold Json.find, Json.set. rewrite lookup_insert_eq.
    unfold Uint.u32. rewrite (wrap_small 32 ssrc Hrange). reflexivity.
Qed.

(** C8 at an encoding with every member set. *)
Lemma RtpEncodingParameters_round_trip_witness :
  exists e',
    RtpEncodingParameters.FromJson RtpEncodingParameters.Rtx_FromJson
      (RtpEncodingParameters.FillJson RtpEncodingParameters.Rtx_FillJson
         RtpEncodingParameters.full_encoding) = Ok e' /\
    RtpEncodingParameters.equal RtpEncodingParameters.full_encoding e'.
Proof.
  apply (RtpEncodingParameters_round_trip
           RtpEncodingParameters.Rtx_FromJson RtpEncodingParameters.Rtx_FillJson
           RtpEncodingParameters.full_encoding).
  - unfold RtpEncodingParameters.well_typed, Uint.in_range. simpl. lia.
  - discriminate.
  - discriminate.
  - intros _. apply Rtx_round_trip. unfold Uint.in_range. simpl. lia.
  - reflexivity.
Defined.

(** C8 as stated fails.  An object whose [maxFramerate] is -1.0 is
    built into an encoding with that frame rate; [FillJson] leaves the
    member out (it writes a frame rate only when it is above zero),
    and the constructor gives back the default, whose frame rate is 0.
    In the same way a [codecPayloadType] of 96 kept without
    [hasCodecPayloadType] comes back as 0. *)
Lemma RtpEncodingParameters_round_trip_fails :
  RtpEncodingParameters.FromJson RtpEncodingParameters.Rtx_FromJson
    (Json.object
       {[ "maxFramerate" := Json.number_float RtpEncodingParameters.minus_one ]})
    = Ok (RtpEncodingParameters.with_maxFramerate RtpEncodingParameters.minus_one) /\
  RtpEncodingParameters.FromJson RtpEncodingParameters.Rtx_FromJson
    (RtpEncodingParameters.FillJson RtpEncodingParameters.Rtx_FillJson
       (RtpEncodingParameters.with_maxFramerate RtpEncodingParameters.minus_one))
    = Ok RtpEncodingParameters.default /\
  ~ RtpEncodingParameters.equal
      (RtpEncodingParameters.with_maxFramerate RtpEncodingParameters.minus_one)
      RtpEncodingParameters.default /\
  RtpEncodingParameters.FromJson RtpEncodingParameters.Rtx_FromJson
    (RtpEncodingParameters.FillJson RtpEncodingParameters.Rtx_FillJson
       RtpEncodingParameters.stale_codecPayloadType)
    = Ok RtpEncodingParameters.default /\
  ~ RtpEncodingParameters.equal RtpEncodingParameters.stale_codecPayloadType
      RtpEncodingParameters.default.
Proof.
  split; [vm_compute; reflexivity |].
  split; [vm_compute; reflexivity |].
  split.
  - unfold RtpEncodingParameters.equal. simpl.
    intros (_ & _ & _ & _ & _ & _ & _ & H). discriminate.
  - split; [vm_compute; reflexivity |].
    unfold RtpEncodingParameters.equal. simpl.
    intros (_ & _ & H & _). discriminate.
Qed.

(** ** Runs of the model *)

(** The first key frame of a fresh video consumer is forwarded with the
    consumer's ssrc and remapped numbers, and the payload its encoding
    context wrote. *)
Example first_key_frame_is_forwarded :
  Reference.last_sent
    (SendRtpPacket 1000 (Reference.key_frame 10 5000) Reference.video_consumer)
  = Some (Reference.ConsumerSendRtpPacket
            {| RtpPacket.ssrc := 2222; RtpPacket.sequenceNumber := 1;
               RtpPacket.timestamp := 0; RtpPacket.payloadType := 101;
               RtpPacket.payload := [42; 1; 157; 0; 2; 16] |}).
Proof. vm_compute. reflexivity. Qed.

(** A delta frame that arrives while the consumer waits for a key frame
    is dropped: the listener hears nothing and the managers receive no
    call. *)
Example delta_frame_waits_for_key_frame :
  Reference.last_sent
    (SendRtpPacket 1000 (Reference.delta_frame 10 5000) Reference.video_consumer)
  = None /\
  option_map (fun r => Reference.manager_calls (fst r))
    (SendRtpPacket 1000 (Reference.delta_frame 10 5000) Reference.video_consumer)
  = Some ([], []).
Proof. split; vm_compute; reflexivity. Qed.

(** An audio consumer does not wait for key frames and has no encoding
    context: its first packet syncs and is forwarded untouched but for
    the header. *)
Example audio_packet_is_forwarded :
  Reference.last_sent
    (SendRtpPacket 1000 (Reference.audio_packet 7 960) Reference.audio_consumer)
  = Some (Reference.ConsumerSendRtpPacket
            {| RtpPacket.ssrc := 2222; RtpPacket.sequenceNumber := 1;
               RtpPacket.timestamp := 0; RtpPacket.payloadType := 100;
               RtpPacket.payload := [120; 1; 2; 3] |}).
Proof. vm_compute. reflexivity. Qed.

(** After a resume, 2000 ms after the last packet left, the next key
    frame (sequence number 25, timestamp 9000) syncs both managers and
    the timestamp manager takes the offset 2000 * 90000 / 1000; the
    packet leaves with the next sequence number and with the timestamp
    moved on by the offset. *)
Example resync_adds_offset :
  SyncOffset 3000
    (Reference.stream (rtpStream Reference.resumed_video_consumer)) = 180000 /\
  Reference.manager_calls
    (SyncStep 3000 (Reference.key_frame 25 9000) Reference.resumed_video_consumer)
  = ([Reference.CallSync 10; Reference.CallInput 10; Reference.CallSync 25],
     [Reference.CallSync 5000; Reference.CallInput 5000;
      Reference.CallSync 9000; Reference.CallOffset 180000]) /\
  Reference.last_sent
    (SendRtpPacket 3000 (Reference.key_frame 25 9000)
       Reference.resumed_video_consumer)
  = Some (Reference.ConsumerSendRtpPacket
            {| RtpPacket.ssrc := 2222; RtpPacket.sequenceNumber := 2;
               RtpPacket.timestamp := 180000; RtpPacket.payloadType := 101;
               RtpPacket.payload := [42; 1; 157; 0; 2; 16] |}).
Proof. repeat split; vm_compute; reflexivity. Qed.

(** The test of [GetRtcp] for an interval of 1000 ms: 869 ms after the
    last report the next one is held back, 870 ms after it is not. *)
Example rtcp_test_at_the_boundary :
  RtcpSuppressed 10869
    (set_lastRtcpSentTime 10000 (consumer Reference.video_consumer)) = true /\
  RtcpSuppressed 10870
    (set_lastRtcpSentTime 10000 (consumer Reference.video_consumer)) = false.
Proof. split; vm_compute; reflexivity. Qed.

(** The literal 1.15 is the double nearest to 115/100. *)
Example d1_15_is_nearest :
  SFdiv 53 1024 (Ieee.double_of_Z 115) (Ieee.double_of_Z 100) = Ieee.d1_15.
Proof. vm_compute. reflexivity. Qed.

(** * More properties *)

(** ** RTCP, once more *)

(** Every elapsed time below 65536 ms, against the greatest interval
    it reaches; by evaluation. *)
Lemma scaled_reaches :
  Ieee.forall_range (Z.to_nat 65536) 0 Ieee32.check_scaled_reaches = true.
Proof. vm_compute. reflexivity. Qed.

Lemma scaled_1_15_reaches (d interval : Z) :
  0 <= d < 65536 -> 0 <= interval < 2 ^ 16 -> 100 * interval <= 115 * d ->
  SFltb (Ieee.scaled_1_15 d) (Ieee.float_of_Z interval) = false.
Proof.
  intros Hd Hi Hle.
  pose proof (forall_range_spec _ _ _ scaled_reaches d) as Hcheck.
  unfold Ieee32.check_scaled_reaches in Hcheck. cbv zeta in Hcheck.
  apply andb_prop in Hcheck; [| lia].
  destruct Hcheck as [Hmax Hzero].
  apply negb_true_iff in Hmax. apply negb_true_iff in Hzero.
  destruct (Z.eq_dec interval 0) as [-> | Hpos]; [exact Hzero |].
  destruct (SFltb (Ieee.scaled_1_15 d) (Ieee.float_of_Z interval)) eqn:Hlt;
    [| reflexivity].
  rewrite (SFltb_positive_le _ _ (Ieee.float_of_Z (Ieee32.greatest_reached d)) Hlt)
    in Hmax; [discriminate |].
  apply float_of_Z_monotone; unfold Ieee32.greatest_reached; try lia.
  apply Z.min_glb; [lia |].
  apply Z.div_le_lower_bound; lia.
Qed.


(** ** What the methods of SimpleConsumer leave alone *)

Section SimpleConsumerMoreProperties.

Context {E : Collaborators} {F : Callees}.

Implicit Types (c : SimpleConsumer) (b : Consumer) (packet : RtpPacket.t).

Lemma same_configuration_refl b : same_configuration b b.
Proof. repeat split. Qed.

Lemma same_configuration_trans (a b d : Consumer) :
  same_configuration a b -> same_configuration b d -> same_configuration a d.
Proof.
  intros (H1 & H2 & H3 & H4 & H5) (G1 & G2 & G3 & G4 & G5).
  repeat split; congruence.
Qed.

Lemma SyncStep_unchanged (now : Z) packet c :
  unchanged_by_method (SyncStep now packet c) c /\
  producerRtpStream (SyncStep now packet c) = producerRtpStream c /\
  listener (consumer (SyncStep now packet c)) = listener (consumer c).
Proof.
  destruct (SyncStep_fields now packet c) as (Hc & _ & Hp & Hk & _).
  unfold unchanged_by_method. rewrite Hc, Hp, Hk.
  repeat split.
Qed.

Lemma Forward_unchanged packet packet' c c' :
  Forward packet c = Some (c', packet') ->
  unchanged_by_method c' c /\
  producerRtpStream c' = producerRtpStream c /\
  syncRequired c' = syncRequired c.
Proof.
  unfold Forward, Remap, unchanged_by_method. intros H.
  repeat case_match; simplify_eq; cbn; repeat split.
Qed.

Lemma RequestKeyFrame_unchanged c c' :
  RequestKeyFrame c = Some c' ->
  unchanged_by_method c' c /\
  producerRtpStream c' = producerRtpStream c /\
  syncRequired c' = syncRequired c.
Proof.
  unfold RequestKeyFrame, unchanged_by_method.
  destruct (negb (IsActive c) || _ || _).
  - intros [= <-]. repeat split.
  - destruct (consumableRtpEncodings (consumer c)); [discriminate |].
    intros [= <-]. repeat split.
Qed.

Lemma SendRtpPacket_unchanged (now : Z) packet packet' c c' :
  SendRtpPacket now packet c = Some (c', packet') ->
  unchanged_by_method c' c /\ producerRtpStream c' = producerRtpStream c.
Proof.
  unfold SendRtpPacket. intros H.
  destruct (negb (IsActive c));
    [simplify_eq; repeat split |].
  destruct (negb (bool_decide _));
    [simplify_eq; repeat split |].
  destruct (syncRequired c && keyFrameSupported c && negb (IsKeyFrame packet));
    [simplify_eq; repeat split |].
  cbn in H. apply Forward_unchanged in H.
  destruct H as ((Hcfg & Hk) & Hp & _).
  destruct (syncRequired c); [| split; [split |]; assumption].
  destruct (SyncStep_unchanged now packet c) as ((Hcfg' & Hk') & Hp' & _).
  split; [split |]; [ | congruence | congruence].
  revert Hcfg Hcfg'. apply same_configuration_trans.
Qed.

Lemma OnRtpStreamRetransmitRtpPacket_unchanged packet c :
  unchanged_by_method (fst (OnRtpStreamRetransmitRtpPacket packet c)) c.
Proof.
  unfold OnRtpStreamRetransmitRtpPacket, unchanged_by_method.
  repeat case_match; cbn; repeat split.
Qed.

Lemma unchanged_by_method_trans (a c d : SimpleConsumer) :
  unchanged_by_method a c -> unchanged_by_method c d -> unchanged_by_method a d.
Proof.
  intros [H1 H2] [G1 G2]. split.
  - revert H1 G1. apply same_configuration_trans.
  - congruence.
Qed.

(** The callbacks of a NACK, one after the other. *)
Lemma retransmissions_unchanged (retransmitted : list RtpPacket.t) c :
  unchanged_by_method
    (fold_left (fun c packet => fst (OnRtpStreamRetransmitRtpPacket packet c))
       retransmitted c) c.
Proof.
  revert c. induction retransmitted as [| packet rest IH]; intros c.
  - repeat split.
  - cbn [fold_left].
    eapply unchanged_by_method_trans; [apply IH |].
    apply OnRtpStreamRetransmitRtpPacket_unchanged.
Qed.

Lemma ReceiveNack_unchanged (nackPacket : NackPacket) c :
  unchanged_by_method (ReceiveNack nackPacket c) c.
Proof.
  unfold ReceiveNack. destruct (negb (IsActive c)); [repeat split |].
  destruct (RtpStreamSend_ReceiveNack nackPacket (rtpStream c))
    as [stream retransmitted].
  eapply unchanged_by_method_trans; [apply retransmissions_unchanged |].
  repeat split.
Qed.

Lemma method_step_unchanged c c' :
  Consumer_HandleRequest_keeps_configuration ->
  method_step c c' -> unchanged_by_method c' c.
Proof.
  intros Hbase Hstep. destruct Hstep as
      [request request' c c' H | c c' H | s c
      | now packet packet' c c' H | packet now c | nackPacket c
      | messageType c c' H | report c | now c | wasProducer c
      | wasProducer c c' H | c c' H | packet c | stream c
      | connected isPaused isProducerPaused c].
  - unfold HandleRequest in H. destruct (methodId request).
    + destruct (RequestKeyFrame c) as [c1 |] eqn:Hkey; [| discriminate H].
      injection H as <- _. apply RequestKeyFrame_unchanged in Hkey. tauto.
    + exact (Hbase _ _ _ _ H).
  - apply RequestKeyFrame_unchanged in H. tauto.
  - repeat split.
  - apply SendRtpPacket_unchanged in H. tauto.
  - unfold GetRtcp, unchanged_by_method.
    repeat case_match; cbn; repeat split.
  - apply ReceiveNack_unchanged.
  - unfold ReceiveKeyFrameRequest in H.
    destruct (negb (IsActive c)); [simplify_eq; repeat split |].
    apply RequestKeyFrame_unchanged in H. tauto.
  - repeat split.
  - unfold GetTransmissionRate, unchanged_by_method.
    repeat case_match; cbn; repeat split.
  - repeat split.
  - unfold Resumed in H. destruct (negb wasProducer).
    + apply RequestKeyFrame_unchanged in H. tauto.
    + simplify_eq. repeat split.
  - apply RequestKeyFrame_unchanged in H. tauto.
  - apply OnRtpStreamRetransmitRtpPacket_unchanged.
  - repeat split.
  - repeat split.
Qed.

Lemma SimpleConsumer_ctor_configuration b c :
  SimpleConsumer_ctor b = Some (Ok c) ->
  kind (consumer c) = kind b /\
  rtpParameters (consumer c) = rtpParameters b /\
  consumableRtpEncodings (consumer c) = consumableRtpEncodings b /\
  supportedCodecPayloadTypes (consumer c) = supportedCodecPayloadTypes b /\
  maxRtcpInterval (consumer c) =
    (if Kind_eqb (kind b) AUDIO then MaxAudioIntervalMs else MaxVideoIntervalMs) /\
  length (consumableRtpEncodings b) = 1%nat /\
  encodings (rtpParameters b) <> [].
Proof.
  unfold SimpleConsumer_ctor, CreateRtpStream. intros H.
  destruct (Nat.eqb (length (consumableRtpEncodings b)) 1) eqn:Hlen;
    [| discriminate].
  apply Nat.eqb_eq in Hlen. cbn in H.
  destruct (Kind_eqb (kind b) AUDIO); cbn in H;
    destruct (encodings (rtpParameters b)) eqn:Henc; try discriminate;
    simplify_eq; cbn; repeat split; try assumption; discriminate.
Qed.

(** X1.  Whatever sequence of methods of SimpleConsumer.cpp runs on a
    constructed consumer (and however the base class changes its
    connection and pause flags), the kind, the RTP parameters, the
    consumable encodings, the supported payload types and the RTCP
    interval stay as the constructor left them: the interval is the
    audio one for an audio consumer and the video one otherwise, there
    is exactly one consumable encoding, and the RTP parameters have an
    encoding.  The one thing asked of absent code is that the base
    class's [HandleRequest], to which the default branch of
    [HandleRequest] hands the request, assigns none of these
    members. *)
Theorem reachable_keeps_configuration b c :
  Consumer_HandleRequest_keeps_configuration ->
  reachable b c ->
  kind (consumer c) = kind b /\
  rtpParameters (consumer c) = rtpParameters b /\
  consumableRtpEncodings (consumer c) = consumableRtpEncodings b /\
  supportedCodecPayloadTypes (consumer c) = supportedCodecPayloadTypes b /\
  maxRtcpInterval (consumer c) =
    (if Kind_eqb (kind b) AUDIO then MaxAudioIntervalMs else MaxVideoIntervalMs) /\
  length (consumableRtpEncodings (consumer c)) = 1%nat /\
  encodings (rtpParameters (consumer c)) <> [].
Proof.
  intros Hbase.
  induction 1 as [c Hctor | c c' Hreach IH Hstep].
  - destruct (SimpleConsumer_ctor_configuration b c Hctor)
      as (H1 & H2 & H3 & H4 & H5 & H6 & H7).
    rewrite H2, H3. repeat split; assumption.
  - apply (method_step_unchanged _ _ Hbase) in Hstep.
    destruct Hstep as ((G1 & G2 & G3 & G4 & G5) & _).
    destruct IH as (H1 & H2 & H3 & H4 & H5 & H6 & H7).
    rewrite G1, G2, G3, G4, G5. repeat split; assumption.
Qed.

(** From the payload rewrite on, the only way to no result is the
    subscript on an empty [encodings]. *)
Lemma Forward_defined packet c :
  encodings (rtpParameters (consumer c)) <> [] ->
  exists r, Forward packet c = Some r.
Proof.
  intros Hne. unfold Forward, Remap.
  repeat case_match; simplify_eq; cbn in *; try (eexists; reflexivity);
    contradiction.
Qed.

Lemma SendRtpPacket_defined (now : Z) packet c :
  encodings (rtpParameters (consumer c)) <> [] ->
  exists r, SendRtpPacket now packet c = Some r.
Proof.
  intros Hne. unfold SendRtpPacket.
  destruct (negb (IsActive c)); [eexists; reflexivity |].
  destruct (negb (bool_decide _)); [eexists; reflexivity |].
  destruct (syncRequired c && keyFrameSupported c && negb (IsKeyFrame packet));
    [eexists; reflexivity |].
  cbn. apply Forward_defined.
  destruct (syncRequired c); [| exact Hne].
  destruct (SyncStep_fields now packet c) as (Hc & _). rewrite Hc. exact Hne.
Qed.

Lemma RequestKeyFrame_defined c :
  consumableRtpEncodings (consumer c) <> [] ->
  exists c', RequestKeyFrame c = Some c'.
Proof.
  intros Hne. unfold RequestKeyFrame.
  destruct (negb (IsActive c) || _ || _); [eexists; reflexivity |].
  destruct (consumableRtpEncodings (consumer c)); [contradiction |].
  eexists. reflexivity.
Qed.

Lemma reachable_subscripts_in_range b c :
  Consumer_HandleRequest_keeps_configuration ->
  reachable b c ->
  length (consumableRtpEncodings (consumer c)) = 1%nat /\
  encodings (rtpParameters (consumer c)) <> [].
Proof.
  intros Hbase.
  induction 1 as [c Hctor | c c' Hreach IH Hstep].
  - destruct (SimpleConsumer_ctor_configuration b c Hctor)
      as (_ & H2 & H3 & _ & _ & H6 & H7).
    rewrite H2, H3. split; assumption.
  - apply (method_step_unchanged _ _ Hbase) in Hstep.
    destruct Hstep as ((_ & G2 & G3 & _) & _).
    rewrite G2, G3. exact IH.
Qed.

(** X2.  No method of a constructed consumer ever reaches the
    subscript of an empty vector ([rtpParameters.encodings[0]] in
    [SendRtpPacket], [consumableRtpEncodings[0]] in [RequestKeyFrame]):
    after any sequence of calls of the methods of SimpleConsumer.cpp,
    [SendRtpPacket], [RequestKeyFrame], [TransportConnected],
    [ReceiveKeyFrameRequest], [Resumed] and the
    CONSUMER_REQUEST_KEY_FRAME request all return (the base class's
    [HandleRequest] being assumed to assign none of the members the
    constructor fixes). *)
Theorem reachable_never_undefined b c :
  Consumer_HandleRequest_keeps_configuration ->
  reachable b c ->
  (forall (now : Z) packet, exists r, SendRtpPacket now packet c = Some r) /\
  (exists c', RequestKeyFrame c = Some c') /\
  (exists c', TransportConnected c = Some c') /\
  (forall messageType, exists c', ReceiveKeyFrameRequest messageType c = Some c') /\
  (forall wasProducer, exists c', Resumed wasProducer c = Some c') /\
  (forall request,
      methodId request = CONSUMER_REQUEST_KEY_FRAME ->
      exists r, HandleRequest Consumer_HandleRequest request c = Some r).
Proof.
  intros Hbase Hreach.
  destruct (reachable_subscripts_in_range b c Hbase Hreach) as [Hlen Henc].
  assert (Hcons : forall c0,
             consumableRtpEncodings (consumer c0)
             = consumableRtpEncodings (consumer c) ->
             exists c', RequestKeyFrame c0 = Some c').
  { intros c0 Heq. apply RequestKeyFrame_defined. rewrite Heq.
    destruct (consumableRtpEncodings (consumer c)); [discriminate Hlen |].
    discriminate. }
  split; [| split; [| split; [| split; [| split]]]].
  - intros now packet. apply SendRtpPacket_defined. exact Henc.
  - apply Hcons. reflexivity.
  - apply Hcons. reflexivity.
  - intros messageType. unfold ReceiveKeyFrameRequest.
    destruct (negb (IsActive c)); [eexists; reflexivity |].
    apply Hcons. reflexivity.
  - intros wasProducer. unfold Resumed.
    destruct (negb wasProducer); [| eexists; reflexivity].
    apply Hcons. reflexivity.
  - intros request Hid. unfold HandleRequest. rewrite Hid.
    destruct (Hcons c eq_refl) as [c' Hkey]. rewrite Hkey.
    eexists. reflexivity.
Qed.

(** ** Forwarding, step by step *)

(** What a call of [Forward] that returns has done: the payload step
    gave [ok] and the packet [q]; then either both managers took
    [Drop], or both took [Input], the send stream took the rewritten
    packet, and the listener took it if the stream accepted it. *)
Lemma Forward_inversion packet packet' c c' :
  Forward packet c = Some (c', packet') ->
  exists (ok : bool) (q : RtpPacket.t),
    match encodingContext c with
    | Some ctx =>
        exists ctx1, EncodePayload ctx packet = (ok, ctx1, q) /\
                     encodingContext c' = Some ctx1
    | None => ok = true /\ q = packet /\ encodingContext c' = None
    end /\
    if ok then
      exists encoding rest received stream sent,
        encodings (rtpParameters (consumer c)) = encoding :: rest /\
        RtpStreamSend_ReceivePacket (rtpStream c)
          (RtpPacket.SetTimestamp
             (Uint.u32 (snd (Input (RtpPacket.GetTimestamp q)
                               (rtpTimestampManager c))))
             (RtpPacket.SetSequenceNumber
                (Uint.u16 (snd (Input (RtpPacket.GetSequenceNumber q)
                                  (rtpSeqManager c))))
                (RtpPacket.SetSsrc (RtpEncodingParameters.ssrc encoding) q)))
        = (received, stream, sent) /\
        rtpSeqManager c' =
          fst (Input (RtpPacket.GetSequenceNumber q) (rtpSeqManager c)) /\
        rtpTimestampManager c' =
          fst (Input (RtpPacket.GetTimestamp q) (rtpTimestampManager c)) /\
        rtpStream c' = stream /\
        listener (consumer c') =
          (if received
           then fst (OnConsumerSendRtpPacket (listener (consumer c)) sent)
           else listener (consumer c))
    else
      packet' = q /\
      rtpSeqManager c' =
        Drop (RtpPacket.GetSequenceNumber q) (rtpSeqManager c) /\
      rtpTimestampManager c' =
        Drop (RtpPacket.GetTimestamp q) (rtpTimestampManager c) /\
      rtpStream c' = rtpStream c /\
      listener (consumer c') = listener (consumer c).
Proof.
  unfold Forward. intros H.
  destruct (encodingContext c) as [ctx |] eqn:Hctx.
  - destruct (EncodePayload ctx packet) as [[ok ctx1] q] eqn:Henc.
    exists ok, q. destruct ok; cbn in H.
    + unfold Remap in H. cbn in H.
      destruct (Input (RtpPacket.GetSequenceNumber q) (rtpSeqManager c))
        as [sm seq] eqn:Hseq.
      destruct (Input (RtpPacket.GetTimestamp q) (rtpTimestampManager c))
        as [tm ts] eqn:Hts.
      cbn in H.
      destruct (encodings (rtpParameters (consumer c))) as [| encoding rest];
        [cbn in H; discriminate H |].
      match type of H with
      | context [RtpStreamSend_ReceivePacket ?s ?p] =>
          destruct (RtpStreamSend_ReceivePacket s p)
            as [[received stream] sent] eqn:Hrecv
      end.
      destruct received; cbn in H.
      * destruct (OnConsumerSendRtpPacket (listener (consumer c)) sent)
          as [l p4] eqn:Hl.
        cbn in H. simplify_eq. cbn.
        split; [eexists; split; reflexivity |].
        exists encoding, rest, true, stream, sent.
        rewrite Hl. repeat split. exact Hrecv.
      * simplify_eq. cbn.
        split; [eexists; split; reflexivity |].
        exists encoding, rest, false, stream, sent.
        repeat split. exact Hrecv.
    + simplify_eq. cbn.
      split; [eexists; split; reflexivity |].
      repeat split.
  - exists true, packet. cbn in H. unfold Remap in H. cbn in H.
    destruct (Input (RtpPacket.GetSequenceNumber packet) (rtpSeqManager c))
      as [sm seq] eqn:Hseq.
    destruct (Input (RtpPacket.GetTimestamp packet) (rtpTimestampManager c))
      as [tm ts] eqn:Hts.
    cbn in H.
    destruct (encodings (rtpParameters (consumer c))) as [| encoding rest];
      [cbn in H; discriminate H |].
    match type of H with
    | context [RtpStreamSend_ReceivePacket ?s ?p] =>
        destruct (RtpStreamSend_ReceivePacket s p)
          as [[received stream] sent] eqn:Hrecv
    end.
    destruct received; cbn in H.
    + destruct (OnConsumerSendRtpPacket (listener (consumer c)) sent)
        as [l p4] eqn:Hl.
      cbn in H. simplify_eq. cbn.
      split; [repeat split; exact Hctx |].
      exists encoding, rest, true, stream, sent.
      rewrite Hl. repeat split. exact Hrecv.
    + simplify_eq. cbn.
      split; [repeat split; exact Hctx |].
      exists encoding, rest, false, stream, sent.
      repeat split. exact Hrecv.
Qed.


Lemma AfterSync_fields (now : Z) packet c :
  syncRequired (AfterSync now packet c) = false \/
  (syncRequired c = false /\ AfterSync now packet c = c).
Proof.
  unfold AfterSync. destruct (syncRequired c) eqn:Hs.
  - left. destruct (SyncStep_fields now packet c) as (_ & _ & _ & _ & H & _).
    exact H.
  - right. split; reflexivity.
Qed.

Lemma AfterSync_listener (now : Z) packet c :
  listener (consumer (AfterSync now packet c)) = listener (consumer c) /\
  rtpStream (AfterSync now packet c) = rtpStream c /\
  encodings (rtpParameters (consumer (AfterSync now packet c)))
  = encodings (rtpParameters (consumer c)).
Proof.
  unfold AfterSync. destruct (syncRequired c); [| repeat split].
  destruct (SyncStep_fields now packet c) as (Hc & Hs & _).
  rewrite Hc, Hs. repeat split.
Qed.

(** X3.  A packet that passes the three early returns of
    [SendRtpPacket] always leaves [syncRequired] clear, also when it is
    then dropped because [EncodePayload] fails (the case the comment at
    lines 179-180 is about): a sync packet whose payload cannot be
    encoded uses up the sync, the managers having taken [Sync] and
    then [Drop], and the listener is not called. *)
Theorem SendRtpPacket_uses_up_sync (now : Z) packet packet' c c' :
  IsActive c = true ->
  RtpPacket.GetPayloadType packet ∈ supportedCodecPayloadTypes (consumer c) ->
  syncRequired c && keyFrameSupported c && negb (IsKeyFrame packet) = false ->
  SendRtpPacket now packet c = Some (c', packet') ->
  syncRequired c' = false /\
  (forall ctx ctx' q,
      syncRequired c = true ->
      encodingContext c = Some ctx ->
      EncodePayload (EncodingContext_SyncRequired ctx) packet = (false, ctx', q) ->
      rtpSeqManager c' =
        Drop (RtpPacket.GetSequenceNumber q)
          (Sync (RtpPacket.GetSequenceNumber packet) (rtpSeqManager c)) /\
      listener (consumer c') = listener (consumer c)).
Proof.
  intros Ha Hpt Hgate Hsend.
  rewrite SendRtpPacket_passes in Hsend by assumption.
  split.
  - apply Forward_unchanged in Hsend. destruct Hsend as (_ & _ & Hs).
    rewrite Hs.
    destruct (AfterSync_fields now packet c) as [H | [H ->]]; exact H.
  - intros ctx ctx' q Hsync Hctx Hfail.
    apply Forward_inversion in Hsend.
    destruct Hsend as (ok & q' & Hpayload & Hrest).
    unfold AfterSync in Hpayload, Hrest. rewrite Hsync in Hpayload, Hrest.
    destruct (SyncStep_fields now packet c)
      as (Hc & _ & _ & _ & _ & Hseq & _ & Hectx).
    rewrite Hectx, Hctx in Hpayload. cbn in Hpayload.
    destruct Hpayload as (ctx1 & Henc & _).
    rewrite Hfail in Henc. simplify_eq.
    destruct Hrest as (_ & Hdrop & _ & _ & Hl).
    rewrite Hdrop, Hseq, Hl, Hc. split; reflexivity.
Qed.

(** X4.  The two managers move in lockstep, as the payload step
    decides: a packet that passes the early returns is given to both,
    with its own sequence number and timestamp, by [Input] on both when
    its payload is encoded (or there is no encoding context), and by
    [Drop] on both when [EncodePayload] fails; the send stream and the
    listener are then left alone. *)
Theorem SendRtpPacket_managers_in_lockstep (now : Z) packet packet' c c' :
  EncodePayload_keeps_header ->
  IsActive c = true ->
  RtpPacket.GetPayloadType packet ∈ supportedCodecPayloadTypes (consumer c) ->
  syncRequired c && keyFrameSupported c && negb (IsKeyFrame packet) = false ->
  SendRtpPacket now packet c = Some (c', packet') ->
  (PayloadEncoded packet (AfterSync now packet c) = true ->
   rtpSeqManager c' =
     fst (Input (RtpPacket.GetSequenceNumber packet)
            (rtpSeqManager (AfterSync now packet c))) /\
   rtpTimestampManager c' =
     fst (Input (RtpPacket.GetTimestamp packet)
            (rtpTimestampManager (AfterSync now packet c)))) /\
  (PayloadEncoded packet (AfterSync now packet c) = false ->
   rtpSeqManager c' =
     Drop (RtpPacket.GetSequenceNumber packet)
       (rtpSeqManager (AfterSync now packet c)) /\
   rtpTimestampManager c' =
     Drop (RtpPacket.GetTimestamp packet)
       (rtpTimestampManager (AfterSync now packet c)) /\
   rtpStream c' = rtpStream c /\
   listener (consumer c') = listener (consumer c)).
Proof.
  intros Hhdr Ha Hpt Hgate Hsend.
  rewrite SendRtpPacket_passes in Hsend by assumption.
  apply Forward_inversion in Hsend.
  destruct Hsend as (ok & q & Hpayload & Hrest).
  assert (Hq : RtpPacket.GetSequenceNumber q = RtpPacket.GetSequenceNumber packet /\
               RtpPacket.GetTimestamp q = RtpPacket.GetTimestamp packet /\
               PayloadEncoded packet (AfterSync now packet c) = ok).
  { unfold PayloadEncoded.
    destruct (encodingContext (AfterSync now packet c)) as [ctx |].
    - destruct Hpayload as (ctx1 & Henc & _).
      specialize (Hhdr ctx packet). rewrite Henc in Hhdr |- *. cbn in Hhdr.
      destruct Hhdr as (_ & Hs & Ht & _). repeat split; assumption.
    - destruct Hpayload as (-> & -> & _). repeat split; reflexivity. }
  destruct Hq as (Hqs & Hqt & Hok).
  destruct (AfterSync_listener now packet c) as (Hl & Hs & _).
  rewrite Hok. destruct ok.
  - split; [intros _ | discriminate].
    destruct Hrest as (encoding & rest & received & stream & sent
                       & _ & _ & Hseq & Hts & _).
    rewrite Hseq, Hts, Hqs, Hqt. split; reflexivity.
  - split; [discriminate | intros _].
    destruct Hrest as (_ & Hseq & Hts & Hstream & Hlis).
    rewrite Hseq, Hts, Hstream, Hlis, Hqs, Hqt, Hl, Hs. repeat split.
Qed.

(** X5.  [SendRtpPacket] calls the listener at most once, and what it
    hands over carries the ssrc of the consumer's first encoding, a
    sequence number of 16 bits and a timestamp of 32 bits (given that
    the send stream only reads the packet). *)
Theorem SendRtpPacket_emits_with_own_ssrc (now : Z) packet packet' c c' :
  ReceivePacket_reads_only ->
  SendRtpPacket now packet c = Some (c', packet') ->
  listener (consumer c') = listener (consumer c) \/
  exists sent encoding rest,
    encodings (rtpParameters (consumer c)) = encoding :: rest /\
    listener (consumer c') =
      fst (OnConsumerSendRtpPacket (listener (consumer c)) sent) /\
    RtpPacket.ssrc sent = RtpEncodingParameters.ssrc encoding /\
    Uint.in_range 16 (RtpPacket.sequenceNumber sent) /\
    Uint.in_range 32 (RtpPacket.timestamp sent).
Proof.
  intros Hrecv Hsend. unfold SendRtpPacket in Hsend.
  destruct (negb (IsActive c)); [simplify_eq; left; reflexivity |].
  destruct (negb (bool_decide _)); [simplify_eq; left; reflexivity |].
  destruct (syncRequired c && keyFrameSupported c && negb (IsKeyFrame packet));
    [simplify_eq; left; reflexivity |].
  cbn in Hsend. fold (AfterSync now packet c) in Hsend.
  apply Forward_inversion in Hsend.
  destruct Hsend as (ok & q & _ & Hrest).
  destruct (AfterSync_listener now packet c) as (Hl & _ & Henc).
  rewrite Hl, Henc in Hrest.
  destruct ok.
  - destruct Hrest as (encoding & rest & received & stream & sent
                       & Hencs & Hr & _ & _ & _ & Hlis).
    destruct received; [| left; exact Hlis].
    right. exists sent, encoding, rest.
    match type of Hr with
    | RtpStreamSend_ReceivePacket ?s ?p = _ =>
        pose proof (Hrecv s p) as Hsame
    end.
    rewrite Hr in Hsame. cbn in Hsame. subst sent.
    repeat split; try assumption; cbn; apply wrap_range; lia.
  - left. destruct Hrest as (_ & _ & _ & _ & Hlis). exact Hlis.
Qed.


(** X6.  For an elapsed time below 65536 ms and an interval of
    uint16_t, the floating-point test that opens [GetRtcp] is exact:
    it holds the report back if and only if 1.15 times the elapsed time
    is below the interval, in exact arithmetic.  No rounding moves the
    threshold. *)
Theorem RtcpSuppressed_threshold (now : Z) b :
  Uint.in_range 16 (maxRtcpInterval b) ->
  Uint.u64 (now - lastRtcpSentTime b) < 65536 ->
  (RtcpSuppressed now b = true <->
   115 * Uint.u64 (now - lastRtcpSentTime b) < 100 * maxRtcpInterval b).
Proof.
  intros Hrange Hd.
  assert (H0 : 0 <= Uint.u64 (now - lastRtcpSentTime b))
    by (apply (wrap_range 64); lia).
  unfold RtcpSuppressed. split.
  - intros Hsup.
    destruct (Z_lt_le_dec (115 * Uint.u64 (now - lastRtcpSentTime b))
                (100 * maxRtcpInterval b)) as [Hlt | Hle]; [exact Hlt |].
    rewrite scaled_1_15_reaches in Hsup; [discriminate | lia | exact Hrange | exact Hle].
  - intros Hlt. apply scaled_1_15_below; assumption.
Qed.

(** X7.  What a call of [GetRtcp] does, by cases.  Held back: the
    consumer and the compound packet come back as they were, and the
    send stream is not asked.  Due, and the stream has no report: the
    packet is unchanged and no time is recorded, so the next call
    tries again.  Due, and the stream has a report: the report and one
    SDES chunk are appended, both or neither, and [now] is recorded.
    The listener is never called. *)
Theorem GetRtcp_outcomes (packet : CompoundPacket) (now : Z) c :
  (RtcpSuppressed now (consumer c) = true ->
   GetRtcp packet now c = (c, packet)) /\
  (RtcpSuppressed now (consumer c) = false ->
   fst (RtpStreamSend_GetRtcpSenderReport now (rtpStream c)) = None ->
   snd (GetRtcp packet now c) = packet /\
   lastRtcpSentTime (consumer (fst (GetRtcp packet now c)))
   = lastRtcpSentTime (consumer c)) /\
  (RtcpSuppressed now (consumer c) = false ->
   forall report,
     fst (RtpStreamSend_GetRtcpSenderReport now (rtpStream c)) = Some report ->
     senderReports (snd (GetRtcp packet now c))
     = (senderReports packet ++ [report])%list /\
     sdesChunks (snd (GetRtcp packet now c))
     = (sdesChunks packet
        ++ [RtpStreamSend_GetRtcpSdesChunk
              (snd (RtpStreamSend_GetRtcpSenderReport now (rtpStream c)))])%list /\
     lastRtcpSentTime (consumer (fst (GetRtcp packet now c))) = now) /\
  listener (consumer (fst (GetRtcp packet now c))) = listener (consumer c) /\
  rtpSeqManager (fst (GetRtcp packet now c)) = rtpSeqManager c /\
  rtpTimestampManager (fst (GetRtcp packet now c)) = rtpTimestampManager c /\
  syncRequired (fst (GetRtcp packet now c)) = syncRequired c.
Proof.
  unfold GetRtcp.
  destruct (RtcpSuppressed now (consumer c)).
  - repeat split; intros; try discriminate; reflexivity.
  - destruct (RtpStreamSend_GetRtcpSenderReport now (rtpStream c))
      as [[report |] stream]; cbn.
    + repeat split; intros; try discriminate; simplify_eq; reflexivity.
    + repeat split; intros; try discriminate; reflexivity.
Qed.


(** X9.  [NeedWorstRemoteFractionLost] never lowers the value it is
    given: for an active consumer the result is the larger of the
    given value and the send stream's fraction lost, so asking the
    same consumer again changes nothing, and the order in which two
    consumers are asked does not matter. *)
Theorem NeedWorstRemoteFractionLost_is_max
  (getFractionLost : RtpStreamSend -> Z) (mappedSsrc worst : Z) c :
  worst <= NeedWorstRemoteFractionLost getFractionLost mappedSsrc worst c /\
  (IsActive c = true ->
   NeedWorstRemoteFractionLost getFractionLost mappedSsrc worst c
   = Z.max worst (getFractionLost (rtpStream c))) /\
  NeedWorstRemoteFractionLost getFractionLost mappedSsrc
    (NeedWorstRemoteFractionLost getFractionLost mappedSsrc worst c) c
  = NeedWorstRemoteFractionLost getFractionLost mappedSsrc worst c /\
  (forall c2,
      NeedWorstRemoteFractionLost getFractionLost mappedSsrc
        (NeedWorstRemoteFractionLost getFractionLost mappedSsrc worst c) c2
      = NeedWorstRemoteFractionLost getFractionLost mappedSsrc
          (NeedWorstRemoteFractionLost getFractionLost mappedSsrc worst c2) c).
Proof.
  unfold NeedWorstRemoteFractionLost.
  repeat split.
  - destruct (negb (IsActive c)); [lia |].
    destruct (Z.gtb_spec (getFractionLost (rtpStream c)) worst); lia.
  - intros ->. cbn.
    destruct (Z.gtb_spec (getFractionLost (rtpStream c)) worst); lia.
  - destruct (negb (IsActive c)); [reflexivity |].
    destruct (Z.gtb_spec (getFractionLost (rtpStream c)) worst) as [H | H].
    + rewrite Z.gtb_ltb, Z.ltb_irrefl. reflexivity.
    + destruct (Z.gtb_spec (getFractionLost (rtpStream c)) worst); [lia |].
      reflexivity.
  - intros c2.
    destruct (negb (IsActive c)); destruct (negb (IsActive c2));
      try reflexivity.
    assert (Hmax : forall f w, (if f >? w then f else w) = Z.max w f)
      by (intros f w; destruct (Z.gtb_spec f w); lia).
    rewrite !Hmax. lia.
Qed.


(** ** CreateRtpStream *)

Lemma feedback_step_flags (p : RtpStream.Params) (fb : RtcpFeedback) :
  RtpStream.useNack (feedback_step p fb) = RtpStream.useNack p || is_nack fb /\
  RtpStream.usePli (feedback_step p fb) = RtpStream.usePli p || is_pli fb /\
  RtpStream.useFir (feedback_step p fb) = RtpStream.useFir p || is_fir fb /\
  RtpStream.ssrc (feedback_step p fb) = RtpStream.ssrc p /\
  RtpStream.payloadType (feedback_step p fb) = RtpStream.payloadType p /\
  RtpStream.mimeType (feedback_step p fb) = RtpStream.mimeType p /\
  RtpStream.clockRate (feedback_step p fb) = RtpStream.clockRate p /\
  RtpStream.rtxSsrc (feedback_step p fb) = RtpStream.rtxSsrc p /\
  RtpStream.useInBandFec (feedback_step p fb) = RtpStream.useInBandFec p /\
  RtpStream.cname (feedback_step p fb) = RtpStream.cname p.
Proof.
  destruct p as [ssrc pt mime rate rid rtxSsrc rtxPt nack pli fir fec cname].
  destruct fb as [ty pa].
  unfold feedback_step, is_nack, is_pli, is_fir. cbn.
  destruct (String.eqb_spec ty "nack"), (String.eqb_spec pa ""),
    (String.eqb_spec pa "pli"), (String.eqb_spec ty "ccm"),
    (String.eqb_spec pa "fir"); subst; try discriminate;
    destruct nack, pli, fir; cbn; repeat split; reflexivity.
Qed.

Lemma fold_feedback_flags (fbs : list RtcpFeedback) (p : RtpStream.Params) :
  RtpStream.useNack (fold_left feedback_step fbs p)
  = RtpStream.useNack p || existsb is_nack fbs /\
  RtpStream.usePli (fold_left feedback_step fbs p)
  = RtpStream.usePli p || existsb is_pli fbs /\
  RtpStream.useFir (fold_left feedback_step fbs p)
  = RtpStream.useFir p || existsb is_fir fbs /\
  RtpStream.ssrc (fold_left feedback_step fbs p) = RtpStream.ssrc p /\
  RtpStream.payloadType (fold_left feedback_step fbs p) = RtpStream.payloadType p /\
  RtpStream.mimeType (fold_left feedback_step fbs p) = RtpStream.mimeType p /\
  RtpStream.clockRate (fold_left feedback_step fbs p) = RtpStream.clockRate p /\
  RtpStream.rtxSsrc (fold_left feedback_step fbs p) = RtpStream.rtxSsrc p /\
  RtpStream.useInBandFec (fold_left feedback_step fbs p)
  = RtpStream.useInBandFec p /\
  RtpStream.cname (fold_left feedback_step fbs p) = RtpStream.cname p.
Proof.
  revert p. induction fbs as [| fb fbs IH]; intros p.
  - cbn. rewrite !orb_false_r. repeat split.
  - cbn [fold_left existsb].
    destruct (IH (feedback_step p fb))
      as (H1 & H2 & H3 & H4 & H5 & H6 & H7 & H8 & H9 & H10).
    destruct (feedback_step_flags p fb)
      as (G1 & G2 & G3 & G4 & G5 & G6 & G7 & G8 & G9 & G10).
    rewrite H1, H2, H3, H4, H5, H6, H7, H8, H9, H10.
    rewrite G1, G2, G3, G4, G5, G6, G7, G8, G9, G10.
    rewrite !orb_assoc. repeat split.
Qed.

(** X10.  The send stream [CreateRtpStream] creates: its parameters
    carry the ssrc of the first encoding and the payload type, clock
    rate and CNAME of its codec; NACK, PLI and FIR are enabled exactly
    when the codec's RTCP feedback lists [nack], [nack pli] and
    [ccm fir] (anywhere in the list, repeated or not); the
    retransmission buffer has 1500 slots if NACK is enabled and none
    otherwise; the stream starts paused if the consumer or its
    producer is paused; and RTX is set only if the parameters have an
    RTX codec for the encoding and the encoding has [rtx]. *)
Theorem CreateRtpStream_stream b encoding rest :
  encodings (rtpParameters b) = encoding :: rest ->
  exists params c,
    CreateRtpStream b = Some c /\
    consumer c = b /\
    RtpStream.ssrc params = RtpEncodingParameters.ssrc encoding /\
    RtpStream.payloadType params
    = codec_payloadType (GetCodecForEncoding (rtpParameters b) encoding) /\
    RtpStream.clockRate params
    = codec_clockRate (GetCodecForEncoding (rtpParameters b) encoding) /\
    RtpStream.cname params = rtcp_cname (rtpParameters b) /\
    RtpStream.useNack params
    = existsb is_nack
        (codec_rtcpFeedback (GetCodecForEncoding (rtpParameters b) encoding)) /\
    RtpStream.usePli params
    = existsb is_pli
        (codec_rtcpFeedback (GetCodecForEncoding (rtpParameters b) encoding)) /\
    RtpStream.useFir params
    = existsb is_fir
        (codec_rtcpFeedback (GetCodecForEncoding (rtpParameters b) encoding)) /\
    rtpStream c =
      (let created :=
         RtpStreamSend_new params
           (if existsb is_nack
                 (codec_rtcpFeedback
                    (GetCodecForEncoding (rtpParameters b) encoding))
            then 1500 else 0) in
       let paused_or_not :=
         if paused b || producerPaused b
         then RtpStreamSend_Pause created else created in
       match GetRtxCodecForEncoding (rtpParameters b) encoding with
       | Some rtxCodec =>
           if RtpEncodingParameters.hasRtx encoding
           then RtpStreamSend_SetRtx (codec_payloadType rtxCodec)
                  (RtpRtxParameters.ssrc (RtpEncodingParameters.rtx encoding))
                  paused_or_not
           else paused_or_not
       | None => paused_or_not
       end).
Proof.
  intros Henc. unfold CreateRtpStream. rewrite Henc.
  match goal with
  | |- context [fold_left feedback_step ?fbs ?p0] =>
      destruct (fold_feedback_flags fbs p0)
        as (H1 & H2 & H3 & H4 & H5 & _ & H7 & _ & _ & H10);
      set (params := fold_left feedback_step fbs p0) in *
  end.
  cbn in H1, H2, H3, H4, H5, H7, H10.
  exists params. eexists. split; [reflexivity |]. cbn.
  rewrite <- H1.
  repeat split; assumption.
Qed.


End SimpleConsumerMoreProperties.
(** ** Loss percentages *)

Lemma loss_percentage_checked :
  Ieee.forall_range (Z.to_nat 256) 0 LossCheck.exact = true.
Proof. vm_compute. reflexivity. Qed.

Lemma percentages_spec :
  LossCheck.percentages
  = map (fun n => (Z.of_nat n, RtpStreamInline.loss_percentage (Z.of_nat n)))
      (seq 0 256).
Proof. vm_compute. reflexivity. Qed.

Lemma percentages_In (fractionLost : Z) :
  0 <= fractionLost < 256 ->
  In (fractionLost, RtpStreamInline.loss_percentage fractionLost)
    LossCheck.percentages.
Proof.
  intros Hrange. rewrite percentages_spec. apply in_map_iff.
  exists (Z.to_nat fractionLost). split.
  - rewrite Z2Nat.id by lia. reflexivity.
  - apply in_seq. lia.
Qed.

(** Every pair of loss percentages; by evaluation. *)
Lemma loss_difference_checked :
  forallb
    (fun own => forallb (LossCheck.difference_exact own) LossCheck.percentages)
    LossCheck.percentages
  = true.
Proof. vm_compute. reflexivity. Qed.

Lemma loss_difference_exact (own theirs : Z) :
  0 <= own < 256 -> 0 <= theirs < 256 ->
  Ieee32.is_finite
    (LossCheck.difference (RtpStreamInline.loss_percentage own)
       (RtpStreamInline.loss_percentage theirs)) = true /\
  QArith_base.Qeq
    (Ieee32.to_Q
       (LossCheck.difference (RtpStreamInline.loss_percentage own)
          (RtpStreamInline.loss_percentage theirs)))
    (QArith_base.Qmake (Z.max 0 (own - theirs) * 100) 256).
Proof.
  intros Hown Htheirs.
  pose proof (proj1 (forallb_forall _ _) loss_difference_checked
                _ (percentages_In own Hown)) as Hrow.
  pose proof (proj1 (forallb_forall _ _) Hrow
                _ (percentages_In theirs Htheirs)) as Hcheck.
  apply andb_prop in Hcheck.
  destruct Hcheck as [Hfin Heq].
  apply QArith_base.Qeq_bool_iff in Heq.
  split; [exact Hfin | exact Heq].
Qed.

(** X11.  [RtpStream::GetLossPercentage] loses nothing to rounding:
    for every [fractionLost] of uint8_t the float it returns is exactly
    [fractionLost * 100 / 256], so it is 0 for no loss, grows with
    [fractionLost] and never reaches 100 (at most 99.609375). *)
Theorem GetLossPercentage_exact (s : RtpStream.t) :
  Uint.in_range 8 (RtpStream.fractionLost s) ->
  Ieee32.is_finite (RtpStreamInline.GetLossPercentage s) = true /\
  QArith_base.Qeq
    (Ieee32.to_Q (RtpStreamInline.GetLossPercentage s))
    (QArith_base.Qmake (RtpStream.fractionLost s * 100) 256) /\
  QArith_base.Qle (QArith_base.Qmake 0 1)
    (Ieee32.to_Q (RtpStreamInline.GetLossPercentage s)) /\
  QArith_base.Qle
    (Ieee32.to_Q (RtpStreamInline.GetLossPercentage s))
    (QArith_base.Qmake 25500 256).
Proof.
  intros Hrange. unfold Uint.in_range in Hrange.
  pose proof (forall_range_spec _ _ _ loss_percentage_checked
                (RtpStream.fractionLost s)) as Hcheck.
  unfold LossCheck.exact in Hcheck.
  apply andb_prop in Hcheck; [| simpl; lia].
  destruct Hcheck as [Hfin Heq].
  apply QArith_base.Qeq_bool_iff in Heq.
  unfold RtpStreamInline.GetLossPercentage.
  split; [exact Hfin |]. split; [exact Heq |].
  split.
  - rewrite Heq. unfold QArith_base.Qle. simpl. lia.
  - rewrite Heq. unfold QArith_base.Qle. simpl. lia.
Qed.


Section ConsumerLossProperties.

Context {E : Collaborators}.

(** X12.  [SimpleConsumer::GetLossPercentage] is the loss of the
    consumer beyond that of its producer, exactly: for an active
    consumer with a producer stream it is
    [max 0 (own - producer) * 100 / 256] on the two [fractionLost],
    with no rounding; it is never negative, and it is 0 whenever the
    producer loses at least as much as the consumer. *)
Theorem GetLossPercentage_difference (c : SimpleConsumer) (producer : RtpStream.t) :
  IsActive c = true ->
  producerRtpStream c = Some producer ->
  Uint.in_range 8 (RtpStream.fractionLost (RtpStreamSend_base (rtpStream c))) ->
  Uint.in_range 8 (RtpStream.fractionLost producer) ->
  Ieee32.is_finite (GetLossPercentage c) = true /\
  QArith_base.Qeq
    (Ieee32.to_Q (GetLossPercentage c))
    (QArith_base.Qmake
       (Z.max 0
          (RtpStream.fractionLost (RtpStreamSend_base (rtpStream c))
           - RtpStream.fractionLost producer) * 100) 256) /\
  (RtpStream.fractionLost (RtpStreamSend_base (rtpStream c))
   <= RtpStream.fractionLost producer ->
   QArith_base.Qeq (Ieee32.to_Q (GetLossPercentage c)) (QArith_base.Qmake 0 1)).
Proof.
  intros Ha Hp Hown Htheirs. unfold Uint.in_range in Hown, Htheirs.
  destruct (loss_difference_exact _ _ Hown Htheirs) as [Hfin Heq].
  assert (Hsame : GetLossPercentage c
                  = LossCheck.difference
                      (RtpStreamInline.loss_percentage
                         (RtpStream.fractionLost (RtpStreamSend_base (rtpStream c))))
                      (RtpStreamInline.loss_percentage
                         (RtpStream.fractionLost producer))).
  { unfold GetLossPercentage, LossCheck.difference,
      RtpStreamInline.GetLossPercentage.
    rewrite Ha, Hp. reflexivity. }
  rewrite Hsame.
  split; [exact Hfin |]. split; [exact Heq |].
  intros Hle. rewrite Heq.
  rewrite Z.max_l by lia. reflexivity.
Qed.

End ConsumerLossProperties.

(** ** The offset of a resync *)

(** X18.  The 64-bit arithmetic of the resync offset cannot overflow
    for a 32-bit clock rate and a gap below 2^32 ms (49 days) since the
    last packet: the offset given to the timestamp manager is the gap
    in clock ticks, rounded down, modulo 2^32; and it is the gap in
    ticks itself as long as that is below 2^32. *)
Theorem SyncOffset_elapsed_ticks (now : Z) (s : RtpStream.t) :
  0 <= now - RtpStream.GetMaxPacketMs s < 2 ^ 32 ->
  Uint.in_range 32 (RtpStream.GetClockRate s) ->
  SyncOffset now s
  = ((now - RtpStream.GetMaxPacketMs s) * RtpStream.GetClockRate s / 1000)
    mod 2 ^ 32 /\
  ((now - RtpStream.GetMaxPacketMs s) * RtpStream.GetClockRate s < 1000 * 2 ^ 32 ->
   SyncOffset now s
   = (now - RtpStream.GetMaxPacketMs s) * RtpStream.GetClockRate s / 1000).
Proof.
  intros Hgap Hrate. unfold Uint.in_range in Hrate.
  assert (Hprod : 0 <= (now - RtpStream.GetMaxPacketMs s) * RtpStream.GetClockRate s
                  < 2 ^ 64).
  { change (2 ^ 64) with (2 ^ 32 * 2 ^ 32). change (2 ^ 32) with 4294967296 in *.
    nia. }
  assert (Heq : SyncOffset now s
                = ((now - RtpStream.GetMaxPacketMs s) * RtpStream.GetClockRate s
                   / 1000) mod 2 ^ 32).
  { unfold SyncOffset, Uint.u64, Uint.u32, Uint.wrap.
    rewrite (Z.mod_small (now - RtpStream.GetMaxPacketMs s)) by lia.
    rewrite (Z.mod_small _ (2 ^ 64)) by exact Hprod.
    reflexivity. }
  split; [exact Heq |].
  intros Hsmall. rewrite Heq. apply Z.mod_small. split.
  - apply Z.div_pos; lia.
  - apply Z.div_lt_upper_bound; lia.
Qed.

(** ** RtpEncodingParameters, once more *)

Section RtpEncodingParametersMoreProperties.

Variable RtpRtxParameters_FromJson : Json.json -> Outcome RtpRtxParameters.t.
Variable RtpRtxParameters_FillJson : RtpRtxParameters.t -> Json.json.

Abbreviation FromJson' := (RtpEncodingParameters.FromJson RtpRtxParameters_FromJson).
Abbreviation FillJson' := (RtpEncodingParameters.FillJson RtpRtxParameters_FillJson).
Abbreviation rtx_round_trip' :=
  (RtpEncodingParameters.rtx_round_trip
     RtpRtxParameters_FromJson RtpRtxParameters_FillJson).

(** What the constructor makes of what [FillJson] wrote. *)
Lemma FromJson_FillJson (e : RtpEncodingParameters.t) :
  RtpEncodingParameters.well_typed e ->
  (RtpEncodingParameters.hasRtx e = true ->
   rtx_round_trip' (RtpEncodingParameters.rtx e)) ->
  FromJson' (FillJson' e) = Ok (RtpEncodingParameters.unset_cleared e).
Proof.
  intros (Hssrc & Hpt & Hbitrate) Hrtx.
  unfold RtpEncodingParameters.FillJson, RtpEncodingParameters.FromJson.
  rewrite find_ssrc, find_rid, find_codecPayloadType, find_rtx,
    find_maxBitrate, find_maxFramerate.
  unfold RtpEncodingParameters.unset_cleared.
  destruct e as [s r c hc x hx b f]; cbn in *.
  assert (Hx : match (if hx then Some (RtpRtxParameters_FillJson x) else None)
               with
               | Some (Json.object r0) =>
                   match RtpRtxParameters_FromJson (Json.object r0) with
                   | Ok x0 => Ok (x0, true)
                   | Throw err => Throw err
                   end
               | _ => Ok (RtpRtxParameters.default, false)
               end
               = Ok (if hx then x else RtpRtxParameters.default, hx)).
  { destruct hx; [| reflexivity].
    destruct (Hrtx eq_refl) as (m & Hfill & Hparse).
    rewrite Hfill, Hparse. reflexivity. }
  rewrite Hx. clear Hx Hrtx.
  destruct (Z.eqb_spec s 0) as [-> | _];
    destruct (String.eqb_spec r "") as [-> | _];
    destruct hc;
    destruct (Z.eqb_spec b 0) as [-> | _];
    destruct (SFltb Ieee.zero f);
    cbn; unfold Uint.u32, Uint.u8;
    rewrite ?(wrap_small 32 s Hssrc), ?(wrap_small 32 b Hbitrate),
      ?(wrap_small 8 c Hpt);
    reflexivity.
Qed.

(** In a hypothesis on what the constructor returned, name the two
    values it builds in more than one piece: the pair for
    [codecPayloadType] and the result for [rtx]. *)
Ltac name_pair_in H c hc Hc :=
  match type of H with
  | context [match ?x with _ => _ end] =>
      match type of x with
      | (Z * bool)%type => destruct x as [c hc] eqn:Hc
      end
  end.

Ltac name_rtx_in H x hx Hx :=
  match type of H with
  | context [match ?r with _ => _ end] =>
      match type of r with
      | Outcome (RtpRtxParameters.t * bool) =>
          destruct r as [[x hx] | ?] eqn:Hx
      end
  end.

(** The members the constructor reads with a cast are in the range of
    their types. *)
Lemma FromJson_well_typed (data : Json.json) (e : RtpEncodingParameters.t) :
  FromJson' data = Ok e -> RtpEncodingParameters.well_typed e.
Proof.
  unfold RtpEncodingParameters.FromJson, RtpEncodingParameters.well_typed.
  intros H. destruct data; try discriminate H. cbv zeta in H.
  name_pair_in H c hc Hc. name_rtx_in H x hx Hx; [| discriminate H].
  injection H as <-. cbn. repeat split.
  - repeat case_match; try (cbn; lia); apply wrap_range; lia.
  - repeat case_match; simplify_eq; try (cbn; lia); apply wrap_range; lia.
  - repeat case_match; simplify_eq; try (cbn; lia); apply wrap_range; lia.
  - repeat case_match; simplify_eq; try (cbn; lia); apply wrap_range; lia.
  - repeat case_match; try (cbn; lia); apply wrap_range; lia.
  - repeat case_match; try (cbn; lia); apply wrap_range; lia.
Qed.

(** A member the constructor did not find keeps its initialiser. *)
Lemma FromJson_unset (data : Json.json) (e : RtpEncodingParameters.t) :
  FromJson' data = Ok e ->
  (RtpEncodingParameters.hasCodecPayloadType e = false ->
   RtpEncodingParameters.codecPayloadType e = 0) /\
  (RtpEncodingParameters.hasRtx e = false ->
   RtpEncodingParameters.rtx e = RtpRtxParameters.default).
Proof.
  unfold RtpEncodingParameters.FromJson.
  intros H. destruct data; try discriminate H. cbv zeta in H.
  name_pair_in H c hc Hc. name_rtx_in H x hx Hx; [| discriminate H].
  injection H as <-. cbn. split; intros ->.
  - repeat case_match; simplify_eq; reflexivity.
  - repeat case_match; simplify_eq; reflexivity.
Qed.

(** X13.  The constructor throws in two cases only: [data] is not an
    object (the TypeError of line 17), or its [rtx] member is an object
    that the constructor of RtpRtxParameters refuses, whose exception
    goes through.  Members of another JSON type than the one read,
    [rtx] included, are passed over and never make it throw. *)
Theorem FromJson_throws (data : Json.json) :
  match data with
  | Json.object m =>
      match Json.find "rtx" m with
      | Some (Json.object r) =>
          match RtpRtxParameters_FromJson (Json.object r) with
          | Throw err => FromJson' data = Throw err
          | Ok x =>
              exists e, FromJson' data = Ok e /\
                        RtpEncodingParameters.rtx e = x /\
                        RtpEncodingParameters.hasRtx e = true
          end
      | _ =>
          exists e, FromJson' data = Ok e /\
                    RtpEncodingParameters.rtx e = RtpRtxParameters.default /\
                    RtpEncodingParameters.hasRtx e = false
      end
  | _ => FromJson' data = Throw (TypeError "data is not an object")
  end.
Proof.
  unfold RtpEncodingParameters.FromJson.
  destruct data; try reflexivity. cbv zeta.
  match goal with
  | |- context [match ?x with _ => _ end] =>
      match type of x with
      | (Z * bool)%type => destruct x as [c hc]
      end
  end.
  destruct (Json.find "rtx" _) as [[] |];
    try (eexists; split; [reflexivity | split; reflexivity]).
  destruct (RtpRtxParameters_FromJson _) as [x | err];
    [eexists; split; [reflexivity | split; reflexivity] | reflexivity].
Qed.

(** X14.  What the constructor builds is in the form [FillJson] relies
    on: the integer members are in the range of their types, and
    [codecPayloadType] and [rtx] have their initial values (0, and the
    default RtpRtxParameters) whenever [hasCodecPayloadType] and
    [hasRtx] are false. *)
Theorem FromJson_normal_form (data : Json.json) (e : RtpEncodingParameters.t) :
  FromJson' data = Ok e ->
  RtpEncodingParameters.well_typed e /\
  (RtpEncodingParameters.hasCodecPayloadType e = false ->
   RtpEncodingParameters.codecPayloadType e = 0) /\
  (RtpEncodingParameters.hasRtx e = false ->
   RtpEncodingParameters.rtx e = RtpRtxParameters.default).
Proof.
  intros H. split.
  - exact (FromJson_well_typed data e H).
  - exact (FromJson_unset data e H).
Qed.

(** X15.  Every encoding the constructor built from some JSON value,
    with a [maxFramerate] that is not below zero, comes back equal from
    [FillJson] followed by the constructor (given that its [rtx], when
    present, makes its own round trip): the side conditions of the
    round trip on the integer members, [codecPayloadType] and [rtx]
    hold of every parsed value, and the frame rate is the only member
    through which a parsed value can fail it. *)
Theorem FromJson_round_trip (data : Json.json) (e : RtpEncodingParameters.t) :
  FromJson' data = Ok e ->
  (RtpEncodingParameters.hasRtx e = true ->
   rtx_round_trip' (RtpEncodingParameters.rtx e)) ->
  SFleb Ieee.zero (RtpEncodingParameters.maxFramerate e) = true ->
  exists e', FromJson' (FillJson' e) = Ok e' /\
             RtpEncodingParameters.equal e e'.
Proof.
  intros Hparse Hrtx Hframerate.
  pose proof (FromJson_well_typed data e Hparse) as Htyped.
  destruct (FromJson_unset data e Hparse) as (Hcpt & Hnortx).
  exists (RtpEncodingParameters.unset_cleared e). split.
  - apply FromJson_FillJson; assumption.
  - unfold RtpEncodingParameters.equal, RtpEncodingParameters.unset_cleared.
    cbn. repeat split.
    + destruct (RtpEncodingParameters.hasCodecPayloadType e);
        [reflexivity | apply Hcpt; reflexivity].
    + destruct (RtpEncodingParameters.hasRtx e);
        [reflexivity | apply Hnortx; reflexivity].
    + apply framerate_back. exact Hframerate.
Qed.

(** One member of the object against the case list of its names. *)
Ltac member_case :=
  split;
  [ intros Hsome;
    first [ destruct Hsome as [? Hsome]; discriminate Hsome
          | intuition congruence ]
  | intros Hcase;
    first [ eexists; reflexivity
          | exfalso; intuition congruence ] ].

(** X16.  The object [FillJson] leaves has a member exactly where the
    encoding has something set: [ssrc] and [maxBitrate] when they are
    not zero, [rid] when it is not empty, [codecPayloadType] and [rtx]
    when their flags are set, [maxFramerate] when it is above zero; and
    no member of any other name. *)
Theorem FillJson_members_exact (e : RtpEncodingParameters.t) (k : string) :
  is_Some
    (Json.find k
       (RtpEncodingParameters.FillJson_members RtpRtxParameters_FillJson e)) <->
  (k = "ssrc" /\ RtpEncodingParameters.ssrc e <> 0) \/
  (k = "rid" /\ RtpEncodingParameters.rid e <> "") \/
  (k = "codecPayloadType" /\
   RtpEncodingParameters.hasCodecPayloadType e = true) \/
  (k = "rtx" /\ RtpEncodingParameters.hasRtx e = true) \/
  (k = "maxBitrate" /\ RtpEncodingParameters.maxBitrate e <> 0) \/
  (k = "maxFramerate" /\
   SFltb Ieee.zero (RtpEncodingParameters.maxFramerate e) = true).
Proof.
  destruct (String.eqb_spec "ssrc" k) as [<- | Hk1].
  { rewrite find_ssrc.
    destruct (Z.eqb_spec (RtpEncodingParameters.ssrc e) 0) as [Hs | Hs];
      cbn [negb]; member_case. }
  destruct (String.eqb_spec "rid" k) as [<- | Hk2].
  { rewrite find_rid.
    destruct (String.eqb_spec (RtpEncodingParameters.rid e) "") as [Hr | Hr];
      cbn [negb]; member_case. }
  destruct (String.eqb_spec "codecPayloadType" k) as [<- | Hk3].
  { rewrite find_codecPayloadType.
    destruct (RtpEncodingParameters.hasCodecPayloadType e); member_case. }
  destruct (String.eqb_spec "rtx" k) as [<- | Hk4].
  { rewrite find_rtx.
    destruct (RtpEncodingParameters.hasRtx e); member_case. }
  destruct (String.eqb_spec "maxBitrate" k) as [<- | Hk5].
  { rewrite find_maxBitrate.
    destruct (Z.eqb_spec (RtpEncodingParameters.maxBitrate e) 0) as [Hb | Hb];
      cbn [negb]; member_case. }
  destruct (String.eqb_spec "maxFramerate" k) as [<- | Hk6].
  { rewrite find_maxFramerate.
    destruct (SFltb Ieee.zero (RtpEncodingParameters.maxFramerate e));
      member_case. }
  unfold RtpEncodingParameters.FillJson_members; cbv zeta.
  rewrite !find_set_if, find_empty.
  rewrite (proj2 (String.eqb_neq _ _) Hk1), (proj2 (String.eqb_neq _ _) Hk2),
    (proj2 (String.eqb_neq _ _) Hk3), (proj2 (String.eqb_neq _ _) Hk4),
    (proj2 (String.eqb_neq _ _) Hk5), (proj2 (String.eqb_neq _ _) Hk6).
  rewrite !andb_false_r.
  split.
  - intros [? Hsome]. discriminate Hsome.
  - intros Hcase. exfalso. intuition congruence.
Qed.

(** X17.  Writing and reading once is enough: for every encoding, also
    one that does not make the round trip, the value read from what
    [FillJson] wrote is written as the same JSON object again, and is
    read back from it unchanged. *)
Theorem FillJson_FromJson_stable (e : RtpEncodingParameters.t) :
  RtpEncodingParameters.well_typed e ->
  (RtpEncodingParameters.hasRtx e = true ->
   rtx_round_trip' (RtpEncodingParameters.rtx e)) ->
  exists e',
    FromJson' (FillJson' e) = Ok e' /\
    FillJson' e' = FillJson' e /\
    FromJson' (FillJson' e') = Ok e'.
Proof.
  intros Htyped Hrtx.
  pose proof (FromJson_FillJson e Htyped Hrtx) as Hfirst.
  exists (RtpEncodingParameters.unset_cleared e).
  assert (Hsame : FillJson' (RtpEncodingParameters.unset_cleared e) = FillJson' e).
  { unfold RtpEncodingParameters.FillJson, RtpEncodingParameters.FillJson_members,
      RtpEncodingParameters.unset_cleared.
    cbn. f_equal.
    destruct (RtpEncodingParameters.hasCodecPayloadType e);
      destruct (RtpEncodingParameters.hasRtx e);
      destruct (SFltb Ieee.zero (RtpEncodingParameters.maxFramerate e)) eqn:Hf;
      rewrite ?Hf; reflexivity. }
  split; [exact Hfirst |]. split; [exact Hsame |].
  rewrite Hsame. exact Hfirst.
Qed.

End RtpEncodingParametersMoreProperties.

(** ** The additional properties at the sample values *)

(** The constructor returns an object whenever there is one consumable
    encoding and the RTP parameters have an encoding. *)
Lemma SimpleConsumer_ctor_returns `{E : Collaborators} (b : Consumer) :
  length (consumableRtpEncodings b) = 1%nat ->
  encodings (rtpParameters b) <> [] ->
  exists c, SimpleConsumer_ctor b = Some (Ok c).
Proof.
  intros Hlen Hne. unfold SimpleConsumer_ctor, CreateRtpStream.
  rewrite Hlen. cbn [Nat.eqb negb].
  destruct (Kind_eqb (kind b) AUDIO); cbn;
    (destruct (encodings (rtpParameters b)); [contradiction |]);
    eexists; reflexivity.
Qed.

Lemma Reference_HandleRequest_keeps_configuration :
  Consumer_HandleRequest_keeps_configuration (F := ReferenceMore.callees).
Proof.
  intros request c c' request' H. injection H as <- _. repeat split.
Qed.

Lemma Reference_video_consumer_reachable :
  reachable (F := ReferenceMore.callees)
    ReferenceMore.video_base Reference.video_consumer.
Proof.
  destruct (SimpleConsumer_ctor_returns (E := Reference.collaborators)
              ReferenceMore.video_base) as [c Hc];
    [reflexivity | vm_compute; discriminate |].
  unfold Reference.video_consumer, Reference.constructed.
  change (Reference.base_consumer VIDEO Reference.vp8
            [Reference.encoding_with_ssrc 1111])
    with ReferenceMore.video_base.
  rewrite Hc.
  eapply reachable_step;
    [apply reachable_ctor; exact Hc | apply step_ProducerNewRtpStream].
Qed.

Lemma Reference_synced_video_consumer_reachable :
  reachable (F := ReferenceMore.callees)
    ReferenceMore.video_base Reference.synced_video_consumer.
Proof.
  unfold Reference.synced_video_consumer.
  destruct (SendRtpPacket (E := Reference.collaborators) 1000
              (Reference.key_frame 10 5000) Reference.video_consumer)
    as [[c p] |] eqn:H.
  - eapply reachable_step;
      [exact Reference_video_consumer_reachable
      | eapply step_SendRtpPacket; exact H].
  - exact Reference_video_consumer_reachable.
Qed.

Lemma Reference_video_consumer_encodings :
  encodings (rtpParameters (consumer Reference.video_consumer)) <> [].
Proof. vm_compute. discriminate. Qed.

(** A receiver report, a NACK and a rate query after the first key
    frame of the video consumer. *)
Lemma Reference_reported_video_consumer_reachable :
  reachable (F := ReferenceMore.callees) ReferenceMore.video_base
    (fst (GetTransmissionRate (F := ReferenceMore.callees) 2000
            (ReceiveNack (F := ReferenceMore.callees) [1]
               (ReceiveRtcpReceiverReport (F := ReferenceMore.callees) 64
                  Reference.synced_video_consumer)))).
Proof.
  eapply reachable_step; [| apply step_GetTransmissionRate].
  eapply reachable_step; [| apply step_ReceiveNack].
  eapply reachable_step; [| apply step_ReceiveRtcpReceiverReport].
  exact Reference_synced_video_consumer_reachable.
Qed.

(** X1 at the video consumer after its first key frame, a receiver
    report, a NACK and a rate query. *)
Lemma reachable_keeps_configuration_witness :
  kind
    (consumer
       (fst (GetTransmissionRate (F := ReferenceMore.callees) 2000
               (ReceiveNack (F := ReferenceMore.callees) [1]
                  (ReceiveRtcpReceiverReport (F := ReferenceMore.callees) 64
                     Reference.synced_video_consumer))))) = VIDEO /\
  maxRtcpInterval
    (consumer
       (fst (GetTransmissionRate (F := ReferenceMore.callees) 2000
               (ReceiveNack (F := ReferenceMore.callees) [1]
                  (ReceiveRtcpReceiverReport (F := ReferenceMore.callees) 64
                     Reference.synced_video_consumer))))) = 1000 /\
  length
    (consumableRtpEncodings
       (consumer
          (fst (GetTransmissionRate (F := ReferenceMore.callees) 2000
                  (ReceiveNack (F := ReferenceMore.callees) [1]
                     (ReceiveRtcpReceiverReport (F := ReferenceMore.callees) 64
                        Reference.synced_video_consumer))))))
  = 1%nat.
Proof.
  destruct (reachable_keeps_configuration (F := ReferenceMore.callees)
              ReferenceMore.video_base _
              Reference_HandleRequest_keeps_configuration
              Reference_reported_video_consumer_reachable)
    as (Hk & _ & _ & _ & Hi & Hl & _).
  split; [exact Hk | split; [exact Hi | exact Hl]].
Defined.

(** X2 at the video consumer after its first key frame, a receiver
    report, a NACK and a rate query. *)
Lemma reachable_never_undefined_witness :
  (exists r,
      SendRtpPacket (E := Reference.collaborators) 1020
        (Reference.delta_frame 11 8000)
        (fst (GetTransmissionRate (F := ReferenceMore.callees) 2000
                (ReceiveNack (F := ReferenceMore.callees) [1]
                   (ReceiveRtcpReceiverReport (F := ReferenceMore.callees) 64
                      Reference.synced_video_consumer))))
      = Some r) /\
  (exists c',
      RequestKeyFrame (E := Reference.collaborators)
        (fst (GetTransmissionRate (F := ReferenceMore.callees) 2000
                (ReceiveNack (F := ReferenceMore.callees) [1]
                   (ReceiveRtcpReceiverReport (F := ReferenceMore.callees) 64
                      Reference.synced_video_consumer))))
      = Some c').
Proof.
  destruct (reachable_never_undefined (F := ReferenceMore.callees)
              ReferenceMore.video_base _
              Reference_HandleRequest_keeps_configuration
              Reference_reported_video_consumer_reachable)
    as (Hs & Hk & _).
  split; [apply Hs | exact Hk].
Defined.

(** X3: the first packet of the video consumer is a key frame that
    cannot be encoded. *)
Lemma SendRtpPacket_uses_up_sync_witness :
  exists c' packet',
    SendRtpPacket (E := Reference.collaborators) 1000
      (ReferenceMore.refused_key_frame 10 5000) Reference.video_consumer
    = Some (c', packet') /\
    syncRequired c' = false /\
    rtpSeqManager c' =
      Reference.Remapper_Drop 10
        (Reference.Remapper_Sync 10 (rtpSeqManager Reference.video_consumer)) /\
    listener (consumer c') = listener (consumer Reference.video_consumer).
Proof.
  destruct (SendRtpPacket_defined (E := Reference.collaborators) 1000
              (ReferenceMore.refused_key_frame 10 5000) Reference.video_consumer
              Reference_video_consumer_encodings)
    as [[c' packet'] H].
  exists c', packet'. split; [exact H |].
  destruct (SendRtpPacket_uses_up_sync (E := Reference.collaborators) 1000
              (ReferenceMore.refused_key_frame 10 5000) packet'
              Reference.video_consumer c') as [Hs Hrest].
  - reflexivity.
  - decide_by_evaluation.
  - reflexivity.
  - exact H.
  - split; [exact Hs |].
    refine (Hrest 127 127 (ReferenceMore.refused_key_frame 10 5000) _ _ _);
      vm_compute; reflexivity.
Defined.

(** X4 at the video consumer, for its first key frame, whose payload
    is encoded, and for a key frame its encoding context refuses. *)
Lemma SendRtpPacket_managers_in_lockstep_witness :
  (exists c' packet',
      SendRtpPacket (E := Reference.collaborators) 1000
        (Reference.key_frame 10 5000) Reference.video_consumer
      = Some (c', packet') /\
      rtpSeqManager c' =
        fst (Reference.Remapper_Input 10
               (rtpSeqManager
                  (AfterSync 1000 (Reference.key_frame 10 5000)
                     Reference.video_consumer))) /\
      rtpTimestampManager c' =
        fst (Reference.Remapper_Input 5000
               (rtpTimestampManager
                  (AfterSync 1000 (Reference.key_frame 10 5000)
                     Reference.video_consumer)))) /\
  (exists c' packet',
      SendRtpPacket (E := Reference.collaborators) 1000
        (ReferenceMore.refused_key_frame 10 5000) Reference.video_consumer
      = Some (c', packet') /\
      rtpSeqManager c' =
        Reference.Remapper_Drop 10
          (rtpSeqManager
             (AfterSync 1000 (ReferenceMore.refused_key_frame 10 5000)
                Reference.video_consumer)) /\
      rtpTimestampManager c' =
        Reference.Remapper_Drop 5000
          (rtpTimestampManager
             (AfterSync 1000 (ReferenceMore.refused_key_frame 10 5000)
                Reference.video_consumer)) /\
      rtpStream c' = rtpStream Reference.video_consumer /\
      listener (consumer c') = listener (consumer Reference.video_consumer)).
Proof.
  split.
  - destruct (SendRtpPacket_defined (E := Reference.collaborators) 1000
                (Reference.key_frame 10 5000) Reference.video_consumer
                Reference_video_consumer_encodings)
      as [[c' packet'] H].
    exists c', packet'. split; [exact H |].
    refine (proj1
              (SendRtpPacket_managers_in_lockstep (E := Reference.collaborators)
                 1000 (Reference.key_frame 10 5000) packet'
                 Reference.video_consumer c'
                 Reference_EncodePayload_keeps_header _ _ _ H) _).
    + reflexivity.
    + decide_by_evaluation.
    + reflexivity.
    + vm_compute. reflexivity.
  - destruct (SendRtpPacket_defined (E := Reference.collaborators) 1000
                (ReferenceMore.refused_key_frame 10 5000) Reference.video_consumer
                Reference_video_consumer_encodings)
      as [[c' packet'] H].
    exists c', packet'. split; [exact H |].
    refine (proj2
              (SendRtpPacket_managers_in_lockstep (E := Reference.collaborators)
                 1000 (ReferenceMore.refused_key_frame 10 5000) packet'
                 Reference.video_consumer c'
                 Reference_EncodePayload_keeps_header _ _ _ H) _).
    + reflexivity.
    + decide_by_evaluation.
    + reflexivity.
    + vm_compute. reflexivity.
Defined.

(** X5 at the first key frame of the video consumer. *)
Lemma SendRtpPacket_emits_with_own_ssrc_witness :
  exists c' packet',
    SendRtpPacket (E := Reference.collaborators) 1000
      (Reference.key_frame 10 5000) Reference.video_consumer
    = Some (c', packet') /\
    (listener (consumer c') = listener (consumer Reference.video_consumer) \/
     exists sent encoding rest,
       encodings (rtpParameters (consumer Reference.video_consumer))
       = encoding :: rest /\
       listener (consumer c') =
         (listener (consumer Reference.video_consumer)
          ++ [Reference.ConsumerSendRtpPacket sent])%list /\
       RtpPacket.ssrc sent = RtpEncodingParameters.ssrc encoding /\
       Uint.in_range 16 (RtpPacket.sequenceNumber sent) /\
       Uint.in_range 32 (RtpPacket.timestamp sent)).
Proof.
  destruct (SendRtpPacket_defined (E := Reference.collaborators) 1000
              (Reference.key_frame 10 5000) Reference.video_consumer
              Reference_video_consumer_encodings)
    as [[c' packet'] H].
  exists c', packet'. split; [exact H |].
  exact (SendRtpPacket_emits_with_own_ssrc (E := Reference.collaborators) 1000
           (Reference.key_frame 10 5000) packet' Reference.video_consumer c'
           Reference_ReceivePacket_reads_only H).
Defined.

(** X6 at 800 ms after the last report, against the video interval. *)
Lemma RtcpSuppressed_threshold_witness :
  RtcpSuppressed (E := Reference.collaborators) 800
    (consumer Reference.video_consumer) = true <->
  115 * Uint.u64 (800 - lastRtcpSentTime (consumer Reference.video_consumer))
  < 100 * maxRtcpInterval (consumer Reference.video_consumer).
Proof.
  apply (RtcpSuppressed_threshold (E := Reference.collaborators) 800
           (consumer Reference.video_consumer)).
  - vm_compute. split; [discriminate | reflexivity].
  - vm_compute. reflexivity.
Defined.


(** X10 at the base object of the video consumer: the VP8 codec lists
    the three kinds of feedback. *)
Lemma CreateRtpStream_stream_witness :
  exists params c,
    CreateRtpStream (E := Reference.collaborators) ReferenceMore.video_base
    = Some c /\
    consumer c = ReferenceMore.video_base /\
    RtpStream.ssrc params = 2222 /\
    RtpStream.useNack params = true /\
    RtpStream.usePli params = true /\
    RtpStream.useFir params = true /\
    rtpStream c = Reference.SendStream_new params 1500.
Proof.
  destruct (CreateRtpStream_stream (E := Reference.collaborators)
              ReferenceMore.video_base (Reference.encoding_with_ssrc 2222) []
              eq_refl)
    as (params & c & Hc & Hb & Hssrc & _ & _ & _ & Hn & Hp & Hf & Hs).
  exists params, c.
  exact (conj Hc (conj Hb (conj Hssrc (conj Hn (conj Hp (conj Hf Hs)))))).
Defined.

(** X11 at a fraction lost of 16. *)
Lemma GetLossPercentage_exact_witness :
  Ieee32.is_finite (RtpStreamInline.GetLossPercentage ReferenceMore.lossy_producer)
  = true /\
  QArith_base.Qeq
    (Ieee32.to_Q (RtpStreamInline.GetLossPercentage ReferenceMore.lossy_producer))
    (QArith_base.Qmake (16 * 100) 256).
Proof.
  destruct (GetLossPercentage_exact ReferenceMore.lossy_producer)
    as (Hf & Hq & _).
  - vm_compute. split; [discriminate | reflexivity].
  - split; [exact Hf | exact Hq].
Defined.

(** X12 at a consumer losing 64 of 256 whose producer loses 16. *)
Lemma GetLossPercentage_difference_witness :
  Ieee32.is_finite
    (GetLossPercentage (E := Reference.collaborators)
       ReferenceMore.lossy_video_consumer) = true /\
  QArith_base.Qeq
    (Ieee32.to_Q
       (GetLossPercentage (E := Reference.collaborators)
          ReferenceMore.lossy_video_consumer))
    (QArith_base.Qmake (Z.max 0 (64 - 16) * 100) 256).
Proof.
  destruct (GetLossPercentage_difference (E := Reference.collaborators)
              ReferenceMore.lossy_video_consumer ReferenceMore.lossy_producer)
    as (Hf & Hq & _).
  - reflexivity.
  - reflexivity.
  - vm_compute. split; [discriminate | reflexivity].
  - vm_compute. split; [discriminate | reflexivity].
  - split; [exact Hf | exact Hq].
Defined.

(** X14 at the encoding built from an object with a frame rate. *)
Lemma FromJson_normal_form_witness :
  RtpEncodingParameters.well_typed
    (RtpEncodingParameters.with_maxFramerate RtpEncodingParameters.thirty) /\
  (RtpEncodingParameters.hasCodecPayloadType
     (RtpEncodingParameters.with_maxFramerate RtpEncodingParameters.thirty)
   = false ->
   RtpEncodingParameters.codecPayloadType
     (RtpEncodingParameters.with_maxFramerate RtpEncodingParameters.thirty)
   = 0) /\
  (RtpEncodingParameters.hasRtx
     (RtpEncodingParameters.with_maxFramerate RtpEncodingParameters.thirty)
   = false ->
   RtpEncodingParameters.rtx
     (RtpEncodingParameters.with_maxFramerate RtpEncodingParameters.thirty)
   = RtpRtxParameters.default).
Proof.
  apply (FromJson_normal_form RtpEncodingParameters.Rtx_FromJson
           ReferenceMore.object_with_framerate
           (RtpEncodingParameters.with_maxFramerate RtpEncodingParameters.thirty)).
  vm_compute. reflexivity.
Defined.

(** X15 at the encoding built from an object with a frame rate. *)
Lemma FromJson_round_trip_witness :
  exists e',
    RtpEncodingParameters.FromJson RtpEncodingParameters.Rtx_FromJson
      (RtpEncodingParameters.FillJson RtpEncodingParameters.Rtx_FillJson
         (RtpEncodingParameters.with_maxFramerate RtpEncodingParameters.thirty))
    = Ok e' /\
    RtpEncodingParameters.equal
      (RtpEncodingParameters.with_maxFramerate RtpEncodingParameters.thirty) e'.
Proof.
  apply (FromJson_round_trip
           RtpEncodingParameters.Rtx_FromJson RtpEncodingParameters.Rtx_FillJson
           ReferenceMore.object_with_framerate
           (RtpEncodingParameters.with_maxFramerate RtpEncodingParameters.thirty)).
  - vm_compute. reflexivity.
  - discriminate.
  - reflexivity.
Defined.

(** X17 at an encoding that does not make the round trip: a
    [codecPayloadType] kept without [hasCodecPayloadType]. *)
Lemma FillJson_FromJson_stable_witness :
  exists e',
    RtpEncodingParameters.FromJson RtpEncodingParameters.Rtx_FromJson
      (RtpEncodingParameters.FillJson RtpEncodingParameters.Rtx_FillJson
         RtpEncodingParameters.stale_codecPayloadType)
    = Ok e' /\
    RtpEncodingParameters.FillJson RtpEncodingParameters.Rtx_FillJson e'
    = RtpEncodingParameters.FillJson RtpEncodingParameters.Rtx_FillJson
        RtpEncodingParameters.stale_codecPayloadType /\
    RtpEncodingParameters.FromJson RtpEncodingParameters.Rtx_FromJson
      (RtpEncodingParameters.FillJson RtpEncodingParameters.Rtx_FillJson e')
    = Ok e'.
Proof.
  apply (FillJson_FromJson_stable
           RtpEncodingParameters.Rtx_FromJson RtpEncodingParameters.Rtx_FillJson
           RtpEncodingParameters.stale_codecPayloadType).
  - unfold RtpEncodingParameters.well_typed, Uint.in_range. simpl. lia.
  - discriminate.
Defined.

(** X18: a resync at 3000 ms of a 90 kHz stream whose last packet left
    at 1000 ms moves the timestamps by 180000 ticks. *)
Lemma SyncOffset_elapsed_ticks_witness :
  SyncOffset 3000 ReferenceMore.video_stream_sent_at_1000
  = (3000 - 1000) * 90000 / 1000.
Proof.
  destruct (SyncOffset_elapsed_ticks 3000 ReferenceMore.video_stream_sent_at_1000)
    as [_ H].
  - vm_compute. split; [discriminate | reflexivity].
  - vm_compute. split; [discriminate | reflexivity].
  - apply H. vm_compute. reflexivity.
Defined.
